(** * sdk-collector: the collector service of src/app.py and src/models.py

    A shallow embedding of the Flask application: the JSON values the
    handlers receive, the Python operations they apply to them, the two
    tables of models.py, the session through which rows are written, the
    Prometheus instruments, and the handlers themselves.  The theorems at
    the end settle the statements of the specification against this
    embedding. *)

From Stdlib Require Import ZArith List String Ascii Bool Lia.
From Stdlib Require Import Permutation Sorted Orders Mergesort.
Import ListNotations.

Local Open Scope string_scope.
Local Open Scope Z_scope.
Local Open Scope list_scope.

(* ================================================================== *)
(** ** Python values and exceptions *)

(** What [request.get_json()] hands to a handler.  Objects are Python
    dicts: insertion-ordered, looked up by key, so an association list
    whose first binding of a key is the one a lookup finds.  Numbers are
    JSON integers; no handler does arithmetic on a payload number. *)
#[warnings="-register-all"]
Inductive json : Type :=
| JNull
| JBool (b : bool)
| JInt (n : Z)
| JStr (s : string)
| JArr (xs : list json)
| JObj (kvs : list (string * json)).

(** The exception classes the handlers can meet. *)
Inductive exn : Type :=
| KeyError
| TypeError
| AttributeError
| ValueError
| DatabaseError.

(** A computation that returns or raises. *)
Inductive exc (A : Type) : Type :=
| Ret (a : A)
| Raise (e : exn).
Arguments Ret {A} a.
Arguments Raise {A} e.

Definition bind {A B} (m : exc A) (k : A -> exc B) : exc B :=
  match m with
  | Ret a => k a
  | Raise e => Raise e
  end.

Notation "x <- m ;; k" := (bind m (fun x => k))
  (at level 61, m at next level, right associativity).

Module Py.

(** [bool(v)]: what [not v] and [v or d] test. *)
Definition truthy (v : json) : bool :=
  match v with
  | JNull => false
  | JBool b => b
  | JInt n => negb (n =? 0)
  | JStr s => negb (String.eqb s "")
  | JArr xs => match xs with [] => false | _ => true end
  | JObj kvs => match kvs with [] => false | _ => true end
  end.

(** [v or d]. *)
Definition or_else (v d : json) : json := if truthy v then v else d.

Fixpoint lookup (k : string) (kvs : list (string * json)) : option json :=
  match kvs with
  | [] => None
  | (k', v) :: rest => if String.eqb k k' then Some v else lookup k rest
  end.

Definition is_substring (needle hay : string) : bool :=
  match String.index 0 needle hay with
  | Some _ => true
  | None => false
  end.

(** [k in v] for a string [k]: key membership on a dict, element
    equality on a list, substring on a string, TypeError elsewhere. *)
Definition contains (k : string) (v : json) : exc bool :=
  match v with
  | JObj kvs => Ret (match lookup k kvs with Some _ => true | None => false end)
  | JArr xs =>
      Ret (existsb (fun x => match x with JStr s => String.eqb s k | _ => false end) xs)
  | JStr s => Ret (is_substring k s)
  | _ => Raise TypeError
  end.

(** [v[k]] for a string [k]: KeyError on a dict without the key, TypeError
    on every other value (a list or a string wants an integer index, the
    rest is not subscriptable). *)
Definition getitem (v : json) (k : string) : exc json :=
  match v with
  | JObj kvs =>
      match lookup k kvs with
      | Some x => Ret x
      | None => Raise KeyError
      end
  | _ => Raise TypeError
  end.

(** [v.get(k, d)]: only a dict has the method. *)
Definition get (v : json) (k : string) (d : json) : exc json :=
  match v with
  | JObj kvs =>
      match lookup k kvs with
      | Some x => Ret x
      | None => Ret d
      end
  | _ => Raise AttributeError
  end.

(** [s.replace(old, new)] for a one-character [old]: every occurrence. *)
Fixpoint replace (old : ascii) (new : string) (s : string) : string :=
  match s with
  | EmptyString => EmptyString
  | String c rest =>
      if Ascii.eqb c old then (new ++ replace old new rest)%string
      else String c (replace old new rest)
  end.

(** Dict keys.  A dict finds a key by hash and [==], under which [True]
    is [1] and [False] is [0]; lists and dicts are unhashable. *)
Inductive hkey : Type :=
| KNone
| KNum (n : Z)
| KText (s : string).

Definition hash_key (v : json) : exc hkey :=
  match v with
  | JNull => Ret KNone
  | JBool b => Ret (KNum (if b then 1 else 0))
  | JInt n => Ret (KNum n)
  | JStr s => Ret (KText s)
  | JArr _ => Raise TypeError
  | JObj _ => Raise TypeError
  end.

Definition hkey_eqb (a b : hkey) : bool :=
  match a, b with
  | KNone, KNone => true
  | KNum x, KNum y => x =? y
  | KText s, KText t => String.eqb s t
  | _, _ => false
  end.

End Py.

(* ================================================================== *)
(** ** datetime *)

Module Datetime.

(** A [datetime.datetime]: the calendar reading and, for an aware value,
    its offset east of UTC in microseconds ([None] for a naive one). *)
Record datetime : Type := mk {
  year : Z;
  month : Z;
  day : Z;
  hour : Z;
  minute : Z;
  second : Z;
  microsecond : Z;
  utcoffset : option Z
}.

Definition is_leap (y : Z) : bool :=
  (y mod 4 =? 0) && (negb (y mod 100 =? 0) || (y mod 400 =? 0)).

Definition days_in_month (y m : Z) : Z :=
  if m =? 2 then (if is_leap y then 29 else 28)
  else if (m =? 4) || (m =? 6) || (m =? 9) || (m =? 11) then 30
  else 31.

Definition days_before_year (y : Z) : Z :=
  (y - 1) * 365 + (y - 1) / 4 - (y - 1) / 100 + (y - 1) / 400.

Fixpoint days_before_month_from (y : Z) (m : nat) : Z :=
  match m with
  | O => 0
  | S m' => days_before_month_from y m' + days_in_month y (Z.of_nat m)
  end.

Definition days_before_month (y m : Z) : Z :=
  days_before_month_from y (Z.to_nat (m - 1)).

(** [date.toordinal()]. *)
Definition toordinal (d : datetime) : Z :=
  days_before_year (year d) + days_before_month (year d) (month d) + day d.

(** The calendar reading as a count of microseconds: the order of a
    DateTime column, which holds no offset. *)
Definition wall_us (d : datetime) : Z :=
  (((toordinal d * 24 + hour d) * 60 + minute d) * 60 + second d) * 1000000
  + microsecond d.


(** [d.replace(tzinfo=None)]: the calendar reading, without the offset. *)
Definition naive (d : datetime) : datetime :=
  mk (year d) (month d) (day d) (hour d) (minute d) (second d)
     (microsecond d) None.

(** [_ord2ymd]: the date of a proleptic Gregorian ordinal. *)
Definition ord2ymd (ordinal : Z) : Z * Z * Z :=
  let n := ordinal - 1 in
  let n400 := n / 146097 in
  let n := n mod 146097 in
  let n100 := n / 36524 in
  let n := n mod 36524 in
  let n4 := n / 1461 in
  let n := n mod 1461 in
  let n1 := n / 365 in
  let n := n mod 365 in
  let y := n400 * 400 + 1 + n100 * 100 + n4 * 4 + n1 in
  if (n1 =? 4) || (n100 =? 4) then (y - 1, 12, 31)
  else
    let m := Z.shiftr (n + 50) 5 in
    let preceding := days_before_month y m in
    if n <? preceding
    then (y, m - 1, n - (preceding - days_in_month y (m - 1)) + 1)
    else (y, m, n - preceding + 1).

(** The naive value whose calendar reading is a count of microseconds. *)
Definition of_wall_us (us : Z) : datetime :=
  let '(y, mo, d) := ord2ymd (us / 86400000000) in
  let r := us mod 86400000000 in
  mk y mo d (r / 3600000000) ((r / 60000000) mod 60) ((r / 1000000) mod 60)
     (r mod 1000000) None.

(** [d.astimezone(timezone(off)).replace(tzinfo=None)] for an aware [d]:
    the reading of the same instant on a clock [off] microseconds east of
    UTC.  A naive value has no instant and keeps its reading. *)
Definition reading_in_zone (off : Z) (d : datetime) : datetime :=
  match utcoffset d with
  | Some o => of_wall_us (wall_us d - o + off)
  | None => d
  end.

(** The range checks of the [datetime(...)] constructor. *)
Definition valid_reading (y mo d h mi s us : Z) : bool :=
  (1 <=? y) && (y <=? 9999) && (1 <=? mo) && (mo <=? 12)
  && (1 <=? d) && (d <=? days_in_month y mo)
  && (0 <=? h) && (h <=? 23) && (0 <=? mi) && (mi <=? 59)
  && (0 <=? s) && (s <=? 59) && (0 <=? us) && (us <=? 999999).

Definition day_us : Z := 86400000000.

(** [timezone(offset)] wants the offset strictly within a day. *)
Definition valid_offset (o : option Z) : bool :=
  match o with
  | None => true
  | Some off => (- day_us <? off) && (off <? day_us)
  end.

Definition construct (y mo d h mi s us : Z) (o : option Z) : exc datetime :=
  if valid_reading y mo d h mi s us && valid_offset o
  then Ret (mk y mo d h mi s us o)
  else Raise ValueError.

(** *** Decimal digits *)

Definition digit_of (c : ascii) : option Z :=
  let n := Z.of_N (N_of_ascii c) in
  if (48 <=? n) && (n <=? 57) then Some (n - 48) else None.

(** The character of the last decimal digit of [n]. *)
Definition digit_char (n : Z) : ascii :=
  ascii_of_N (Z.to_N (48 + n mod 10)).

Fixpoint digits_value (s : string) (acc : Z) : option Z :=
  match s with
  | EmptyString => Some acc
  | String c rest =>
      match digit_of c with
      | Some v => digits_value rest (acc * 10 + v)
      | None => None
      end
  end.

(** [int(s)] on a field of exactly [n] characters, all of them digits. *)
Definition int_field (n : nat) (s : string) : option Z :=
  if Nat.eqb (String.length s) n then
    match s with
    | EmptyString => None
    | _ => digits_value s 0
    end
  else None.

(** [n] rendered on [w] digits, zero padded ([%0wd] for [0 <= n < 10^w]). *)
Fixpoint render_digits (w : nat) (n : Z) : string :=
  match w with
  | O => EmptyString
  | S w' => (render_digits w' (n / 10) ++ String (digit_char n) EmptyString)%string
  end.

(** *** [datetime.fromisoformat]

    The grammar of Python 3.7 to 3.10, the narrowest one (later versions
    read more strings and read these the same way):
    [YYYY-MM-DD[*HH[:MM[:SS[.fff[fff]]]][+HH:MM[:SS[.ffffff]]]]], with the
    structure of [Lib/datetime.py]. *)

Definition opt_bind {A B} (m : option A) (k : A -> option B) : option B :=
  match m with
  | Some a => k a
  | None => None
  end.

Notation "x <-? m ;; k" := (opt_bind m (fun x => k))
  (at level 61, m at next level, right associativity).

(** [_parse_isoformat_date], on the first ten characters. *)
Definition parse_isoformat_date (dstr : string) : option (Z * Z * Z) :=
  y <-? int_field 4 (substring 0 4 dstr) ;;
  match String.get 4 dstr with
  | Some "-"%char =>
      m <-? int_field 2 (substring 5 2 dstr) ;;
      match String.get 7 dstr with
      | Some "-"%char =>
          d <-? int_field 2 (substring 8 2 dstr) ;;
          Some (y, m, d)
      | _ => None
      end
  | _ => None
  end.

(** The loop of [_parse_hh_mm_ss_ff] over at most [left] two-digit
    components separated by colons; [left] counts down from 3.  Returns
    the components read and what follows them. *)
Fixpoint parse_components (left : nat) (tstr : string) : option (list Z * string) :=
  match left with
  | O => None
  | S left' =>
      match tstr with
      | String a (String b rest) =>
          v <-? int_field 2 (String a (String b EmptyString)) ;;
          match rest, left' with
          | EmptyString, _ => Some ([v], rest)
          | _, O => Some ([v], rest)
          | String ":"%char rest', _ =>
              r <-? parse_components left' rest' ;;
              Some (v :: fst r, snd r)
          | _, _ => None
          end
      | _ => None
      end
  end.

(** [_parse_hh_mm_ss_ff]: hour, minute, second, microsecond. *)
Definition parse_hh_mm_ss_ff (tstr : string) : option (Z * Z * Z * Z) :=
  r <-? parse_components 3 tstr ;;
  let comps := fst r in
  let h := nth 0 comps 0 in
  let mi := nth 1 comps 0 in
  let s := nth 2 comps 0 in
  match snd r with
  | EmptyString => Some (h, mi, s, 0)
  | String "."%char frac =>
      match String.length frac with
      | 3%nat => us <-? int_field 3 frac ;; Some (h, mi, s, us * 1000)
      | 6%nat => us <-? int_field 6 frac ;; Some (h, mi, s, us)
      | _ => None
      end
  | _ => None
  end.

(** [s.find(c)]: the index of the first [c]. *)
Fixpoint find_char (c : ascii) (s : string) : option nat :=
  match s with
  | EmptyString => None
  | String x rest =>
      if Ascii.eqb x c then Some O else option_map S (find_char c rest)
  end.

Definition drop (n : nat) (s : string) : string :=
  substring n (String.length s - n) s.

(** [_parse_isoformat_time]: the time of day and the offset. *)
Definition parse_isoformat_time (tstr : string) : option (Z * Z * Z * Z * option Z) :=
  if Nat.ltb (String.length tstr) 2 then None else
  let tz_pos :=
    match find_char "-" tstr with
    | Some i => Some i
    | None => find_char "+" tstr
    end in
  match tz_pos with
  | None =>
      t <-? parse_hh_mm_ss_ff tstr ;;
      let '(h, mi, s, us) := t in Some (h, mi, s, us, None)
  | Some i =>
      t <-? parse_hh_mm_ss_ff (substring 0 i tstr) ;;
      let '(h, mi, s, us) := t in
      let tzstr := drop (S i) tstr in
      let n := String.length tzstr in
      if Nat.eqb n 5 || Nat.eqb n 8 || Nat.eqb n 15 then
        z <-? parse_hh_mm_ss_ff tzstr ;;
        let '(zh, zm, zs, zus) := z in
        let td := ((zh * 60 + zm) * 60 + zs) * 1000000 + zus in
        let sign := match String.get i tstr with
                    | Some "-"%char => -1
                    | _ => 1
                    end in
        Some (h, mi, s, us, Some (sign * td))
      else None
  end.

Definition fromisoformat (date_string : string) : exc datetime :=
  let dstr := substring 0 10 date_string in
  let tstr := drop 11 date_string in
  match parse_isoformat_date dstr with
  | None => Raise ValueError
  | Some (y, mo, d) =>
      match tstr with
      | EmptyString => construct y mo d 0 0 0 0 None
      | _ =>
          match parse_isoformat_time tstr with
          | None => Raise ValueError
          | Some (h, mi, s, us, o) => construct y mo d h mi s us o
          end
      end
  end.

(** *** [datetime.isoformat] *)

Definition format_time (d : datetime) : string :=
  let frac :=
    if microsecond d =? 0 then EmptyString
    else ("." ++ render_digits 6 (microsecond d))%string in
  (render_digits 2 (hour d) ++ ":" ++ render_digits 2 (minute d) ++ ":"
   ++ render_digits 2 (second d) ++ frac)%string.

Definition format_offset (o : option Z) : string :=
  match o with
  | None => EmptyString
  | Some off =>
      let a := Z.abs off in
      let us := a mod 1000000 in
      let ss := (a / 1000000) mod 60 in
      let mm := (a / 60000000) mod 60 in
      let hh := a / 3600000000 in
      let sign := if off <? 0 then "-"%string else "+"%string in
      let frac :=
        if us =? 0 then EmptyString else ("." ++ render_digits 6 us)%string in
      let secs :=
        if (ss =? 0) && (us =? 0) then EmptyString
        else (":" ++ render_digits 2 ss ++ frac)%string in
      (sign ++ render_digits 2 hh ++ ":" ++ render_digits 2 mm ++ secs)%string
  end.

Definition format_date (d : datetime) : string :=
  (render_digits 4 (year d) ++ "-" ++ render_digits 2 (month d) ++ "-"
   ++ render_digits 2 (day d))%string.

Definition isoformat (d : datetime) : string :=
  (format_date d ++ "T" ++ format_time d ++ format_offset (utcoffset d))%string.

End Datetime.

Import Datetime.

(* ================================================================== *)
(** ** models.py *)

Module Client.

(** A row of [clients]. *)
Record t : Type := mk {
  id : Z;
  api_key : string;
  name : option string;
  created_at : datetime;
  is_active : bool
}.

(** [Client(api_key=..., name=...)] before it is flushed: the attributes
    hold the Python values they were given. *)
Record obj : Type := new {
  o_api_key : string;
  o_name : json
}.

End Client.

Module Event.

(** A row of [events].  [page_title], [referrer] and [sdk_version] are the
    nullable columns. *)
Record t : Type := mk {
  id : Z;
  client_id : Z;
  visitor_id : string;
  session_id : string;
  page_url : string;
  page_title : option string;
  referrer : option string;
  event_type : string;
  sdk_version : option string;
  sent_at : datetime;
  received_at : datetime;
  raw_data : json
}.

(** [Event(client_id=..., visitor_id=..., ...)] before it is flushed.  The
    constructor call of [track_event] names eight attributes; the others
    keep their column defaults. *)
Record obj : Type := new {
  o_client_id : Z;
  o_visitor_id : json;
  o_session_id : json;
  o_page_url : json;
  o_event_type : json;
  o_sdk_version : json;
  o_sent_at : datetime;
  o_raw_data : json
}.

End Event.

(** The persistence engine behind SQLAlchemy, a collaborator of the
    program: how it adapts a Python value that is neither [None] nor a
    [str] when the value is bound to a text column ([None] when it refuses
    the value), what it keeps of a datetime bound to a column declared
    [db.DateTime], which holds no offset, and whether it takes a row that
    passed the checks models.py states (length limits and the like). *)
Record Engine : Type := {
  bind_text : json -> option string;
  bind_datetime : datetime -> datetime;
  accepts_client : Client.t -> bool;
  accepts_event : Event.t -> bool
}.

(** An engine that takes strings, and only strings, for a text column,
    and keeps the calendar reading of a datetime, dropping its offset, as
    SQLite does. *)
Definition strict_engine : Engine :=
  {| bind_text := fun _ => None;
     bind_datetime := naive;
     accepts_client := fun _ => true;
     accepts_event := fun _ => true |}.


(** A value bound to a text column or compared with one. *)
Definition as_text (eng : Engine) (v : json) : option string :=
  match v with
  | JStr s => Some s
  | _ => bind_text eng v
  end.

(** The Prometheus instruments, as the calls made on them: a counter's
    value at a label is the number of its [inc()] calls there.  Label
    values are recorded as passed to [labels()]. *)
Inductive sample : Type :=
| events_counter_inc (event_type : json) (client : option string)
| request_duration_observe (endpoint : string) (seconds : Z)
| error_counter_inc (type : string).

(** [db.session]: the objects added and not yet flushed. *)
Inductive pending : Type :=
| PendingClient (c : Client.obj)
| PendingEvent (e : Event.obj).

(** The state a request runs against: the two tables with their id
    sequences, the session, and the instruments. *)
Record world : Type := {
  clients : list Client.t;
  events : list Event.t;
  next_client_id : Z;
  next_event_id : Z;
  session : list pending;
  metrics : list sample
}.

(** What a request draws from outside: the clock, read once when a row
    is flushed, for the column defaults [default=datetime.utcnow] of
    models.py, and once more when [track_event] calls [datetime.utcnow()]
    for its receipt; the random token of [secrets.token_urlsafe(32)]; and
    the time the handler took. *)
Record env : Type := {
  default_utcnow : datetime;
  utcnow : datetime;
  token_urlsafe : string;
  elapsed : Z
}.

Definition errors_total (type : string) (m : list sample) : nat :=
  List.length
    (filter (fun s => match s with
                      | error_counter_inc t => String.eqb t type
                      | _ => false
                      end) m).

Definition observe (s : sample) (w : world) : world :=
  {| clients := clients w; events := events w;
     next_client_id := next_client_id w; next_event_id := next_event_id w;
     session := session w; metrics := metrics w ++ [s] |}.

(** *** The session *)

Definition session_add (p : pending) (w : world) : world :=
  {| clients := clients w; events := events w;
     next_client_id := next_client_id w; next_event_id := next_event_id w;
     session := session w ++ [p]; metrics := metrics w |}.

(** [db.session.rollback()]: the pending objects are dropped. *)
Definition session_rollback (w : world) : world :=
  {| clients := clients w; events := events w;
     next_client_id := next_client_id w; next_event_id := next_event_id w;
     session := []; metrics := metrics w |}.

Section Persistence.

Variable eng : Engine.
Variable ev : env.

(** A value bound to a [nullable=False] text column. *)
Definition required_text (v : json) : exc string :=
  match v with
  | JNull => Raise DatabaseError
  | _ => match as_text eng v with
         | Some s => Ret s
         | None => Raise DatabaseError
         end
  end.

(** A value bound to a nullable text column. *)
Definition optional_text (v : json) : exc (option string) :=
  match v with
  | JNull => Ret None
  | _ => match as_text eng v with
         | Some s => Ret (Some s)
         | None => Raise DatabaseError
         end
  end.

Definition key_taken (k : string) (cs : list Client.t) : bool :=
  existsb (fun c => String.eqb (Client.api_key c) k) cs.

(** INSERT of a client: [api_key] is unique, [created_at] and [is_active]
    take their defaults. *)
Definition insert_client (w : world) (o : Client.obj) : exc Client.t :=
  nm <- optional_text (Client.o_name o) ;;
  let row := Client.mk (next_client_id w) (Client.o_api_key o) nm
                       (default_utcnow ev) true in
  if key_taken (Client.o_api_key o) (clients w) then Raise DatabaseError
  else if accepts_client eng row then Ret row
  else Raise DatabaseError.

(** INSERT of an event: [received_at] takes its default, [page_title] and
    [referrer], which the object never had set, are NULL; [sent_at] goes
    into a column without time zone and holds what the engine keeps of
    the value. *)
Definition insert_event (w : world) (o : Event.obj) : exc Event.t :=
  vid <- required_text (Event.o_visitor_id o) ;;
  sid <- required_text (Event.o_session_id o) ;;
  url <- required_text (Event.o_page_url o) ;;
  ty <- required_text (Event.o_event_type o) ;;
  sdk <- optional_text (Event.o_sdk_version o) ;;
  let row :=
    Event.mk (next_event_id w) (Event.o_client_id o) vid sid url None None
             ty sdk (bind_datetime eng (Event.o_sent_at o)) (default_utcnow ev)
             (Event.o_raw_data o) in
  if accepts_event eng row then Ret row else Raise DatabaseError.

(** The flush of one pending object into its table. *)
Definition flush_one (w : world) (p : pending) : exc world :=
  match p with
  | PendingClient o =>
      row <- insert_client w o ;;
      Ret {| clients := clients w ++ [row]; events := events w;
             next_client_id := next_client_id w + 1;
             next_event_id := next_event_id w;
             session := session w; metrics := metrics w |}
  | PendingEvent o =>
      row <- insert_event w o ;;
      Ret {| clients := clients w; events := events w ++ [row];
             next_client_id := next_client_id w;
             next_event_id := next_event_id w + 1;
             session := session w; metrics := metrics w |}
  end.

Fixpoint flush (w : world) (ps : list pending) : exc world :=
  match ps with
  | [] => Ret w
  | p :: rest => w' <- flush_one w p ;; flush w' rest
  end.

(** [db.session.commit()]: every pending object is flushed and the
    transaction committed, or the exception of the first refused row is
    raised; then the tables are as they were and the session still holds
    its objects, until it is rolled back. *)
Definition session_commit (w : world) : exc world :=
  w' <- flush w (session w) ;;
  Ret {| clients := clients w'; events := events w';
         next_client_id := next_client_id w';
         next_event_id := next_event_id w';
         session := []; metrics := metrics w' |}.

End Persistence.

(* ================================================================== *)
(** ** app.py *)

(** The body of a response. *)
Record event_view : Type := {
  view_id : Z;
  view_type : string;
  view_visitor : string;
  view_page : string;
  view_time : string;
  details_error : json;
  details_click : json;
  details_load_time : json
}.

Record error_view : Type := {
  err_message : json;
  err_file : json;
  err_line : json;
  err_page : string;
  err_time : string
}.

Record summary : Type := {
  summary_client : option string;
  total_events : nat;
  by_type : list (string * nat);
  unique_visitors : nat;
  first_event : option string
}.

Record error_report : Type := {
  total_errors : nat;
  recent_errors : list error_view;
  error_frequency : list (json * nat)
}.

Inductive content : Type :=
| Error (message : string)                 (* {'error': message} *)
| Registered (api_key : string)            (* success, api_key, message *)
| Receipt (event_id : Z) (received_at : string)
| Summary (s : summary)
| Recent (vs : list event_view)
| Errors (r : error_report).

(** What the caller gets: a handler's return value with its status, or the
    500 that Flask answers when an exception leaves the handler. *)
Inductive reply : Type :=
| Reply (status : Z) (body : content)
| Unhandled (e : exn).

Definition status_of (r : reply) : Z :=
  match r with
  | Reply s _ => s
  | Unhandled _ => 500
  end.

Definition generate_api_key (ev : env) : string :=
  ("sk_" ++ token_urlsafe ev)%string.

Section App.

Variable eng : Engine.
Variable ev : env.

(** *** POST /api/register *)

(** [data] is what [request.get_json()] returned. *)
Definition register_client (data : json) (w : world) : reply * world :=
  if negb (Py.truthy data) then (Reply 400 (Error "Client name required"), w)
  else
    match Py.contains "name" data with
    | Raise e => (Unhandled e, w)
    | Ret false => (Reply 400 (Error "Client name required"), w)
    | Ret true =>
        let api_key := generate_api_key ev in
        match Py.getitem data "name" with
        | Raise e => (Unhandled e, w)
        | Ret nm =>
            let w1 := session_add (PendingClient (Client.new api_key nm)) w in
            match session_commit eng ev w1 with
            | Raise e => (Unhandled e, w1)
            | Ret w2 => (Reply 201 (Registered api_key), w2)
            end
        end
    end.

(** *** The before_request hook *)

Record request : Type := {
  path : string;
  json_body : option json;   (* [request.get_json(silent=True)] *)
  x_api_key : option string  (* [request.headers.get('X-API-Key')] *)
}.

(** How the hook ends: it returns nothing on an allow-listed path, returns
    a response that ends the request, sets [g.client], or raises. *)
Inductive hook_result : Type :=
| Public
| Halted (r : reply)
| Attached (client : Client.t).

Definition public_paths : list string := ["/health"; "/api/register"; "/"; "/metrics"].

(** [Client.query.filter_by(api_key=..., is_active=True).first()] *)
Definition find_client (key : string) (cs : list Client.t) : option Client.t :=
  find (fun c => String.eqb (Client.api_key c) key && Client.is_active c) cs.

(** The hook reads the body with [silent=True], so that a body that is
    no JSON reads as None. *)
Definition authenticate (req : request) (w : world) : hook_result * world :=
  if existsb (String.eqb (path req)) public_paths then (Public, w)
  else
    let data := Py.or_else (match json_body req with Some j => j | None => JNull end)
                           (JObj []) in
    match Py.get data "api_key" JNull with
    | Raise e => (Halted (Unhandled e), w)
    | Ret body_key =>
        let api_key :=
          if Py.truthy body_key then body_key
          else match x_api_key req with
               | Some h => JStr h
               | None => JNull
               end in
        if negb (Py.truthy api_key) then
          (Halted (Reply 401 (Error "Missing api_key")),
           observe (error_counter_inc "auth_missing") w)
        else
          match as_text eng api_key with
          | None => (Halted (Unhandled DatabaseError), w)
          | Some key =>
              match find_client key (clients w) with
              | None =>
                  (Halted (Reply 401 (Error "Invalid API key")),
                   observe (error_counter_inc "auth_invalid") w)
              | Some client => (Attached client, w)
              end
          end
    end.

(** *** POST /api/events *)

Definition required : list string := ["event_type"; "sent_at"; "identifiers"; "page_info"].

(** The validation loop: the first required field that is not in [data]. *)
Fixpoint first_missing (fields : list string) (data : json) : exc (option string) :=
  match fields with
  | [] => Ret None
  | field :: rest =>
      present <- Py.contains field data ;;
      if present then first_missing rest data else Ret (Some field)
  end.

(** The [sent_at] argument: [datetime.fromisoformat(data['sent_at'].replace('Z', '+00:00'))] *)
Definition parse_sent_at (data : json) : exc datetime :=
  v <- Py.getitem data "sent_at" ;;
  match v with
  | JStr s => fromisoformat (Py.replace "Z" "+00:00" s)
  | _ => Raise AttributeError
  end.

(** The [Event(...)] call, its arguments evaluated in the order written. *)
Definition new_event (client : Client.t) (data : json) : exc Event.obj :=
  ids <- Py.getitem data "identifiers" ;;
  visitor_id <- Py.getitem ids "visitor_id" ;;
  ids' <- Py.getitem data "identifiers" ;;
  session_id <- Py.getitem ids' "session_id" ;;
  page <- Py.getitem data "page_info" ;;
  page_url <- Py.getitem page "url" ;;
  event_type <- Py.getitem data "event_type" ;;
  sdk_version <- Py.get data "sdk_version" JNull ;;
  sent_at <- parse_sent_at data ;;
  Ret (Event.new (Client.id client) visitor_id session_id page_url event_type
                 sdk_version sent_at data).

(** The [except Exception] branch. *)
Definition processing_failed (w : world) : reply * world :=
  (Reply 500 (Error "Failed to process event"),
   session_rollback (observe (error_counter_inc "processing") w)).

(** [client] is [g.client], [data] what [request.get_json()] returned.
    The validation loop runs before the [try]; the id in the receipt is
    the one the commit gave the event. *)
Definition track_event (client : Client.t) (data : json) (w : world) : reply * world :=
  match first_missing required data with
  | Raise e => (Unhandled e, w)
  | Ret (Some field) =>
      (Reply 400 (Error ("Missing " ++ field)),
       observe (error_counter_inc "validation") w)
  | Ret None =>
      match new_event client data with
      | Raise _ => processing_failed w
      | Ret event =>
          let w1 := session_add (PendingEvent event) w in
          match session_commit eng ev w1 with
          | Raise _ => processing_failed w1
          | Ret w2 =>
              let w3 := observe (events_counter_inc (Event.o_event_type event)
                                                    (Client.name client)) w2 in
              let w4 := observe (request_duration_observe "/api/events" (elapsed ev)) w3 in
              (Reply 201 (Receipt (next_event_id w2 - 1) (isoformat (utcnow ev))), w4)
          end
      end
  end.

(** *** The analytics queries *)

Definition owned_by (client : Client.t) (e : Event.t) : bool :=
  Event.client_id e =? Client.id client.

(** [order_by(Event.sent_at.desc())] and [.asc()], as comparisons. *)
Definition newest_first (a b : Event.t) : bool :=
  wall_us (Event.sent_at b) <=? wall_us (Event.sent_at a).

Definition oldest_first (a b : Event.t) : bool :=
  wall_us (Event.sent_at a) <=? wall_us (Event.sent_at b).

(** ORDER BY: rows that compare equal come in table order. *)
Fixpoint insert_by {A} (leb : A -> A -> bool) (x : A) (l : list A) : list A :=
  match l with
  | [] => [x]
  | y :: rest => if leb x y then x :: l else y :: insert_by leb x rest
  end.

Definition order_by {A} (leb : A -> A -> bool) (l : list A) : list A :=
  fold_right (insert_by leb) [] l.

(** [a] may stand before [b] in the result of [order_by leb]. *)
Definition precedes {A} (leb : A -> A -> bool) (a b : A) : Prop := leb a b = true.

(** GROUP BY with [count]: one pair per distinct key. *)
Fixpoint count_key (k : string) (groups : list (string * nat)) : list (string * nat) :=
  match groups with
  | [] => [(k, 1%nat)]
  | (k', n) :: rest =>
      if String.eqb k k' then (k', S n) :: rest else (k', n) :: count_key k rest
  end.

Definition group_count (keys : list string) : list (string * nat) :=
  fold_left (fun groups k => count_key k groups) keys [].

(** *** GET /api/analytics/summary *)

Definition analytics_summary (client : Client.t) (w : world) : reply :=
  let mine := filter (owned_by client) (events w) in
  let total := List.length mine in
  let by_type := group_count (map Event.event_type mine) in
  let unique_visitors := List.length (nodup string_dec (map Event.visitor_id mine)) in
  if Nat.ltb 0 total then
    match order_by oldest_first mine with
    | first :: _ =>
        Reply 200 (Summary {| summary_client := Client.name client;
                              total_events := total;
                              by_type := by_type;
                              unique_visitors := unique_visitors;
                              first_event := Some (isoformat (Event.sent_at first)) |})
    | [] => Unhandled AttributeError
    end
  else
    Reply 200 (Summary {| summary_client := Client.name client;
                          total_events := total;
                          by_type := by_type;
                          unique_visitors := unique_visitors;
                          first_event := None |}).

(** *** GET /api/analytics/recent *)

(** [e.raw_data.get(outer, {}).get(inner) if e.event_type == ty else None] *)
Definition detail (e : Event.t) (ty outer inner : string) : exc json :=
  if String.eqb (Event.event_type e) ty then
    info <- Py.get (Event.raw_data e) outer (JObj []) ;;
    Py.get info inner JNull
  else Ret JNull.

Definition view_event (e : Event.t) : exc event_view :=
  err <- detail e "error" "error_info" "message" ;;
  click <- detail e "click" "click_info" "element" ;;
  load <- detail e "page_view" "performance" "load_time" ;;
  Ret {| view_id := Event.id e;
         view_type := Event.event_type e;
         view_visitor := Event.visitor_id e;
         view_page := Event.page_url e;
         view_time := isoformat (Event.sent_at e);
         details_error := err;
         details_click := click;
         details_load_time := load |}.

(** A list comprehension whose element expression may raise. *)
Fixpoint comprehension {A B} (f : A -> exc B) (l : list A) : exc (list B) :=
  match l with
  | [] => Ret []
  | x :: rest => y <- f x ;; ys <- comprehension f rest ;; Ret (y :: ys)
  end.

(** The rows selected by the query of [recent_events]. *)
Definition recent_query (client : Client.t) (w : world) : list Event.t :=
  firstn 50 (order_by newest_first (filter (owned_by client) (events w))).

Definition recent_events (client : Client.t) (w : world) : reply :=
  match comprehension view_event (recent_query client w) with
  | Ret views => Reply 200 (Recent views)
  | Raise e => Unhandled e
  end.

(** *** GET /api/analytics/errors *)

Definition is_error_of (client : Client.t) (e : Event.t) : bool :=
  owned_by client e && String.eqb (Event.event_type e) "error".

(** The rows selected by the query of [error_analytics]. *)
Definition errors_query (client : Client.t) (w : world) : list Event.t :=
  firstn 100 (order_by newest_first (filter (is_error_of client) (events w))).

(** [e.raw_data.get('error_info', {}).get(field, default)] *)
Definition error_info (e : Event.t) (field : string) (default : json) : exc json :=
  info <- Py.get (Event.raw_data e) "error_info" (JObj []) ;;
  Py.get info field default.

(** Two values that are one key of a dict. *)
Definition same_key (a b : json) : bool :=
  match Py.hash_key a, Py.hash_key b with
  | Ret x, Ret y => Py.hkey_eqb x y
  | _, _ => false
  end.

(** [d[k] = d.get(k, 0) + 1] on a dict that holds [k] or not. *)
Fixpoint dict_incr (k : json) (d : list (json * nat)) : list (json * nat) :=
  match d with
  | [] => [(k, 1%nat)]
  | (k', n) :: rest =>
      if same_key k k' then (k', S n) :: rest else (k', n) :: dict_incr k rest
  end.

(** The loop that fills [error_counts]. *)
Fixpoint count_errors (errors : list Event.t) (error_counts : list (json * nat))
  : exc (list (json * nat)) :=
  match errors with
  | [] => Ret error_counts
  | e :: rest =>
      msg <- error_info e "message" (JStr "Unknown") ;;
      _ <- Py.hash_key msg ;;
      count_errors rest (dict_incr msg error_counts)
  end.

Definition view_error (e : Event.t) : exc error_view :=
  message <- error_info e "message" JNull ;;
  file <- error_info e "file" JNull ;;
  line <- error_info e "line" JNull ;;
  Ret {| err_message := message;
         err_file := file;
         err_line := line;
         err_page := Event.page_url e;
         err_time := isoformat (Event.sent_at e) |}.

(** [jsonify] writes a dict with its keys sorted.  [sorted] compares keys
    with [<], which Python defines between two numbers and between two
    strings; between [None] and another key, or a number and a string, it
    raises TypeError. *)
Inductive key_sort : Type :=
| SortNone
| SortNumber
| SortText.

Definition sort_of (k : json) : option key_sort :=
  match k with
  | JNull => Some SortNone
  | JBool _ => Some SortNumber
  | JInt _ => Some SortNumber
  | JStr _ => Some SortText
  | JArr _ => None
  | JObj _ => None
  end.

Definition orderable (a b : json) : bool :=
  match sort_of a, sort_of b with
  | Some SortNumber, Some SortNumber => true
  | Some SortText, Some SortText => true
  | _, _ => false
  end.

(** The keys of a dict can be sorted: any two of them can be compared. *)
Fixpoint sortable (keys : list json) : bool :=
  match keys with
  | [] => true
  | k :: rest => forallb (orderable k) rest && sortable rest
  end.

(** The handler returns [jsonify] of the report, whose [error_frequency]
    is the dict of counts. *)
Definition error_analytics (client : Client.t) (w : world) : reply :=
  let errors := errors_query client w in
  match count_errors errors [] with
  | Raise e => Unhandled e
  | Ret error_counts =>
      match comprehension view_error (firstn 10 errors) with
      | Raise e => Unhandled e
      | Ret recent =>
          if sortable (map fst error_counts)
          then Reply 200 (Errors {| total_errors := List.length errors;
                                    recent_errors := recent;
                                    error_frequency := error_counts |})
          else Unhandled TypeError
      end
  end.

End App.

(* ================================================================== *)
(** ** Measures used in the statements *)

(** The count a grouped result gives for a key, 0 when the key has no
    group. *)
Fixpoint count_of (k : string) (groups : list (string * nat)) : nat :=
  match groups with
  | [] => 0%nat
  | (k', n) :: rest => if String.eqb k k' then n else count_of k rest
  end.

(** The number of occurrences of a key in a column. *)
Definition occurrences (k : string) (keys : list string) : nat :=
  List.length (filter (String.eqb k) keys).

(** [d.get(k, 0)] on a dict of counts. *)
Fixpoint frequency_of (k : json) (d : list (json * nat)) : nat :=
  match d with
  | [] => 0%nat
  | (k', n) :: rest => if same_key k k' then n else frequency_of k rest
  end.

(** The key under which [error_analytics] counts an event. *)
Definition message_key (e : Event.t) : exc json :=
  error_info e "message" (JStr "Unknown").

(** The number of events counted under the key [k]. *)
Definition counted_under (k : json) (errors : list Event.t) : nat :=
  List.length
    (filter (fun e => match message_key e with
                      | Ret m => same_key k m
                      | Raise _ => false
                      end) errors).

(** The hash of a key, when it has one. *)
Definition hkey_of (v : json) : option Py.hkey :=
  match Py.hash_key v with
  | Ret h => Some h
  | Raise _ => None
  end.

(** A dict of counts as Python keeps it: every key hashable, no two
    entries under one key. *)
Definition well_keyed (d : list (json * nat)) : Prop :=
  NoDup (map (fun p => hkey_of (fst p)) d)
  /\ Forall (fun p => hkey_of (fst p) <> None) d.

(** Why building the error report can raise on a selected event. *)
Definition breaks_report (e : Event.t) (x : exn) : Prop :=
  message_key e = Raise x
  \/ (exists m, message_key e = Ret m /\ Py.hash_key m = Raise x)
  \/ view_error e = Raise x.

(** Two of the events are counted under keys of different sorts: a null
    message and a string, a number and a string. *)
Definition mixed_messages (errors : list Event.t) : Prop :=
  exists e1 e2 m1 m2,
    In e1 errors /\ In e2 errors
    /\ message_key e1 = Ret m1 /\ message_key e2 = Ret m2
    /\ sort_of m1 <> sort_of m2.

(** Why [error_analytics] ends in an exception: a selected event breaks
    the loop or the listing, or the table cannot be written. *)
Definition report_fails (errors : list Event.t) (x : exn) : Prop :=
  (exists e, In e errors /\ breaks_report e x)
  \/ (x = TypeError /\ mixed_messages errors).

(** *** Timestamps with the Z designator

    The ISO-8601 timestamps of a UTC reading in the extended format,
    [YYYY-MM-DDTHH:MM:SS], [YYYY-MM-DDTHH:MM:SS.sss] and
    [YYYY-MM-DDTHH:MM:SS.ssssss], followed by [Z]: what Python's
    [isoformat()] with a [Z] appended and JavaScript's [toISOString()]
    write. *)
Inductive precision : Type :=
| Seconds
| Milliseconds
| Microseconds.

Definition fraction (p : precision) (us : Z) : string :=
  match p with
  | Seconds => EmptyString
  | Milliseconds => String "." (render_digits 3 (us / 1000))
  | Microseconds => String "." (render_digits 6 us)
  end.

(** The reading has nothing below the precision. *)
Definition exact_at (p : precision) (us : Z) : Prop :=
  match p with
  | Seconds => us = 0
  | Milliseconds => us mod 1000 = 0
  | Microseconds => True
  end.

Definition time_of_day (d : datetime) : string :=
  (render_digits 2 (hour d) ++ ":" ++ render_digits 2 (minute d) ++ ":"
   ++ render_digits 2 (second d))%string.



Definition valid_datetime (d : datetime) : bool :=
  valid_reading (year d) (month d) (day d) (hour d) (minute d) (second d)
                (microsecond d).

(* ================================================================== *)
(** ** A deployment to run the handlers on *)

Module Scenario.

Definition clock : env :=
  {| default_utcnow := Datetime.mk 2024 1 2 3 4 5 2 None;
     utcnow := Datetime.mk 2024 1 2 3 4 5 6 None;
     token_urlsafe := "q3vZ0aXkB1cYd2eF";
     elapsed := 1 |}.

(** The tenant of the scenario of the specification, registered. *)
Definition acme : Client.t :=
  Client.mk 1 "sk_acme" (Some "Acme") (Datetime.mk 2024 1 1 0 0 0 0 None) true.

Definition installed : world :=
  {| clients := [acme]; events := [];
     next_client_id := 2; next_event_id := 1;
     session := []; metrics := [] |}.

(** The submission of the scenario, with a page title and a referrer. *)
Definition click : json :=
  JObj [("event_type", JStr "click");
        ("sent_at", JStr "2024-01-01T12:00:00Z");
        ("identifiers", JObj [("visitor_id", JStr "v1"); ("session_id", JStr "s1")]);
        ("page_info", JObj [("url", JStr "https://x.test");
                            ("title", JStr "Pricing");
                            ("referrer", JStr "https://search.test")])].

(** A submission whose [identifiers] has no [visitor_id]. *)
Definition malformed : json :=
  JObj [("event_type", JStr "click");
        ("sent_at", JStr "2024-01-01T12:00:00Z");
        ("identifiers", JObj [("session_id", JStr "s1")]);
        ("page_info", JObj [("url", JStr "https://x.test")])].

(** A submission authenticated through its header. *)
Definition submission (body : json) : request :=
  {| path := "/api/events"; json_body := Some body; x_api_key := Some "sk_acme" |}.

(** A stored event of a tenant, sent at the given minute past noon. *)
Definition stored (id client minute : Z) (type : string)
           (payload : list (string * json)) : Event.t :=
  Event.mk id client "v1" "s1" "https://x.test" None None type None
           (Datetime.mk 2024 1 1 12 minute 0 0 None)
           (Datetime.mk 2024 1 1 13 0 0 0 None)
           (JObj (("event_type", JStr type) :: payload)).

Definition boom : list (string * json) :=
  [("error_info", JObj [("message", JStr "boom"); ("line", JInt 7)])].

(** Two tenants: four events of Acme, three of them errors, one without
    [error_info], and an error of the other tenant. *)
Definition busy : world :=
  {| clients := [acme;
                 Client.mk 2 "sk_globex" (Some "Globex")
                           (Datetime.mk 2024 1 1 0 0 0 0 None) true];
     events := [stored 1 1 0 "error" boom;
                stored 2 1 5 "error" [];
                stored 3 2 7 "error" [("error_info", JObj [("message", JStr "theirs")])];
                stored 4 1 8 "click" [("click_info", JObj [("element", JStr "#buy")])];
                stored 5 1 9 "error" boom];
     next_client_id := 3; next_event_id := 6;
     session := []; metrics := [] |}.

(** An error report whose [error_info] is null. *)
Definition null_error : json :=
  JObj [("event_type", JStr "error");
        ("sent_at", JStr "2024-01-01T12:10:00Z");
        ("identifiers", JObj [("visitor_id", JStr "v1"); ("session_id", JStr "s1")]);
        ("page_info", JObj [("url", JStr "https://x.test")]);
        ("error_info", JNull)].

End Scenario.

(* ================================================================== *)
(** ** Further measures and requests *)

(** The value of the events counter, summed over its labels. *)
Definition events_total (m : list sample) : nat :=
  List.length
    (filter (fun s => match s with
                      | events_counter_inc _ _ => true
                      | _ => false
                      end) m).

(** [d.get(outer, {}).get(inner)] on a payload that is a dict whose
    [outer], when present, is a dict. *)
Definition nested (kvs : list (string * json)) (outer inner : string) : json :=
  match Py.lookup outer kvs with
  | Some (JObj o) =>
      match Py.lookup inner o with
      | Some v => v
      | None => JNull
      end
  | _ => JNull
  end.

(** [data.get('sdk_version')] on a dict. *)
Definition sdk_version_of (kvs : list (string * json)) : json :=
  match Py.lookup "sdk_version" kvs with
  | Some v => v
  | None => JNull
  end.

(** The row [track_event] writes for a payload with the given fields. *)
Definition row_of (eng : Engine) (ev : env) (w : world) (client : Client.t)
           (kvs : list (string * json)) (vid sid url ty : string)
           (sdk : option string) (t : datetime) : Event.t :=
  Event.mk (next_event_id w) (Client.id client) vid sid url None None ty sdk
           (bind_datetime eng t) (default_utcnow ev) (JObj kvs).

(** A request that carries its key in the header, and no body. *)
Definition with_header (p key : string) : request :=
  {| path := p; json_body := None; x_api_key := Some key |}.

(** The [api_key] field of the body as the hook reads it: [None] when the
    body is absent, falsy, or a dict without the field. *)
Definition body_api_key (req : request) : json :=
  match json_body req with
  | Some (JObj kvs) =>
      match Py.lookup "api_key" kvs with
      | Some v => v
      | None => JNull
      end
  | _ => JNull
  end.

(** A body on which the hook can call [get]: none, a falsy value (which
    [or {}] replaces by the empty dict), or a dict. *)
Definition readable_body (req : request) : Prop :=
  match json_body req with
  | None => True
  | Some j => Py.truthy j = false \/ exists kvs, j = JObj kvs
  end.

(** The request presents [key]: in the [api_key] field of its body, or,
    when the body holds no truthy [api_key], in its X-API-Key header. *)
Definition presents (req : request) (key : string) : Prop :=
  readable_body req
  /\ (body_api_key req = JStr key
      \/ (Py.truthy (body_api_key req) = false /\ x_api_key req = Some key)).

(** The response shows an API key: only the body of a registration has
    the field. *)
Definition carries_key (r : reply) : bool :=
  match r with
  | Reply _ (Registered _) => true
  | _ => false
  end.

Module More.

(** A request for the summary that sends a JSON body without [api_key]
    and the key in its header. *)
Definition filtered_summary (key : string) : request :=
  {| path := "/api/analytics/summary";
     json_body := Some (JObj [("range", JStr "7d")]);
     x_api_key := Some key |}.

(** The submission of the scenario, authenticated through its body. *)
Definition keyed_click : list (string * json) :=
  [("api_key", JStr "sk_acme");
   ("event_type", JStr "click");
   ("sent_at", JStr "2024-01-01T12:00:00Z");
   ("identifiers", JObj [("visitor_id", JStr "v1"); ("session_id", JStr "s1")]);
   ("page_info", JObj [("url", JStr "https://x.test")])].

(** The deployment with a second tenant that was deactivated. *)
Definition with_retired : world :=
  {| clients := [Scenario.acme;
                 Client.mk 2 "sk_retired" (Some "Initech")
                           (Datetime.mk 2023 6 1 0 0 0 0 None) false];
     events := [];
     next_client_id := 3; next_event_id := 1;
     session := []; metrics := [] |}.

Definition globex : Client.t :=
  Client.mk 2 "sk_globex" (Some "Globex") (Datetime.mk 2024 1 1 0 0 0 0 None) true.

End More.

(* ================================================================== *)
(** ** Facts about strings *)

Lemma append_assoc (a b c : string) : ((a ++ b) ++ c = a ++ (b ++ c))%string.
Proof. induction a as [|x a IH]; simpl; [reflexivity | rewrite IH; reflexivity]. Qed.

Lemma length_append (a b : string) :
  String.length (a ++ b) = (String.length a + String.length b)%nat.
Proof. induction a as [|x a IH]; simpl; [reflexivity | rewrite IH; reflexivity]. Qed.

Lemma substring_all (s : string) : substring 0 (String.length s) s = s.
Proof. induction s as [|x s IH]; simpl; [reflexivity | rewrite IH; reflexivity]. Qed.

Lemma substring_prefix (a b : string) : substring 0 (String.length a) (a ++ b) = a.
Proof.
  induction a as [|x a IH]; simpl.
  - destruct b; reflexivity.
  - rewrite IH. reflexivity.
Qed.

Lemma substring_skip (a b : string) (m : nat) :
  substring (String.length a) m (a ++ b) = substring 0 m b.
Proof. induction a as [|x a IH]; simpl; [reflexivity | exact IH]. Qed.

Lemma drop_append (a b : string) : drop (String.length a) (a ++ b) = b.
Proof.
  unfold drop. rewrite length_append, substring_skip.
  replace (String.length a + String.length b - String.length a)%nat
    with (String.length b) by lia.
  apply substring_all.
Qed.


Lemma find_char_append (c : ascii) (a b : string) :
  find_char c (a ++ b)
  = match find_char c a with
    | Some i => Some i
    | None => option_map (Nat.add (String.length a)) (find_char c b)
    end.
Proof.
  induction a as [|x a IH]; simpl.
  - destruct (find_char c b); reflexivity.
  - destruct (Ascii.eqb x c); [reflexivity|].
    rewrite IH. destruct (find_char c a); simpl; [reflexivity|].
    destruct (find_char c b); reflexivity.
Qed.


Lemma replace_absent (old : ascii) (new s : string) :
  find_char old s = None -> Py.replace old new s = s.
Proof.
  induction s as [|x s IH]; simpl; [reflexivity|].
  destruct (Ascii.eqb x old); [discriminate|].
  destruct (find_char old s); [discriminate|].
  intros _. rewrite IH; reflexivity.
Qed.

(* ================================================================== *)
(** ** Facts about [fromisoformat] *)

Lemma digit_of_digit_char (n : Z) : digit_of (digit_char n) = Some (n mod 10).
Proof.
  unfold digit_char.
  assert (Hc : n mod 10 = 0 \/ n mod 10 = 1 \/ n mod 10 = 2 \/ n mod 10 = 3
               \/ n mod 10 = 4 \/ n mod 10 = 5 \/ n mod 10 = 6 \/ n mod 10 = 7
               \/ n mod 10 = 8 \/ n mod 10 = 9)
    by (pose proof (Z.mod_pos_bound n 10); lia).
  repeat (destruct Hc as [Hc|Hc]; [rewrite Hc; reflexivity|]).
  rewrite Hc; reflexivity.
Qed.

Lemma digit_char_differs (n : Z) (c : ascii) :
  digit_of c = None -> Ascii.eqb (digit_char n) c = false.
Proof.
  intros Hc. apply Ascii.eqb_neq. intros Heq.
  rewrite <- Heq, digit_of_digit_char in Hc. discriminate.
Qed.

Lemma length_render_digits (w : nat) (n : Z) : String.length (render_digits w n) = w.
Proof.
  revert n. induction w as [|w IH]; intros n; simpl; [reflexivity|].
  rewrite length_append, IH. simpl. lia.
Qed.

Lemma find_char_render_digits (c : ascii) (w : nat) (n : Z) :
  digit_of c = None -> find_char c (render_digits w n) = None.
Proof.
  intros Hc. revert n. induction w as [|w IH]; intros n; simpl; [reflexivity|].
  rewrite find_char_append, IH. simpl.
  rewrite (digit_char_differs _ _ Hc). reflexivity.
Qed.

Lemma digits_value_append (a b : string) (acc : Z) :
  digits_value (a ++ b) acc
  = match digits_value a acc with
    | Some v => digits_value b v
    | None => None
    end.
Proof.
  revert acc. induction a as [|x a IH]; intros acc; simpl; [reflexivity|].
  destruct (digit_of x); [apply IH | reflexivity].
Qed.

Lemma digits_value_render (w : nat) (n acc : Z) :
  digits_value (render_digits w n) acc = Some (acc * 10 ^ Z.of_nat w + n mod 10 ^ Z.of_nat w).
Proof.
  revert n acc. induction w as [|w IH]; intros n acc.
  - simpl. f_equal. rewrite Z.mod_1_r. lia.
  - cbn [render_digits]. rewrite digits_value_append, IH.
    cbn [digits_value]. rewrite digit_of_digit_char.
    f_equal. rewrite Nat2Z.inj_succ, Z.pow_succ_r by lia.
    assert (Hp : 0 < 10 ^ Z.of_nat w) by (apply Z.pow_pos_nonneg; lia).
    rewrite (Z.rem_mul_r n 10 (10 ^ Z.of_nat w)) by lia.
    lia.
Qed.

Lemma int_field_render (w : nat) (n : Z) :
  (0 < w)%nat -> 0 <= n < 10 ^ Z.of_nat w ->
  int_field w (render_digits w n) = Some n.
Proof.
  intros Hw Hn. unfold int_field.
  rewrite length_render_digits, Nat.eqb_refl.
  destruct (render_digits w n) eqn:Hr.
  - pose proof (length_render_digits w n) as Hl. rewrite Hr in Hl. simpl in Hl. lia.
  - rewrite <- Hr, digits_value_render. f_equal.
    rewrite Z.mod_small by lia. lia.
Qed.

Lemma int_field_render2 (n : Z) : 0 <= n < 100 -> int_field 2 (render_digits 2 n) = Some n.
Proof. intros H. apply int_field_render; [lia | exact H]. Qed.

Lemma int_field_render3 (n : Z) : 0 <= n < 1000 -> int_field 3 (render_digits 3 n) = Some n.
Proof. intros H. apply int_field_render; [lia | exact H]. Qed.

Lemma int_field_render4 (n : Z) : 0 <= n < 10000 -> int_field 4 (render_digits 4 n) = Some n.
Proof. intros H. apply int_field_render; [lia | exact H]. Qed.

Lemma int_field_render6 (n : Z) :
  0 <= n < 1000000 -> int_field 6 (render_digits 6 n) = Some n.
Proof. intros H. apply int_field_render; [lia | exact H]. Qed.

Lemma parse_date_parts (A B C : string) :
  String.length A = 4%nat -> String.length B = 2%nat -> String.length C = 2%nat ->
  parse_isoformat_date (A ++ "-" ++ B ++ "-" ++ C)
  = match int_field 4 A, int_field 2 B, int_field 2 C with
    | Some y, Some m, Some d => Some (y, m, d)
    | _, _, _ => None
    end.
Proof.
  intros HA HB HC.
  destruct A as [|a0 [|a1 [|a2 [|a3 [|]]]]]; try discriminate HA.
  destruct B as [|b0 [|b1 [|]]]; try discriminate HB.
  destruct C as [|c0 [|c1 [|]]]; try discriminate HC.
  unfold parse_isoformat_date.
  change (substring 0 4 _) with (String a0 (String a1 (String a2 (String a3 "")))).
  destruct (int_field 4 _); [|reflexivity].
  change (opt_bind (Some ?z) ?k) with (k z). cbv beta.
  change (String.get 4 _) with (Some "-"%char). cbv iota.
  change (substring 5 2 _) with (String b0 (String b1 "")).
  destruct (int_field 2 (String b0 _)); [|reflexivity].
  change (opt_bind (Some ?z) ?k) with (k z). cbv beta.
  change (String.get 7 _) with (Some "-"%char). cbv iota.
  change (substring 8 2 _) with (String c0 (String c1 "")).
  destruct (int_field 2 (String c0 _)); reflexivity.
Qed.

Lemma parse_components_parts (H M S rest : string) :
  String.length H = 2%nat -> String.length M = 2%nat -> String.length S = 2%nat ->
  parse_components 3 (H ++ ":" ++ M ++ ":" ++ S ++ rest)
  = match int_field 2 H, int_field 2 M, int_field 2 S with
    | Some h, Some m, Some s => Some ([h; m; s], rest)
    | _, _, _ => None
    end.
Proof.
  intros HH HM HS.
  destruct H as [|h0 [|h1 [|]]]; try discriminate HH.
  destruct M as [|m0 [|m1 [|]]]; try discriminate HM.
  destruct S as [|s0 [|s1 [|]]]; try discriminate HS.
  cbn [append parse_components].
  destruct (int_field 2 (String h0 _)); [|reflexivity].
  cbn [opt_bind].
  destruct (int_field 2 (String m0 _)); [|reflexivity].
  cbn [opt_bind].
  destruct (int_field 2 (String s0 _)); [|reflexivity].
  cbn [opt_bind fst snd].
  destruct rest as [|[[] [] [] [] [] [] [] []] rest]; reflexivity.
Qed.

Lemma parse_hh_mm_ss_ff_render (p : precision) (h mi s us : Z) :
  0 <= h < 100 -> 0 <= mi < 100 -> 0 <= s < 100 -> 0 <= us < 1000000 ->
  exact_at p us ->
  parse_hh_mm_ss_ff (render_digits 2 h ++ ":" ++ render_digits 2 mi ++ ":"
                     ++ render_digits 2 s ++ fraction p us)
  = Some (h, mi, s, us).
Proof.
  intros Hh Hmi Hs Hus Hexact. unfold parse_hh_mm_ss_ff.
  rewrite parse_components_parts by apply length_render_digits.
  rewrite !int_field_render2 by assumption.
  cbn [opt_bind fst snd nth].
  destruct p; cbn [fraction].
  - simpl in Hexact. subst us. reflexivity.
  - rewrite length_render_digits.
    unfold exact_at in Hexact.
    rewrite int_field_render3 by (Z.to_euclidean_division_equations; lia).
    cbn [opt_bind]. do 2 f_equal. Z.to_euclidean_division_equations; lia.
  - rewrite length_render_digits.
    rewrite int_field_render6 by assumption.
    reflexivity.
Qed.


Lemma fromisoformat_parts (date rest : string) (sep : ascii) :
  String.length date = 10%nat -> rest <> EmptyString ->
  fromisoformat (date ++ String sep rest)
  = match parse_isoformat_date date with
    | None => Raise ValueError
    | Some (y, mo, d) =>
        match parse_isoformat_time rest with
        | None => Raise ValueError
        | Some (h, mi, s, us, o) => construct y mo d h mi s us o
        end
    end.
Proof.
  intros Hlen Hrest. unfold fromisoformat.
  rewrite <- Hlen at 1. rewrite substring_prefix.
  replace (drop 11 (date ++ String sep rest)) with rest.
  - destruct (parse_isoformat_date date) as [[[y mo] d]|]; [|reflexivity].
    destruct rest; [congruence | reflexivity].
  - change (date ++ String sep rest)%string
      with (date ++ (String sep "" ++ rest))%string.
    rewrite <- append_assoc.
    replace 11%nat with (String.length (date ++ String sep "")).
    + rewrite drop_append. reflexivity.
    + rewrite length_append, Hlen. reflexivity.
Qed.

Lemma days_in_month_le (y m : Z) : days_in_month y m <= 31.
Proof.
  unfold days_in_month.
  destruct (m =? 2); [destruct (is_leap y); lia|].
  destruct ((m =? 4) || (m =? 6) || (m =? 9) || (m =? 11)); lia.
Qed.

Lemma valid_reading_bounds (y mo d h mi s us : Z) :
  valid_reading y mo d h mi s us = true ->
  0 <= y < 10000 /\ 0 <= mo < 100 /\ 0 <= d < 100 /\ 0 <= h < 100
  /\ 0 <= mi < 100 /\ 0 <= s < 100 /\ 0 <= us < 1000000.
Proof.
  unfold valid_reading. intros H.
  repeat (apply andb_true_iff in H; destruct H as [H ?]).
  pose proof (days_in_month_le y mo). lia.
Qed.

Lemma find_char_fraction (c : ascii) (p : precision) (us : Z) :
  digit_of c = None -> c <> "."%char -> find_char c (fraction p us) = None.
Proof.
  intros Hc Hdot.
  destruct p; cbn [fraction find_char]; [reflexivity| |];
    apply Ascii.eqb_neq in Hdot; rewrite Ascii.eqb_sym, Hdot;
    rewrite find_char_render_digits by exact Hc; reflexivity.
Qed.

Lemma find_char_time_of_day (c : ascii) (d : datetime) :
  digit_of c = None -> c <> ":"%char -> find_char c (time_of_day d) = None.
Proof.
  intros Hc Hcolon. apply Ascii.eqb_neq in Hcolon. rewrite Ascii.eqb_sym in Hcolon.
  unfold time_of_day.
  repeat first
    [ rewrite find_char_append
    | rewrite find_char_render_digits by exact Hc
    | progress cbn [find_char option_map]
    | rewrite Hcolon ].
  reflexivity.
Qed.

Lemma find_char_format_date (c : ascii) (d : datetime) :
  digit_of c = None -> c <> "-"%char -> find_char c (format_date d) = None.
Proof.
  intros Hc Hdash. apply Ascii.eqb_neq in Hdash. rewrite Ascii.eqb_sym in Hdash.
  unfold format_date.
  repeat first
    [ rewrite find_char_append
    | rewrite find_char_render_digits by exact Hc
    | progress cbn [find_char option_map]
    | rewrite Hdash ].
  reflexivity.
Qed.

Lemma length_format_date (d : datetime) : String.length (format_date d) = 10%nat.
Proof.
  unfold format_date. rewrite !length_append, !length_render_digits. reflexivity.
Qed.

Lemma length_time_of_day (d : datetime) : String.length (time_of_day d) = 8%nat.
Proof.
  unfold time_of_day. rewrite !length_append, !length_render_digits. reflexivity.
Qed.



Lemma append_empty_r (a : string) : (a ++ "")%string = a.
Proof. induction a as [|x a IH]; simpl; [reflexivity | rewrite IH; reflexivity]. Qed.

Lemma parse_isoformat_time_naive (tod : string) (h mi s us : Z) :
  find_char "-" tod = None -> find_char "+" tod = None ->
  (2 <= String.length tod)%nat ->
  parse_hh_mm_ss_ff tod = Some (h, mi, s, us) ->
  parse_isoformat_time tod = Some (h, mi, s, us, None).
Proof.
  intros Hdash Hplus Hlen Hparse. unfold parse_isoformat_time.
  assert (Hlt : Nat.ltb (String.length tod) 2 = false) by (apply Nat.ltb_ge; lia).
  rewrite Hlt, Hdash, Hplus, Hparse. reflexivity.
Qed.

(** *** Every timestamp with the Z designator *)












Example fromisoformat_utc :
  fromisoformat "2024-01-01T12:00:00+00:00" = Ret (mk 2024 1 1 12 0 0 0 (Some 0)).
Proof. reflexivity. Qed.

Example fromisoformat_millis :
  fromisoformat "2024-01-01T12:00:00.250+05:30"
  = Ret (mk 2024 1 1 12 0 0 250000 (Some 19800000000)).
Proof. reflexivity. Qed.

Example fromisoformat_date_only :
  fromisoformat "2024-02-29" = Ret (mk 2024 2 29 0 0 0 0 None).
Proof. reflexivity. Qed.

Example fromisoformat_rejects_Z :
  fromisoformat "2024-01-01T12:00:00Z" = Raise ValueError.
Proof. reflexivity. Qed.

Example fromisoformat_rejects_day :
  fromisoformat "2023-02-29T12:00:00" = Raise ValueError.
Proof. reflexivity. Qed.

Example isoformat_utc :
  isoformat (mk 2024 1 1 12 0 0 0 (Some 0)) = "2024-01-01T12:00:00+00:00".
Proof. reflexivity. Qed.

Example isoformat_naive_us :
  isoformat (mk 987 11 30 23 59 59 42 None) = "0987-11-30T23:59:59.000042".
Proof. reflexivity. Qed.

Example toordinal_2024 : toordinal (mk 2024 3 1 0 0 0 0 None) = 738946.
Proof. reflexivity. Qed.

Example ord2ymd_2024 : ord2ymd 738946 = (2024, 3, 1).
Proof. reflexivity. Qed.

Example ord2ymd_last_day : ord2ymd 738885 = (2023, 12, 31).
Proof. reflexivity. Qed.

(** Noon UTC five hours west of UTC, and across the leap day and the
    new year. *)
Example reading_in_zone_west :
  reading_in_zone (-18000000000) (mk 2024 1 1 12 0 0 0 (Some 0))
  = mk 2024 1 1 7 0 0 0 None.
Proof. vm_compute. reflexivity. Qed.

Example reading_in_zone_leap_day :
  reading_in_zone (-18000000000) (mk 2024 3 1 2 30 15 250 (Some 0))
  = mk 2024 2 29 21 30 15 250 None.
Proof. vm_compute. reflexivity. Qed.

Example reading_in_zone_new_year :
  reading_in_zone 19800000000 (mk 2023 12 31 20 0 0 0 (Some 0))
  = mk 2024 1 1 1 30 0 0 None.
Proof. vm_compute. reflexivity. Qed.

(** The same instant written at another offset is kept with the same
    reading. *)
Example reading_in_zone_same_instant :
  reading_in_zone 0 (mk 2024 1 1 14 0 0 0 (Some 7200000000))
  = mk 2024 1 1 12 0 0 0 None.
Proof. vm_compute. reflexivity. Qed.

(* ================================================================== *)
(** ** Facts about ORDER BY and LIMIT *)

Section OrderBy.

Context {A : Type} (leb : A -> A -> bool).
Hypothesis leb_total : forall a b, leb a b = true \/ leb b a = true.
Hypothesis leb_trans : forall a b c, leb a b = true -> leb b c = true -> leb a c = true.

Lemma insert_by_perm (x : A) (l : list A) : Permutation (insert_by leb x l) (x :: l).
Proof.
  induction l as [|y l IH]; simpl.
  - apply Permutation_refl.
  - destruct (leb x y).
    + apply Permutation_refl.
    + eapply perm_trans; [apply perm_skip, IH | apply perm_swap].
Qed.

Lemma order_by_perm (l : list A) : Permutation (order_by leb l) l.
Proof.
  induction l as [|x l IH]; simpl.
  - apply perm_nil.
  - eapply perm_trans; [apply insert_by_perm | apply perm_skip, IH].
Qed.

Lemma insert_by_sorted (x : A) (l : list A) :
  StronglySorted (precedes leb) l -> StronglySorted (precedes leb) (insert_by leb x l).
Proof.
  induction 1 as [|y l Hs IH Hy]; simpl.
  - constructor; [constructor | constructor].
  - destruct (leb x y) eqn:Hxy.
    + constructor.
      * constructor; assumption.
      * constructor; [exact Hxy|].
        eapply Forall_impl; [|exact Hy].
        intros z Hz. exact (leb_trans _ _ _ Hxy Hz).
    + constructor; [exact IH|].
      assert (Hyx : precedes leb y x).
      { destruct (leb_total x y) as [H|H]; [congruence | exact H]. }
      eapply Permutation_Forall; [apply Permutation_sym, insert_by_perm|].
      constructor; assumption.
Qed.

Lemma order_by_sorted (l : list A) : StronglySorted (precedes leb) (order_by leb l).
Proof.
  induction l as [|x l IH]; simpl.
  - constructor.
  - apply insert_by_sorted, IH.
Qed.

Lemma sorted_app_inv (l1 l2 : list A) :
  StronglySorted (precedes leb) (l1 ++ l2) ->
  StronglySorted (precedes leb) l1 /\ forall a b, In a l1 -> In b l2 -> precedes leb a b.
Proof.
  induction l1 as [|x l1 IH]; simpl; intros Hs.
  - split; [constructor | intros a b []].
  - inversion Hs as [|? ? Hs' Hx]; subst.
    destruct (IH Hs') as [Hl1 Hcross].
    rewrite Forall_app in Hx. destruct Hx as [Hx1 Hx2].
    split.
    + constructor; assumption.
    + intros a b [<-|Ha] Hb.
      * rewrite Forall_forall in Hx2. apply Hx2, Hb.
      * apply Hcross; assumption.
Qed.

(** ORDER BY followed by LIMIT [n]: the rows kept are in order, they are
    rows of the table, there are [min n] of them, and each of them comes
    before every row that was cut. *)
Lemma order_by_limit (n : nat) (l : list A) :
  let kept := firstn n (order_by leb l) in
  let cut := skipn n (order_by leb l) in
  StronglySorted (precedes leb) kept
  /\ Permutation (kept ++ cut) l
  /\ (forall a b, In a kept -> In b cut -> precedes leb a b)
  /\ List.length kept = Nat.min n (List.length l).
Proof.
  intros kept cut.
  pose proof (order_by_sorted l) as Hs.
  rewrite <- (firstn_skipn n (order_by leb l)) in Hs.
  destruct (sorted_app_inv _ _ Hs) as [Hk Hcross].
  split; [exact Hk|]. split.
  - unfold kept, cut. rewrite firstn_skipn. apply order_by_perm.
  - split; [exact Hcross|].
    unfold kept. rewrite length_firstn.
    rewrite (Permutation_length (order_by_perm l)). reflexivity.
Qed.

End OrderBy.

Lemma newest_first_total (a b : Event.t) :
  newest_first a b = true \/ newest_first b a = true.
Proof. unfold newest_first. lia. Qed.

Lemma newest_first_trans (a b c : Event.t) :
  newest_first a b = true -> newest_first b c = true -> newest_first a c = true.
Proof. unfold newest_first. lia. Qed.

Lemma oldest_first_total (a b : Event.t) :
  oldest_first a b = true \/ oldest_first b a = true.
Proof. unfold oldest_first. lia. Qed.

Lemma oldest_first_trans (a b c : Event.t) :
  oldest_first a b = true -> oldest_first b c = true -> oldest_first a c = true.
Proof. unfold oldest_first. lia. Qed.

Lemma sorted_weaken {A} (R S : A -> A -> Prop) (l : list A) :
  (forall a b, R a b -> S a b) -> StronglySorted R l -> StronglySorted S l.
Proof.
  intros HRS. induction 1 as [|x l Hs IH Hx]; constructor.
  - exact IH.
  - eapply Forall_impl; [|exact Hx]. intros b. apply HRS.
Qed.

(** *** List comprehensions *)

Lemma comprehension_ret {A B} (f : A -> exc B) (l : list A) (ys : list B) :
  comprehension f l = Ret ys -> Forall2 (fun x y => f x = Ret y) l ys.
Proof.
  revert ys. induction l as [|x l IH]; simpl; intros ys H.
  - inversion H. constructor.
  - destruct (f x) as [y|e] eqn:Hfx; simpl in H; [|discriminate].
    destruct (comprehension f l) as [ys'|e]; simpl in H; [|discriminate].
    inversion H; subst. constructor; [exact Hfx | apply IH; reflexivity].
Qed.

Lemma comprehension_raise {A B} (f : A -> exc B) (l : list A) (e : exn) :
  comprehension f l = Raise e -> exists x, In x l /\ f x = Raise e.
Proof.
  induction l as [|x l IH]; simpl; intros H.
  - discriminate.
  - destruct (f x) as [y|e'] eqn:Hfx; simpl in H.
    + destruct (comprehension f l) as [ys'|e'']; simpl in H; [discriminate|].
      inversion H; subst. destruct (IH eq_refl) as (x' & Hin & Hx').
      exists x'. split; [right; exact Hin | exact Hx'].
    + inversion H; subst. exists x. split; [left; reflexivity | exact Hfx].
Qed.

(* ================================================================== *)
(** ** GET /api/analytics/recent *)

Lemma view_event_fields (e : Event.t) (v : event_view) :
  view_event e = Ret v ->
  view_id v = Event.id e /\ view_type v = Event.event_type e
  /\ view_visitor v = Event.visitor_id e /\ view_page v = Event.page_url e
  /\ view_time v = isoformat (Event.sent_at e).
Proof.
  unfold view_event. intros H.
  destruct (detail e "error" "error_info" "message"); simpl in H; [|discriminate].
  destruct (detail e "click" "click_info" "element"); simpl in H; [|discriminate].
  destruct (detail e "page_view" "performance" "load_time"); simpl in H; [|discriminate].
  inversion H; subst; simpl. repeat split.
Qed.

(** C1.  For every tenant and every state of the event store, the query of
    the recent-events handler selects at most 50 events (exactly
    [min 50] of the tenant's events), every one of them a stored event
    whose [client_id] is the authenticated tenant's id, in descending
    order of [sent_at], and none of the tenant's events left out is more
    recent than a selected one.  What the handler returns is one view per
    selected event, in that order, or no event at all when building a
    view raises. *)
Theorem recent_events_scoped_sorted_capped (client : Client.t) (w : world) :
  let mine := filter (owned_by client) (events w) in
  let selected := recent_query client w in
  (List.length selected <= 50)%nat
  /\ List.length selected = Nat.min 50 (List.length mine)
  /\ Forall (fun e => Event.client_id e = Client.id client /\ In e (events w)) selected
  /\ StronglySorted
       (fun a b => wall_us (Event.sent_at b) <= wall_us (Event.sent_at a)) selected
  /\ (exists cut,
        Permutation (selected ++ cut) mine
        /\ forall a b, In a selected -> In b cut ->
                       wall_us (Event.sent_at b) <= wall_us (Event.sent_at a))
  /\ match recent_events client w with
     | Reply status (Recent views) =>
         status = 200
         /\ (List.length views <= 50)%nat
         /\ Forall2 (fun e v => view_id v = Event.id e
                                /\ view_time v = isoformat (Event.sent_at e))
                    selected views
     | Reply _ _ => False
     | Unhandled exn => exists e, In e selected /\ view_event e = Raise exn
     end.
Proof.
  intros mine selected.
  pose proof (order_by_limit newest_first newest_first_total newest_first_trans 50 mine)
    as H.
  cbv zeta in H.
  change (firstn 50 (order_by newest_first mine)) with selected in H.
  destruct H as (Hsorted & Hperm & Hcross & Hlen).
  assert (Hcap : (List.length selected <= 50)%nat) by (rewrite Hlen; apply Nat.le_min_l).
  split; [exact Hcap|]. split; [exact Hlen|]. split.
  { rewrite Forall_forall. intros e He.
    assert (Hin : In e mine).
    { eapply Permutation_in; [exact Hperm|]. apply in_or_app. left. exact He. }
    unfold mine in Hin. apply filter_In in Hin. destruct Hin as [Hin Hown].
    unfold owned_by in Hown. split; [lia | exact Hin]. }
  split.
  { eapply sorted_weaken; [|exact Hsorted].
    intros a b. unfold precedes, newest_first. lia. }
  split.
  { exists (skipn 50 (order_by newest_first mine)). split; [exact Hperm|].
    intros a b Ha Hb. specialize (Hcross a b Ha Hb).
    unfold precedes, newest_first in Hcross. lia. }
  unfold recent_events. fold selected.
  destruct (comprehension view_event selected) as [views|exn] eqn:Hviews.
  - apply comprehension_ret in Hviews.
    split; [reflexivity|]. split.
    + rewrite <- (Forall2_length Hviews). exact Hcap.
    + eapply Forall2_impl; [|exact Hviews].
      intros e v Hv. apply view_event_fields in Hv. tauto.
  - apply comprehension_raise in Hviews. exact Hviews.
Qed.

(* ================================================================== *)
(** ** GET /api/analytics/summary *)

Lemma count_key_sum (k : string) (groups : list (string * nat)) :
  list_sum (map snd (count_key k groups)) = S (list_sum (map snd groups)).
Proof.
  induction groups as [|[k' n] rest IH]; simpl.
  - reflexivity.
  - destruct (String.eqb k k'); simpl; [reflexivity | rewrite IH; lia].
Qed.

Lemma count_key_count_of (k k0 : string) (groups : list (string * nat)) :
  count_of k0 (count_key k groups)
  = (count_of k0 groups + if String.eqb k0 k then 1 else 0)%nat.
Proof.
  induction groups as [|[k' n] rest IH]; simpl.
  - destruct (String.eqb k0 k); reflexivity.
  - destruct (String.eqb k k') eqn:Hk; simpl.
    + apply String.eqb_eq in Hk. subst k'.
      destruct (String.eqb k0 k); lia.
    + destruct (String.eqb k0 k') eqn:Hk0; [|exact IH].
      apply String.eqb_eq in Hk0. subst k'.
      rewrite String.eqb_sym in Hk. rewrite Hk. lia.
Qed.

Lemma count_key_keys (k : string) (groups : list (string * nat)) :
  NoDup (map fst groups) ->
  NoDup (map fst (count_key k groups))
  /\ forall x, In x (map fst (count_key k groups)) <-> x = k \/ In x (map fst groups).
Proof.
  induction groups as [|[k' n] rest IH]; simpl; intros Hnd.
  - split; [constructor; [intros []|constructor] | intros x; intuition].
  - inversion Hnd as [|? ? Hnotin Hnd']; subst.
    destruct (String.eqb k k') eqn:Hk; simpl.
    + apply String.eqb_eq in Hk. subst k'.
      split; [exact Hnd | intros x; intuition].
    + destruct (IH Hnd') as [IH1 IH2].
      apply String.eqb_neq in Hk.
      split.
      * constructor; [|exact IH1]. rewrite IH2. intros [->|Hin]; [congruence | auto].
      * intros x. rewrite IH2. intuition.
Qed.

Lemma fold_count_key (keys : list string) (groups : list (string * nat)) :
  NoDup (map fst groups) ->
  let result := fold_left (fun g k => count_key k g) keys groups in
  list_sum (map snd result) = (list_sum (map snd groups) + List.length keys)%nat
  /\ NoDup (map fst result)
  /\ forall k, count_of k result = (count_of k groups + occurrences k keys)%nat.
Proof.
  revert groups. induction keys as [|k keys IH]; simpl; intros groups Hnd.
  - repeat split; [lia | exact Hnd | intros k; unfold occurrences; simpl; lia].
  - destruct (count_key_keys k groups Hnd) as [Hnd' _].
    destruct (IH (count_key k groups) Hnd') as (Hsum & Hnodup & Hcount).
    split; [rewrite Hsum, count_key_sum; lia|].
    split; [exact Hnodup|].
    intros k0. rewrite Hcount, count_key_count_of.
    unfold occurrences. simpl. destruct (String.eqb k0 k); simpl; lia.
Qed.

Lemma group_count_spec (keys : list string) :
  list_sum (map snd (group_count keys)) = List.length keys
  /\ NoDup (map fst (group_count keys))
  /\ forall k, count_of k (group_count keys) = occurrences k keys.
Proof.
  destruct (fold_count_key keys [] (NoDup_nil _)) as (Hsum & Hnd & Hcount).
  unfold group_count. repeat split; [exact Hsum | exact Hnd | exact Hcount].
Qed.

Lemma order_by_head_least {A} (leb : A -> A -> bool) (l : list A)
      (first : A) (rest : list A) :
  (forall a b, leb a b = true \/ leb b a = true) ->
  (forall a b c, leb a b = true -> leb b c = true -> leb a c = true) ->
  order_by leb l = first :: rest ->
  In first l /\ forall x, In x l -> leb first x = true.
Proof.
  intros Htotal Htrans Hsort.
  pose proof (order_by_sorted leb Htotal Htrans l) as Hs.
  pose proof (order_by_perm leb l) as Hp.
  rewrite Hsort in Hs, Hp.
  split.
  - eapply Permutation_in; [exact Hp | left; reflexivity].
  - intros x Hx.
    apply (Permutation_in _ (Permutation_sym Hp)) in Hx.
    destruct Hx as [<-|Hx].
    + destruct (Htotal first first); assumption.
    + inversion Hs as [|? ? _ Hall]; subst.
      rewrite Forall_forall in Hall. apply Hall, Hx.
Qed.

(** C5.  For every tenant and every state of the event store, the summary
    is returned with [total_events] equal to the sum of the counts in
    [by_type] (and to the number of the tenant's events; [by_type] has one
    entry per event type, holding the number of the tenant's events of that
    type), and [first_event] is the [sent_at] of an event of the tenant
    that no other event of the tenant precedes, or null when the tenant
    has no events. *)
Theorem summary_total_is_sum_of_types (client : Client.t) (w : world) :
  let mine := filter (owned_by client) (events w) in
  exists s,
    analytics_summary client w = Reply 200 (Summary s)
    /\ total_events s = list_sum (map snd (by_type s))
    /\ total_events s = List.length mine
    /\ NoDup (map fst (by_type s))
    /\ (forall ty, count_of ty (by_type s)
                   = List.length (filter (fun e => String.eqb ty (Event.event_type e)) mine))
    /\ match first_event s with
       | None => mine = []
       | Some t =>
           exists e, In e mine /\ t = isoformat (Event.sent_at e)
             /\ forall e', In e' mine ->
                   wall_us (Event.sent_at e) <= wall_us (Event.sent_at e')
       end.
Proof.
  intros mine. unfold analytics_summary. fold mine.
  destruct (group_count_spec (map Event.event_type mine)) as (Hsum & Hnd & Hcount).
  rewrite length_map in Hsum.
  assert (Htypes : forall ty, count_of ty (group_count (map Event.event_type mine))
             = List.length (filter (fun e => String.eqb ty (Event.event_type e)) mine)).
  { intros ty. rewrite Hcount. unfold occurrences.
    clear. induction mine as [|e l IH]; simpl; [reflexivity|].
    destruct (String.eqb ty (Event.event_type e)); simpl; rewrite IH; reflexivity. }
  destruct mine as [|e0 rest] eqn:Hmine.
  - simpl. eexists. split; [reflexivity|]. simpl.
    repeat split; try assumption; try reflexivity; try constructor.
  - change (Nat.ltb 0 (List.length (e0 :: rest))) with true. cbv iota.
    destruct (order_by oldest_first (e0 :: rest)) as [|first tail] eqn:Hsort.
    + pose proof (order_by_perm oldest_first (e0 :: rest)) as Hp.
      rewrite Hsort in Hp. apply Permutation_nil in Hp. discriminate.
    + destruct (order_by_head_least oldest_first _ _ _
                  oldest_first_total oldest_first_trans Hsort) as [Hin Hleast].
      eexists. split; [reflexivity|]. simpl.
      split; [symmetry; exact Hsum|]. split; [reflexivity|].
      split; [exact Hnd|]. split; [exact Htypes|].
      exists first. split; [exact Hin|]. split; [reflexivity|].
      intros e' He'. specialize (Hleast e' He').
      unfold oldest_first in Hleast. lia.
Qed.

(* ================================================================== *)
(** ** GET /api/analytics/errors *)

Lemma hkey_eqb_eq (a b : Py.hkey) : Py.hkey_eqb a b = true <-> a = b.
Proof.
  destruct a, b; simpl; split; intros H; try discriminate; try reflexivity.
  - apply Z.eqb_eq in H. congruence.
  - inversion H. apply Z.eqb_refl.
  - apply String.eqb_eq in H. congruence.
  - inversion H. apply String.eqb_refl.
Qed.

Lemma same_key_iff (a b : json) :
  same_key a b = true <-> exists h, hkey_of a = Some h /\ hkey_of b = Some h.
Proof.
  unfold same_key, hkey_of.
  destruct (Py.hash_key a) as [x|], (Py.hash_key b) as [y|]; split;
    try discriminate; try (intros (h & H1 & H2); discriminate).
  - intros H. apply hkey_eqb_eq in H. subst. exists y. split; reflexivity.
  - intros (h & H1 & H2). apply hkey_eqb_eq. congruence.
Qed.

Lemma same_key_false (a b : json) (h : Py.hkey) :
  same_key a b = false -> hkey_of a = Some h -> hkey_of b <> Some h.
Proof.
  intros Hf Ha Hb.
  assert (same_key a b = true) by (apply same_key_iff; eauto).
  congruence.
Qed.

Lemma dict_incr_sum (k : json) (d : list (json * nat)) :
  list_sum (map snd (dict_incr k d)) = S (list_sum (map snd d)).
Proof.
  induction d as [|[k' n] rest IH]; simpl.
  - reflexivity.
  - destruct (same_key k k'); simpl; [reflexivity | rewrite IH; lia].
Qed.

Lemma dict_incr_frequency (m k : json) (d : list (json * nat)) :
  frequency_of k (dict_incr m d)
  = (frequency_of k d + if same_key k m then 1 else 0)%nat.
Proof.
  induction d as [|[k' n] rest IH]; simpl.
  - destruct (same_key k m); reflexivity.
  - destruct (same_key m k') eqn:Hm; simpl.
    + apply same_key_iff in Hm. destruct Hm as (h & Hm & Hk').
      destruct (same_key k k') eqn:Hk.
      * apply same_key_iff in Hk. destruct Hk as (h' & Hk1 & Hk2).
        assert (Hkm : same_key k m = true).
        { apply same_key_iff. exists h. split; congruence. }
        rewrite Hkm. lia.
      * destruct (same_key k m) eqn:Hkm; [|lia].
        apply same_key_iff in Hkm. destruct Hkm as (h' & Hk1 & Hk2).
        assert (same_key k k' = true).
        { apply same_key_iff. exists h. split; congruence. }
        congruence.
    + destruct (same_key k k') eqn:Hk; [|exact IH].
      destruct (same_key k m) eqn:Hkm; [|lia].
      apply same_key_iff in Hk. destruct Hk as (h & Hk1 & Hk2).
      apply same_key_iff in Hkm. destruct Hkm as (h' & Hk3 & Hk4).
      assert (same_key m k' = true).
      { apply same_key_iff. exists h. split; congruence. }
      congruence.
Qed.

Lemma dict_incr_hkeys (m : json) (d : list (json * nat)) (h : option Py.hkey) :
  In h (map (fun p => hkey_of (fst p)) (dict_incr m d)) ->
  h = hkey_of m \/ In h (map (fun p => hkey_of (fst p)) d).
Proof.
  induction d as [|[k' n] rest IH]; simpl.
  - intros [<-|[]]. left. reflexivity.
  - destruct (same_key m k'); simpl; intros [<-|Hin]; auto.
    destruct (IH Hin); auto.
Qed.

Lemma dict_incr_well_keyed (m : json) (d : list (json * nat)) :
  hkey_of m <> None -> well_keyed d -> well_keyed (dict_incr m d).
Proof.
  intros Hm. unfold well_keyed.
  induction d as [|[k' n] rest IH]; simpl; intros [Hnd Hall].
  - split; [constructor; [intros []|constructor] | constructor; [exact Hm|constructor]].
  - inversion Hnd as [|? ? Hnotin Hnd']; subst.
    inversion Hall as [|? ? Hk' Hall']; subst. simpl in Hk'.
    destruct (same_key m k') eqn:Hs; simpl.
    + split; [constructor; assumption | constructor; assumption].
    + destruct (IH (conj Hnd' Hall')) as [IH1 IH2].
      split; [|constructor; assumption].
      constructor; [|exact IH1].
      intros Hin. apply dict_incr_hkeys in Hin. destruct Hin as [Heq|Hin]; [|auto].
      destruct (hkey_of m) as [h|] eqn:Hhm; [|congruence].
      eapply same_key_false; eauto.
Qed.

Lemma frequency_of_entry (k : json) (n : nat) (d : list (json * nat)) :
  well_keyed d -> In (k, n) d -> frequency_of k d = n.
Proof.
  unfold well_keyed. induction d as [|[k' n'] rest IH]; simpl; intros [Hnd Hall] Hin.
  - destruct Hin.
  - inversion Hnd as [|? ? Hnotin Hnd']; subst.
    inversion Hall as [|? ? Hk' Hall']; subst. simpl in Hk'.
    destruct Hin as [Heq|Hin].
    + inversion Heq; subst.
      assert (Hs : same_key k k = true).
      { apply same_key_iff. destruct (hkey_of k) as [h|]; [eauto | congruence]. }
      rewrite Hs. reflexivity.
    + destruct (same_key k k') eqn:Hs; [|apply IH; auto].
      exfalso. apply Hnotin.
      apply same_key_iff in Hs. destruct Hs as (h & Hk1 & Hk2).
      rewrite Hk2, <- Hk1.
      apply (in_map (fun p => hkey_of (fst p)) rest (k, n) Hin).
Qed.

Lemma count_errors_ret (errors : list Event.t) (d d' : list (json * nat)) :
  count_errors errors d = Ret d' ->
  list_sum (map snd d') = (list_sum (map snd d) + List.length errors)%nat
  /\ (forall k, frequency_of k d' = (frequency_of k d + counted_under k errors)%nat)
  /\ (well_keyed d -> well_keyed d').
Proof.
  revert d. induction errors as [|e rest IH]; simpl; intros d H.
  - inversion H; subst. split; [lia|]. split; [|auto].
    intros k. unfold counted_under. simpl. lia.
  - fold (message_key e) in H.
    destruct (message_key e) as [m|] eqn:Hmsg; simpl in H; [|discriminate].
    destruct (Py.hash_key m) as [h|] eqn:Hh; simpl in H; [|discriminate].
    destruct (IH _ H) as (Hsum & Hfreq & Hkeys).
    split; [rewrite Hsum, dict_incr_sum; lia|]. split.
    + intros k. rewrite Hfreq, dict_incr_frequency.
      unfold counted_under. simpl. rewrite Hmsg.
      destruct (same_key k m); simpl; lia.
    + intros Hd. apply Hkeys, dict_incr_well_keyed; [|exact Hd].
      unfold hkey_of. rewrite Hh. discriminate.
Qed.

Lemma count_errors_raise (errors : list Event.t) (d : list (json * nat)) (x : exn) :
  count_errors errors d = Raise x ->
  exists e, In e errors /\ breaks_report e x.
Proof.
  revert d. induction errors as [|e rest IH]; simpl; intros d H.
  - discriminate.
  - fold (message_key e) in H.
    destruct (message_key e) as [m|x'] eqn:Hmsg; simpl in H.
    + destruct (Py.hash_key m) as [h|x'] eqn:Hh; simpl in H.
      * destruct (IH _ H) as (e' & Hin & Hb). exists e'. split; [right|]; assumption.
      * inversion H; subst. exists e. split; [left; reflexivity|].
        right. left. exists m. split; assumption.
    + inversion H; subst. exists e. split; [left; reflexivity|].
      left. exact Hmsg.
Qed.

Lemma dict_incr_positive (k : json) (d : list (json * nat)) :
  Forall (fun p => (0 < snd p)%nat) d ->
  Forall (fun p => (0 < snd p)%nat) (dict_incr k d).
Proof.
  induction 1 as [|[k' n] rest Hn Hrest IH]; simpl.
  - constructor; [simpl; lia | constructor].
  - destruct (same_key k k'); constructor; simpl in *; auto; lia.
Qed.

Lemma count_errors_positive (errors : list Event.t) (d d' : list (json * nat)) :
  count_errors errors d = Ret d' ->
  Forall (fun p => (0 < snd p)%nat) d -> Forall (fun p => (0 < snd p)%nat) d'.
Proof.
  revert d. induction errors as [|e rest IH]; simpl; intros d H Hd.
  - inversion H; subst. exact Hd.
  - destruct (error_info e "message" (JStr "Unknown")) as [m|]; simpl in H;
      [|discriminate].
    destruct (Py.hash_key m); simpl in H; [|discriminate].
    apply (IH _ H), dict_incr_positive, Hd.
Qed.

Lemma dict_incr_keys (m k : json) (d : list (json * nat)) :
  In k (map fst (dict_incr m d)) -> k = m \/ In k (map fst d).
Proof.
  induction d as [|[k' n] rest IH]; simpl.
  - intros [<-|[]]. left. reflexivity.
  - destruct (same_key m k'); simpl; intros [<-|Hin]; auto.
    destruct (IH Hin); auto.
Qed.

(** Every key of the table is the message of a counted event. *)
Lemma count_errors_keys (errors : list Event.t) (d d' : list (json * nat)) (k : json) :
  count_errors errors d = Ret d' ->
  In k (map fst d') ->
  In k (map fst d) \/ exists e, In e errors /\ message_key e = Ret k.
Proof.
  revert d. induction errors as [|e rest IH]; simpl; intros d H Hin.
  - inversion H; subst. left. exact Hin.
  - fold (message_key e) in H.
    destruct (message_key e) as [m|] eqn:Hmsg; simpl in H; [|discriminate].
    destruct (Py.hash_key m) as [h|] eqn:Hh; simpl in H; [|discriminate].
    destruct (IH _ H Hin) as [Hd|(e' & He' & Hk)].
    + apply dict_incr_keys in Hd. destruct Hd as [->|Hd]; [|left; exact Hd].
      right. exists e. split; [left; reflexivity | exact Hmsg].
    + right. exists e'. split; [right; exact He' | exact Hk].
Qed.

Lemma forallb_false {A} (f : A -> bool) (l : list A) :
  forallb f l = false -> exists x, In x l /\ f x = false.
Proof.
  induction l as [|a l IH]; simpl; [discriminate|].
  destruct (f a) eqn:Hfa; simpl.
  - intros H. destruct (IH H) as (x & Hin & Hx). exists x. auto.
  - intros _. exists a. auto.
Qed.

(** Two keys of a dict that cannot be compared are of different sorts. *)
Lemma unorderable_keys (a b : json) :
  orderable a b = false ->
  hkey_of a <> None -> hkey_of b <> None -> hkey_of a <> hkey_of b ->
  sort_of a <> sort_of b.
Proof.
  destruct a, b; simpl; intros Ho Ha Hb Hab; try discriminate;
    try (exfalso; apply Ha; reflexivity);
    try (exfalso; apply Hb; reflexivity);
    try (exfalso; apply Hab; reflexivity).
Qed.

(** A table that cannot be sorted holds keys of two sorts. *)
Lemma unsortable_table (d : list (json * nat)) :
  well_keyed d -> sortable (map fst d) = false ->
  exists k1 k2, In k1 (map fst d) /\ In k2 (map fst d) /\ sort_of k1 <> sort_of k2.
Proof.
  unfold well_keyed. induction d as [|[k n] rest IH]; simpl; intros [Hnd Hall] H.
  - discriminate.
  - inversion Hnd as [|? ? Hnotin Hnd']; subst.
    inversion Hall as [|? ? Hk Hall']; subst. simpl in Hk.
    apply andb_false_iff in H. destruct H as [H|H].
    + apply forallb_false in H. destruct H as (k2 & Hin & Hord).
      exists k, k2. split; [left; reflexivity|]. split; [right; exact Hin|].
      apply in_map_iff in Hin. destruct Hin as ([k2' n2] & Heq & Hin2).
      simpl in Heq. subst k2'.
      apply unorderable_keys; [exact Hord | exact Hk | |].
      * rewrite Forall_forall in Hall'. exact (Hall' (k2, n2) Hin2).
      * intros Heq. apply Hnotin. rewrite Heq.
        exact (in_map (fun p => hkey_of (fst p)) rest (k2, n2) Hin2).
    + destruct (IH (conj Hnd' Hall') H) as (k1 & k2 & H1 & H2 & Hs).
      exists k1, k2. auto.
Qed.

Lemma well_keyed_nil : well_keyed [].
Proof. split; constructor. Qed.

(** A table whose keys are of one sort can be sorted, unless that sort
    is the one of [None], of which a dict holds one key at most. *)
Lemma sortable_texts (keys : list json) :
  Forall (fun k => sort_of k = Some SortText) keys -> sortable keys = true.
Proof.
  induction 1 as [|k rest Hk Hrest IH]; simpl; [reflexivity|].
  rewrite IH, andb_true_r. apply forallb_forall. intros k' Hin.
  rewrite Forall_forall in Hrest. unfold orderable.
  rewrite Hk, (Hrest k' Hin). reflexivity.
Qed.

(** What [error_analytics] answers, by cases. *)
Lemma error_analytics_cases (client : Client.t) (w : world) :
  let selected := errors_query client w in
  (exists counts views,
      count_errors selected [] = Ret counts
      /\ comprehension view_error (firstn 10 selected) = Ret views
      /\ sortable (map fst counts) = true
      /\ error_analytics client w
         = Reply 200 (Errors {| total_errors := List.length selected;
                                recent_errors := views;
                                error_frequency := counts |}))
  \/ (exists x,
        error_analytics client w = Unhandled x /\ report_fails selected x).
Proof.
  intros selected. unfold error_analytics. fold selected.
  destruct (count_errors selected []) as [counts|x] eqn:Hcounts.
  - destruct (comprehension view_error (firstn 10 selected)) as [views|x] eqn:Hviews.
    + destruct (sortable (map fst counts)) eqn:Hsort.
      * left. exists counts, views. repeat split. exact Hsort.
      * right. exists TypeError. split; [reflexivity|]. right.
        split; [reflexivity|].
        destruct (count_errors_ret _ _ _ Hcounts) as (_ & _ & Hkeys).
        destruct (unsortable_table counts (Hkeys well_keyed_nil) Hsort)
          as (k1 & k2 & H1 & H2 & Hs).
        destruct (count_errors_keys _ _ _ k1 Hcounts H1) as [[]|(e1 & He1 & Hm1)].
        destruct (count_errors_keys _ _ _ k2 Hcounts H2) as [[]|(e2 & He2 & Hm2)].
        exists e1, e2, k1, k2. repeat split; assumption.
    + right. apply comprehension_raise in Hviews.
      destruct Hviews as (e & Hin & He).
      exists x. split; [reflexivity|]. left. exists e. split.
      * rewrite <- (firstn_skipn 10 selected). apply in_or_app. left. exact Hin.
      * right. right. exact He.
  - right. apply count_errors_raise in Hcounts.
    exists x. split; [reflexivity|]. left. exact Hcounts.
Qed.

Lemma errors_query_selection (client : Client.t) (w : world) :
  let matching := filter (is_error_of client) (events w) in
  let selected := errors_query client w in
  List.length selected = Nat.min 100 (List.length matching)
  /\ Forall (fun e => Event.client_id e = Client.id client
                      /\ Event.event_type e = "error" /\ In e (events w)) selected
  /\ StronglySorted
       (fun a b => wall_us (Event.sent_at b) <= wall_us (Event.sent_at a)) selected
  /\ exists cut,
       Permutation (selected ++ cut) matching
       /\ forall a b, In a selected -> In b cut ->
                      wall_us (Event.sent_at b) <= wall_us (Event.sent_at a).
Proof.
  intros matching selected.
  pose proof (order_by_limit newest_first newest_first_total newest_first_trans
                             100 matching) as H.
  cbv zeta in H.
  change (firstn 100 (order_by newest_first matching)) with selected in H.
  destruct H as (Hsorted & Hperm & Hcross & Hlen).
  split; [exact Hlen|]. split.
  { rewrite Forall_forall. intros e He.
    assert (Hin : In e matching).
    { eapply Permutation_in; [exact Hperm|]. apply in_or_app. left. exact He. }
    unfold matching in Hin. apply filter_In in Hin. destruct Hin as [Hin Hown].
    unfold is_error_of, owned_by in Hown. apply andb_true_iff in Hown.
    destruct Hown as [Hc Ht]. apply String.eqb_eq in Ht.
    split; [lia|]. split; assumption. }
  split.
  { eapply sorted_weaken; [|exact Hsorted].
    intros a b. unfold precedes, newest_first. lia. }
  exists (skipn 100 (order_by newest_first matching)). split; [exact Hperm|].
  intros a b Ha Hb. specialize (Hcross a b Ha Hb).
  unfold precedes, newest_first in Hcross. lia.
Qed.

(** The query of error analytics selects the tenant's events of type
    [error], the 100 most recent by [sent_at] (all of them when there are
    fewer), in descending order.  An event whose [error_info] is absent or
    is a dict without [message] is counted under the key "Unknown".  A
    tenant without error events gets total 0, an empty listing and an
    empty table.  When the report is built, its table gives for every key
    the number of selected events with that message, over all the selected
    events, and its listing is made of the first 10 selected events; the
    report is not built only when a selected event has an [error_info]
    that is no dict or a message that is no dict key, or when the messages
    counted are of different sorts, so that [jsonify] cannot sort the keys
    of the table. *)
Lemma error_analytics_report (client : Client.t) (w : world) :
  let matching := filter (is_error_of client) (events w) in
  let selected := errors_query client w in
  (List.length selected = Nat.min 100 (List.length matching)
   /\ Forall (fun e => Event.client_id e = Client.id client
                       /\ Event.event_type e = "error" /\ In e (events w)) selected
   /\ StronglySorted
        (fun a b => wall_us (Event.sent_at b) <= wall_us (Event.sent_at a)) selected
   /\ exists cut,
        Permutation (selected ++ cut) matching
        /\ forall a b, In a selected -> In b cut ->
                       wall_us (Event.sent_at b) <= wall_us (Event.sent_at a))
  /\ (forall e info,
        Py.get (Event.raw_data e) "error_info" (JObj []) = Ret (JObj info) ->
        Py.lookup "message" info = None ->
        message_key e = Ret (JStr "Unknown"))
  /\ (matching = [] ->
      error_analytics client w
      = Reply 200 (Errors {| total_errors := 0; recent_errors := [];
                             error_frequency := [] |}))
  /\ match error_analytics client w with
     | Reply status (Errors r) =>
         status = 200
         /\ total_errors r = List.length selected
         /\ (forall k, frequency_of k (error_frequency r) = counted_under k selected)
         /\ (forall k n, In (k, n) (error_frequency r) ->
                         n = counted_under k selected /\ (0 < n)%nat)
         /\ Forall2 (fun e v => view_error e = Ret v)
                    (firstn 10 selected) (recent_errors r)
         /\ List.length (recent_errors r) = Nat.min 10 (List.length selected)
     | Reply _ _ => False
     | Unhandled x => report_fails selected x
     end.
Proof.
  intros matching selected.
  split; [exact (errors_query_selection client w)|].
  split.
  { intros e info Hinfo Hmsg. unfold message_key, error_info.
    rewrite Hinfo. simpl. rewrite Hmsg. reflexivity. }
  split.
  { intros Hnone. unfold error_analytics, errors_query.
    fold matching. rewrite Hnone. reflexivity. }
  destruct (error_analytics_cases client w)
    as [(counts & views & Hcounts & Hviews & _ & ->) | (x & -> & Hfails)].
  - fold selected in Hcounts, Hviews.
    destruct (count_errors_ret _ _ _ Hcounts) as (Hsum & Hfreq & Hkeys).
    specialize (Hkeys well_keyed_nil). simpl.
    split; [reflexivity|]. split; [reflexivity|].
    split; [intros k; rewrite Hfreq; reflexivity|].
    split.
    { intros k n Hin.
      pose proof (frequency_of_entry k n counts Hkeys Hin) as Hn.
      rewrite Hfreq in Hn. simpl in Hn. split; [symmetry; exact Hn|].
      pose proof (count_errors_positive _ _ _ Hcounts (Forall_nil _)) as Hpos.
      rewrite Forall_forall in Hpos. apply (Hpos (k, n) Hin). }
    apply comprehension_ret in Hviews.
    split; [exact Hviews|].
    rewrite <- (Forall2_length Hviews). apply length_firstn.
  - exact Hfails.
Qed.


(** A message "boom" and a null message: the table has the keys ["boom"]
    and [None], which [jsonify] cannot sort. *)
Example error_analytics_mixed_messages :
  error_analytics Scenario.acme
    {| clients := [Scenario.acme];
       events := [Scenario.stored 1 1 0 "error" Scenario.boom;
                  Scenario.stored 2 1 5 "error"
                                  [("error_info", JObj [("message", JNull)])]];
       next_client_id := 2; next_event_id := 3;
       session := []; metrics := [] |}
  = Unhandled TypeError.
Proof. vm_compute. reflexivity. Qed.

(** A single null message is a table with the one key [None]. *)
Example error_analytics_null_message_alone :
  exists recent,
    error_analytics Scenario.acme
      {| clients := [Scenario.acme];
         events := [Scenario.stored 2 1 5 "error"
                                    [("error_info", JObj [("message", JNull)])]];
         next_client_id := 2; next_event_id := 3;
         session := []; metrics := [] |}
    = Reply 200 (Errors {| total_errors := 1; recent_errors := recent;
                           error_frequency := [(JNull, 1%nat)] |}).
Proof. eexists. vm_compute. reflexivity. Qed.


(* ================================================================== *)
(** ** POST /api/events *)

Lemma errors_total_observe (type : string) (s : sample) (w : world) :
  errors_total type (metrics (observe s w))
  = (errors_total type (metrics w)
     + match s with
       | error_counter_inc t => if String.eqb t type then 1 else 0
       | _ => 0
       end)%nat.
Proof.
  unfold errors_total, observe. simpl.
  rewrite filter_app, length_app. simpl.
  destruct s as [? ?|? ?|t]; simpl; try reflexivity.
  destruct (String.eqb t type); reflexivity.
Qed.

(** The [except] branch leaves both tables as they were, empties the
    session and counts one processing error. *)
Lemma processing_failed_effect (w : world) :
  let w' := snd (processing_failed w) in
  fst (processing_failed w) = Reply 500 (Error "Failed to process event")
  /\ events w' = events w /\ clients w' = clients w /\ session w' = []
  /\ errors_total "processing" (metrics w') = S (errors_total "processing" (metrics w)).
Proof.
  unfold processing_failed. simpl. repeat split.
  change (metrics w ++ [error_counter_inc "processing"])
    with (metrics (observe (error_counter_inc "processing") w)).
  rewrite errors_total_observe. simpl. lia.
Qed.

(** The row a commit writes for the one event of a fresh session. *)
Lemma commit_one_event (eng : Engine) (ev : env) (w w' : world) (o : Event.obj) :
  session w = [] ->
  session_commit eng ev (session_add (PendingEvent o) w) = Ret w' ->
  exists row,
    insert_event eng ev w o = Ret row
    /\ events w' = events w ++ [row] /\ clients w' = clients w
    /\ session w' = [] /\ metrics w' = metrics w
    /\ next_event_id w' = next_event_id w + 1.
Proof.
  intros Hs. unfold session_commit, session_add. simpl. rewrite Hs. simpl.
  assert (Hins : insert_event eng ev
            {| clients := clients w; events := events w;
               next_client_id := next_client_id w; next_event_id := next_event_id w;
               session := [PendingEvent o]; metrics := metrics w |} o
          = insert_event eng ev w o) by reflexivity.
  rewrite Hins. destruct (insert_event eng ev w o) as [row|x]; simpl; [|discriminate].
  intros H. inversion H; subst; simpl. exists row. repeat split.
Qed.

Lemma insert_event_row (eng : Engine) (ev : env) (w : world) (o : Event.obj)
      (row : Event.t) :
  insert_event eng ev w o = Ret row ->
  Event.id row = next_event_id w
  /\ Event.client_id row = Event.o_client_id o
  /\ Event.page_title row = None /\ Event.referrer row = None
  /\ Event.sent_at row = bind_datetime eng (Event.o_sent_at o)
  /\ Event.raw_data row = Event.o_raw_data o.
Proof.
  unfold insert_event. intros H.
  destruct (required_text eng (Event.o_visitor_id o)); simpl in H; [|discriminate].
  destruct (required_text eng (Event.o_session_id o)); simpl in H; [|discriminate].
  destruct (required_text eng (Event.o_page_url o)); simpl in H; [|discriminate].
  destruct (required_text eng (Event.o_event_type o)); simpl in H; [|discriminate].
  destruct (optional_text eng (Event.o_sdk_version o)); simpl in H; [|discriminate].
  match type of H with (if ?c then _ else _) = _ => destruct c end; [|discriminate].
  inversion H; subst; simpl. repeat split.
Qed.

Lemma new_event_fields (client : Client.t) (data : json) (o : Event.obj) :
  new_event client data = Ret o ->
  Event.o_client_id o = Client.id client
  /\ Event.o_raw_data o = data
  /\ parse_sent_at data = Ret (Event.o_sent_at o).
Proof.
  unfold new_event. intros H.
  repeat match type of H with
         | bind ?m _ = _ => destruct m eqn:?; simpl in H; [|discriminate]
         end.
  inversion H; subst; simpl. repeat split.
Qed.

(** A submission that passes validation is answered 201, with one row
    appended for it, or by the [except] branch. *)
Lemma track_event_validated (eng : Engine) (ev : env) (client : Client.t)
      (data : json) (w : world) :
  session w = [] ->
  first_missing required data = Ret None ->
  (exists o row w',
      new_event client data = Ret o
      /\ insert_event eng ev w o = Ret row
      /\ track_event eng ev client data w
         = (Reply 201 (Receipt (Event.id row) (isoformat (utcnow ev))), w')
      /\ events w' = events w ++ [row] /\ clients w' = clients w /\ session w' = [])
  \/ (exists w0,
        track_event eng ev client data w = processing_failed w0
        /\ events w0 = events w /\ clients w0 = clients w /\ metrics w0 = metrics w).
Proof.
  intros Hs Hvalid. unfold track_event. rewrite Hvalid.
  destruct (new_event client data) as [o|x] eqn:Hnew.
  - destruct (session_commit eng ev (session_add (PendingEvent o) w)) as [w2|x] eqn:Hc.
    + left. destruct (commit_one_event _ _ _ _ _ Hs Hc)
        as (row & Hins & Hev & Hcl & Hse & Hme & Hid).
      destruct (insert_event_row _ _ _ _ _ Hins) as (Hrid & _).
      exists o, row. eexists. split; [reflexivity|]. split; [exact Hins|].
      split.
      { rewrite Hid, Hrid. f_equal. f_equal. f_equal. lia. }
      simpl. auto.
    + right. eexists. split; [reflexivity|]. simpl. auto.
  - right. exists w. auto.
Qed.

Lemma malformed_submission_raises (client : Client.t) (data ids page : json) :
  Py.getitem data "identifiers" = Ret ids ->
  Py.getitem data "page_info" = Ret page ->
  (exists x, Py.getitem ids "visitor_id" = Raise x)
  \/ (exists x, Py.getitem ids "session_id" = Raise x)
  \/ (exists x, Py.getitem page "url" = Raise x)
  \/ (exists x, parse_sent_at data = Raise x) ->
  exists x, new_event client data = Raise x.
Proof.
  intros Hids Hpage Hcause. unfold new_event. rewrite Hids. simpl.
  destruct (Py.getitem ids "visitor_id") as [vid|x1]; simpl; [|eauto].
  destruct (Py.getitem ids "session_id") as [sid|x2]; simpl; [|eauto].
  rewrite Hpage. simpl.
  destruct (Py.getitem page "url") as [url|x3]; simpl; [|eauto].
  destruct (Py.getitem data "event_type") as [ty|x4]; simpl; [|eauto].
  destruct (Py.get data "sdk_version" JNull) as [sdk|x5]; simpl; [|eauto].
  destruct (parse_sent_at data) as [t|x6]; simpl; [|eauto].
  destruct Hcause as [(x & H)|[(x & H)|[(x & H)|(x & H)]]]; discriminate.
Qed.

(** C4.  For every authenticated event submission that passes the check
    of the four top-level fields and then fails, building the event
    (a nested field is missing, [sent_at] does not parse) or committing
    it, the response is 500 with the generic body, the session is rolled
    back, the error counter labeled [processing] goes up by one, and both
    tables, hence the number of events of the tenant, are unchanged. *)
Theorem failed_processing_leaves_store (eng : Engine) (ev : env) (client : Client.t)
        (data : json) (w : world) (x : exn) :
  first_missing required data = Ret None ->
  (new_event client data = Raise x
   \/ exists o, new_event client data = Ret o
                /\ session_commit eng ev (session_add (PendingEvent o) w) = Raise x) ->
  let r := fst (track_event eng ev client data w) in
  let w' := snd (track_event eng ev client data w) in
  r = Reply 500 (Error "Failed to process event")
  /\ status_of r = 500
  /\ events w' = events w /\ clients w' = clients w /\ session w' = []
  /\ errors_total "processing" (metrics w')
     = S (errors_total "processing" (metrics w))
  /\ List.length (filter (owned_by client) (events w'))
     = List.length (filter (owned_by client) (events w)).
Proof.
  intros Hvalid Hfail r w'.
  assert (Hbranch : exists w0, track_event eng ev client data w = processing_failed w0
                     /\ events w0 = events w /\ clients w0 = clients w
                     /\ metrics w0 = metrics w).
  { unfold track_event. rewrite Hvalid.
    destruct Hfail as [Hnew|(o & Hnew & Hcommit)]; rewrite Hnew.
    - exists w. auto.
    - rewrite Hcommit. eexists. split; [reflexivity|]. simpl. auto. }
  destruct Hbranch as (w0 & Htrack & Hev & Hcl & Hme).
  subst r w'. rewrite Htrack.
  destruct (processing_failed_effect w0) as (Hr & Hev' & Hcl' & Hse' & Herr).
  rewrite Hr. split; [reflexivity|]. split; [reflexivity|].
  rewrite Hev', Hcl', Hse', Herr, Hev, Hcl, Hme. repeat split.
Qed.

(** The submission without [visitor_id], on the deployment. *)
Lemma failed_processing_leaves_store_witness :
  first_missing required Scenario.malformed = Ret None
  /\ new_event Scenario.acme Scenario.malformed = Raise KeyError
  /\ fst (track_event strict_engine Scenario.clock Scenario.acme Scenario.malformed
                      Scenario.installed)
     = Reply 500 (Error "Failed to process event")
  /\ events (snd (track_event strict_engine Scenario.clock Scenario.acme
                              Scenario.malformed Scenario.installed)) = [].
Proof.
  split; [reflexivity|]. split; [reflexivity|].
  pose proof (failed_processing_leaves_store strict_engine Scenario.clock
                Scenario.acme Scenario.malformed Scenario.installed KeyError
                eq_refl (or_introl eq_refl)) as H.
  cbv zeta in H. destruct H as (Hr & _ & Hev & _).
  split; [exact Hr | exact Hev].
Defined.

(** C10.  For every successfully ingested event, the row written has
    [page_title] and [referrer] null whatever the payload holds: the
    handler sets neither, and the payload itself is kept in [raw_data]. *)
Theorem ingested_event_has_no_title_or_referrer (eng : Engine) (ev : env)
        (client : Client.t) (data : json) (w w' : world) (body : content) :
  session w = [] ->
  track_event eng ev client data w = (Reply 201 body, w') ->
  exists row,
    events w' = events w ++ [row]
    /\ Event.page_title row = None /\ Event.referrer row = None
    /\ Event.raw_data row = data
    /\ Event.client_id row = Client.id client.
Proof.
  intros Hs Htrack.
  destruct (first_missing required data) as [[field|]|x] eqn:Hvalid;
    try (unfold track_event in Htrack; rewrite Hvalid in Htrack; discriminate).
  destruct (track_event_validated eng ev client data w Hs Hvalid)
    as [(o & row & w2 & Hnew & Hins & Heq & Hev & _) | (w0 & Heq & _)].
  - rewrite Heq in Htrack. inversion Htrack; subst.
    destruct (insert_event_row _ _ _ _ _ Hins) as (_ & Hcid & Hpt & Href & _ & Hraw).
    destruct (new_event_fields _ _ _ Hnew) as (Hocid & Horaw & _).
    exists row. repeat split; try assumption; congruence.
  - rewrite Heq in Htrack. discriminate.
Qed.

(** The submission of the scenario carries a title and a referrer; its
    row has neither. *)
Lemma ingested_event_has_no_title_or_referrer_witness :
  Py.getitem Scenario.click "page_info"
  = Ret (JObj [("url", JStr "https://x.test"); ("title", JStr "Pricing");
               ("referrer", JStr "https://search.test")])
  /\ exists row,
       events (snd (track_event strict_engine Scenario.clock Scenario.acme
                                Scenario.click Scenario.installed)) = [row]
       /\ Event.page_title row = None /\ Event.referrer row = None
       /\ Event.raw_data row = Scenario.click.
Proof.
  split; [reflexivity|].
  destruct (ingested_event_has_no_title_or_referrer strict_engine Scenario.clock
              Scenario.acme Scenario.click Scenario.installed _ _ eq_refl eq_refl)
    as (row & Hev & Hpt & Href & Hraw & _).
  exists row. repeat split; assumption.
Defined.

(** A payload that lacks a required field is answered 400 with the name
    of the first such field, and nothing but the validation counter
    changes. *)
Lemma track_event_missing_field (eng : Engine) (ev : env) (client : Client.t)
      (data : json) (w : world) (field : string) :
  first_missing required data = Ret (Some field) ->
  track_event eng ev client data w
  = (Reply 400 (Error ("Missing " ++ field)),
     observe (error_counter_inc "validation") w)
  /\ In field required
  /\ Py.contains field data = Ret false.
Proof.
  intros H. split; [unfold track_event; rewrite H; reflexivity|].
  revert H. generalize required. intros fields.
  induction fields as [|f rest IH]; simpl; intros H.
  - discriminate.
  - destruct (Py.contains f data) as [[|]|x] eqn:Hc; simpl in H; try discriminate.
    + destruct (IH H) as [Hin Hf]. split; [right; exact Hin | exact Hf].
    + inversion H; subst. split; [left; reflexivity | exact Hc].
Qed.

Lemma object_missing_field (kvs : list (string * json)) (f : string) :
  In f required -> Py.lookup f kvs = None ->
  exists field, first_missing required (JObj kvs) = Ret (Some field).
Proof.
  intros Hin Hf. revert Hin. generalize required. intros fields.
  induction fields as [|g rest IH]; simpl; intros Hin.
  - destruct Hin.
  - destruct (Py.lookup g kvs) eqn:Hg; simpl.
    + destruct Hin as [->|Hin]; [congruence | apply IH, Hin].
    + eauto.
Qed.

(** On a payload that is no dict, list or string, the check
    [field not in data] itself raises, outside the [try]. *)
Lemma track_event_scalar_payload (eng : Engine) (ev : env) (client : Client.t)
      (data : json) (w : world) :
  match data with JNull | JBool _ | JInt _ => True | _ => False end ->
  track_event eng ev client data w = (Unhandled TypeError, w).
Proof. destruct data; simpl; intros []; reflexivity. Qed.

(** C3.  The submission with the JSON body [0], authenticated through its
    header, has none of the four required fields; the membership test of
    the validation loop raises TypeError on it, and the request is
    answered 500, not 400.  No row is written. *)
Theorem track_event_scalar_payload_is_unhandled :
  authenticate strict_engine (Scenario.submission (JInt 0)) Scenario.installed
  = (Attached Scenario.acme, Scenario.installed)
  /\ track_event strict_engine Scenario.clock Scenario.acme (JInt 0) Scenario.installed
     = (Unhandled TypeError, Scenario.installed)
  /\ status_of (fst (track_event strict_engine Scenario.clock Scenario.acme (JInt 0)
                                 Scenario.installed)) = 500.
Proof. repeat split. Qed.

(* ================================================================== *)
(** ** The before_request hook *)

(** The key the hook looks up when the body is absent or a dict: the
    body's [api_key] when truthy, else the header. *)
Lemma authenticate_resolves_key (eng : Engine) (req : request) (w : world)
      (kvs : list (string * json)) :
  existsb (String.eqb (path req)) public_paths = false ->
  json_body req = None /\ kvs = [] \/ json_body req = Some (JObj kvs) ->
  let body_key := match Py.lookup "api_key" kvs with Some v => v | None => JNull end in
  let candidate :=
    if Py.truthy body_key then body_key
    else match x_api_key req with Some h => JStr h | None => JNull end in
  (Py.truthy candidate = false ->
   authenticate eng req w
   = (Halted (Reply 401 (Error "Missing api_key")),
      observe (error_counter_inc "auth_missing") w))
  /\ (forall key, Py.truthy candidate = true -> as_text eng candidate = Some key ->
      match find_client key (clients w) with
      | None =>
          authenticate eng req w
          = (Halted (Reply 401 (Error "Invalid API key")),
             observe (error_counter_inc "auth_invalid") w)
      | Some client =>
          authenticate eng req w = (Attached client, w)
          /\ In client (clients w)
          /\ Client.api_key client = key /\ Client.is_active client = true
      end).
Proof.
  intros Hpath Hbody body_key candidate.
  assert (Hget : Py.get (Py.or_else (match json_body req with
                                     | Some j => j
                                     | None => JNull
                                     end) (JObj [])) "api_key" JNull
                 = Ret body_key).
  { destruct Hbody as [[Hb Hk]|Hb]; rewrite Hb; [subst kvs; reflexivity|].
    unfold Py.or_else, body_key. destruct kvs as [|kv rest]; [reflexivity|].
    simpl Py.truthy. cbv iota. unfold Py.get.
    destruct (Py.lookup "api_key" (kv :: rest)); reflexivity. }
  unfold authenticate. rewrite Hpath, Hget. fold candidate.
  split.
  - intros ->. reflexivity.
  - intros key -> ->. simpl.
    destruct (find_client key (clients w)) as [client|] eqn:Hfind; [|reflexivity].
    split; [reflexivity|].
    unfold find_client in Hfind. apply find_some in Hfind.
    destruct Hfind as [Hin Hc]. apply andb_true_iff in Hc. destruct Hc as [Hk Ha].
    apply String.eqb_eq in Hk. auto.
Qed.

(** A body that is JSON but no dict, and truthy, has no [get]. *)
Lemma authenticate_non_object_body (eng : Engine) (req : request) (w : world)
      (j : json) :
  existsb (String.eqb (path req)) public_paths = false ->
  json_body req = Some j -> Py.truthy j = true ->
  match j with JObj _ => False | _ => True end ->
  authenticate eng req w = (Halted (Unhandled AttributeError), w).
Proof.
  intros Hpath Hbody Htruthy Hshape. unfold authenticate.
  rewrite Hpath, Hbody. unfold Py.or_else. rewrite Htruthy.
  destruct j; simpl; try reflexivity. destruct Hshape.
Qed.

(** C2.  The request for the summary whose JSON body is the array [[1]],
    with no X-API-Key header, is outside the allow-list and supplies no
    key; the hook raises AttributeError on [data.get], and the request is
    answered 500 without counting an [auth_missing] error, not 401 with
    "Missing api_key". *)
Theorem authenticate_array_body_is_unhandled :
  let req := {| path := "/api/analytics/summary";
                json_body := Some (JArr [JInt 1]);
                x_api_key := None |} in
  existsb (String.eqb (path req)) public_paths = false
  /\ authenticate strict_engine req Scenario.installed
     = (Halted (Unhandled AttributeError), Scenario.installed)
  /\ status_of (Unhandled AttributeError) = 500
  /\ authenticate strict_engine
       {| path := "/api/analytics/summary"; json_body := None; x_api_key := None |}
       Scenario.installed
     = (Halted (Reply 401 (Error "Missing api_key")),
        observe (error_counter_inc "auth_missing") Scenario.installed).
Proof. repeat split. Qed.

(* ================================================================== *)
(** ** POST /api/register *)

Lemma commit_one_client (eng : Engine) (ev : env) (w : world) (o : Client.obj)
      (row : Client.t) :
  session w = [] ->
  insert_client eng ev w o = Ret row ->
  exists w',
    session_commit eng ev (session_add (PendingClient o) w) = Ret w'
    /\ clients w' = clients w ++ [row] /\ events w' = events w
    /\ session w' = [] /\ metrics w' = metrics w.
Proof.
  intros Hs Hins. unfold session_commit, session_add. simpl. rewrite Hs. simpl.
  assert (Heq : insert_client eng ev
            {| clients := clients w; events := events w;
               next_client_id := next_client_id w; next_event_id := next_event_id w;
               session := [PendingClient o]; metrics := metrics w |} o
          = insert_client eng ev w o) by reflexivity.
  rewrite Heq, Hins. simpl. eexists. split; [reflexivity|]. simpl. auto.
Qed.

Lemma insert_client_row (eng : Engine) (ev : env) (w : world) (o : Client.obj)
      (row : Client.t) :
  insert_client eng ev w o = Ret row ->
  Client.api_key row = Client.o_api_key o
  /\ Client.is_active row = true
  /\ key_taken (Client.api_key row) (clients w) = false.
Proof.
  unfold insert_client. intros H.
  destruct (optional_text eng (Client.o_name o)); simpl in H; [|discriminate].
  destruct (key_taken (Client.o_api_key o) (clients w)) eqn:Hk; [discriminate|].
  match type of H with (if ?c then _ else _) = _ => destruct c end; [|discriminate].
  inversion H; subst; simpl. auto.
Qed.

Lemma key_taken_false (key : string) (cs : list Client.t) :
  key_taken key cs = false -> ~ In key (map Client.api_key cs).
Proof.
  unfold key_taken. induction cs as [|c cs IH]; simpl; intros H; [tauto|].
  apply orb_false_iff in H. destruct H as [Hc Hcs].
  apply String.eqb_neq in Hc. intros [Heq|Hin]; [congruence | exact (IH Hcs Hin)].
Qed.

Lemma optional_text_raises (eng : Engine) (v : json) (e : exn) :
  optional_text eng v = Raise e -> e = DatabaseError.
Proof.
  unfold optional_text.
  destruct v; try discriminate;
    destruct (as_text eng _); try discriminate; intros H; inversion H; reflexivity.
Qed.

(** The INSERT of a client: the row written, or why the engine raised. *)
Lemma insert_client_outcome (eng : Engine) (ev : env) (w : world) (o : Client.obj) :
  match insert_client eng ev w o with
  | Ret row =>
      exists n,
        optional_text eng (Client.o_name o) = Ret n
        /\ row = Client.mk (next_client_id w) (Client.o_api_key o) n
                           (default_utcnow ev) true
        /\ key_taken (Client.o_api_key o) (clients w) = false
        /\ accepts_client eng row = true
  | Raise e =>
      e = DatabaseError
      /\ (key_taken (Client.o_api_key o) (clients w) = true
          \/ optional_text eng (Client.o_name o) = Raise DatabaseError
          \/ exists n,
               optional_text eng (Client.o_name o) = Ret n
               /\ accepts_client eng
                    (Client.mk (next_client_id w) (Client.o_api_key o) n
                               (default_utcnow ev) true) = false)
  end.
Proof.
  unfold insert_client.
  destruct (optional_text eng (Client.o_name o)) as [n|e] eqn:Hn; cbn [bind].
  - destruct (key_taken (Client.o_api_key o) (clients w)) eqn:Hk; [auto|].
    destruct (accepts_client eng _) eqn:Ha.
    + exists n. auto.
    + split; [reflexivity|]. right. right. exists n. auto.
  - pose proof (optional_text_raises _ _ _ Hn). subst e. auto.
Qed.

(** A registration whose body is a dict with [name]: the commit decides. *)
Lemma register_client_named (eng : Engine) (ev : env) (kvs : list (string * json))
      (nm : json) (w : world) :
  Py.lookup "name" kvs = Some nm -> session w = [] ->
  register_client eng ev (JObj kvs) w
  = match insert_client eng ev w (Client.new (generate_api_key ev) nm) with
    | Ret row =>
        (Reply 201 (Registered (generate_api_key ev)),
         {| clients := clients w ++ [row]; events := events w;
            next_client_id := next_client_id w + 1;
            next_event_id := next_event_id w;
            session := []; metrics := metrics w |})
    | Raise e =>
        (Unhandled e,
         session_add (PendingClient (Client.new (generate_api_key ev) nm)) w)
    end.
Proof.
  intros Hname Hs. unfold register_client.
  assert (Htruthy : Py.truthy (JObj kvs) = true).
  { destruct kvs; [discriminate | reflexivity]. }
  rewrite Htruthy. cbn [negb Py.contains Py.getitem]. rewrite Hname.
  unfold session_commit, session_add. cbn [session]. rewrite Hs.
  cbn [app flush flush_one bind].
  change (insert_client eng ev _ ?o) with (insert_client eng ev w o).
  destruct (insert_client eng ev w (Client.new (generate_api_key ev) nm));
    reflexivity.
Qed.

(** No handler behind the hook, and not the hook, shows an API key. *)
Lemma only_registration_carries_key (eng : Engine) (ev : env) (client : Client.t)
      (payload : json) (req : request) (w : world) :
  carries_key (fst (track_event eng ev client payload w)) = false
  /\ carries_key (analytics_summary client w) = false
  /\ carries_key (recent_events client w) = false
  /\ carries_key (error_analytics client w) = false
  /\ match fst (authenticate eng req w) with
     | Halted r => carries_key r = false
     | _ => True
     end.
Proof.
  split; [|split; [|split; [|split]]].
  - unfold track_event, processing_failed.
    destruct (first_missing required payload) as [[f|]|e]; try reflexivity.
    destruct (new_event client payload); [|reflexivity].
    destruct (session_commit eng ev _); reflexivity.
  - unfold analytics_summary.
    destruct (Nat.ltb _ _); [|reflexivity].
    destruct (order_by _ _); reflexivity.
  - unfold recent_events. destruct (comprehension _ _); reflexivity.
  - unfold error_analytics.
    destruct (count_errors _ _); [|reflexivity].
    destruct (comprehension _ _); [|reflexivity].
    destruct (sortable _); reflexivity.
  - unfold authenticate.
    destruct (existsb _ _); [exact I|].
    destruct (Py.get _ _ _); [|reflexivity].
    destruct (negb _); [reflexivity|].
    destruct (as_text _ _); [|reflexivity].
    destruct (find_client _ _); [exact I | reflexivity].
Qed.

(** C8, as the code has it.  A registration whose JSON body is falsy
    (null, [{}], ...) or a dict without the key [name] is answered 400 and
    writes nothing.  A registration whose body is a dict with the key
    [name], whatever its value, the empty string included, is answered 201
    with the generated key, ["sk_"] followed by the random token, a key no
    client held before, and writes one client row with that key, the name
    as given and [is_active = true]; unless the commit raises, because the
    generated key is already held or the engine refuses the name or the
    row: then the answer is 500 and no row is written.  The key is shown
    exactly once: no response of the hook or of the other handlers carries
    an API key. *)
Theorem register_client_requires_name_key (eng : Engine) (ev : env) (data : json)
        (w : world) :
  (Py.truthy data = false
   \/ (exists kvs, data = JObj kvs /\ Py.lookup "name" kvs = None) ->
   register_client eng ev data w = (Reply 400 (Error "Client name required"), w))
  /\ (forall kvs nm,
        data = JObj kvs -> Py.lookup "name" kvs = Some nm -> session w = [] ->
        (exists row,
            fst (register_client eng ev data w)
            = Reply 201 (Registered (generate_api_key ev))
            /\ clients (snd (register_client eng ev data w)) = clients w ++ [row]
            /\ events (snd (register_client eng ev data w)) = events w
            /\ Client.is_active row = true
            /\ Client.api_key row = generate_api_key ev
            /\ generate_api_key ev = ("sk_" ++ token_urlsafe ev)%string
            /\ ~ In (generate_api_key ev) (map Client.api_key (clients w))
            /\ optional_text eng nm = Ret (Client.name row))
        \/ (fst (register_client eng ev data w) = Unhandled DatabaseError
            /\ clients (snd (register_client eng ev data w)) = clients w
            /\ events (snd (register_client eng ev data w)) = events w
            /\ (key_taken (generate_api_key ev) (clients w) = true
                \/ optional_text eng nm = Raise DatabaseError
                \/ exists n,
                     optional_text eng nm = Ret n
                     /\ accepts_client eng
                          (Client.mk (next_client_id w) (generate_api_key ev) n
                                     (default_utcnow ev) true) = false)))
  /\ (forall client payload req,
        carries_key (fst (track_event eng ev client payload w)) = false
        /\ carries_key (analytics_summary client w) = false
        /\ carries_key (recent_events client w) = false
        /\ carries_key (error_analytics client w) = false
        /\ match fst (authenticate eng req w) with
           | Halted r => carries_key r = false
           | _ => True
           end).
Proof.
  split; [|split].
  - intros [Hfalsy|(kvs & -> & Hname)]; unfold register_client.
    + rewrite Hfalsy. reflexivity.
    + destruct (Py.truthy (JObj kvs)); [|reflexivity].
      simpl. rewrite Hname. reflexivity.
  - intros kvs nm -> Hname Hs.
    rewrite (register_client_named eng ev kvs nm w Hname Hs).
    pose proof (insert_client_outcome eng ev w (Client.new (generate_api_key ev) nm))
      as Hout.
    destruct (insert_client eng ev w (Client.new (generate_api_key ev) nm))
      as [row|e]; cbn [fst snd clients events].
    + left. destruct Hout as (n & Hn & -> & Hfresh & _).
      cbn [Client.o_name Client.o_api_key] in Hn, Hfresh.
      exists (Client.mk (next_client_id w) (generate_api_key ev) n
                        (default_utcnow ev) true).
      repeat split; try reflexivity; try assumption.
      exact (key_taken_false _ _ Hfresh).
    + right. destruct Hout as (-> & Hwhy).
      cbn [Client.o_name Client.o_api_key] in Hwhy.
      repeat split; try reflexivity. exact Hwhy.
  - intros client payload req.
    apply only_registration_carries_key.
Qed.

(** A body without [name] is refused; "Globex" is registered. *)
Lemma register_client_requires_name_key_witness :
  register_client strict_engine Scenario.clock (JObj [("title", JStr "Acme")])
                  Scenario.installed
  = (Reply 400 (Error "Client name required"), Scenario.installed)
  /\ exists row,
       fst (register_client strict_engine Scenario.clock
                            (JObj [("name", JStr "Globex")]) Scenario.installed)
       = Reply 201 (Registered "sk_q3vZ0aXkB1cYd2eF")
       /\ clients (snd (register_client strict_engine Scenario.clock
                                        (JObj [("name", JStr "Globex")])
                                        Scenario.installed))
          = [Scenario.acme; row]
       /\ Client.is_active row = true
       /\ Client.api_key row = "sk_q3vZ0aXkB1cYd2eF"
       /\ Client.name row = Some "Globex".
Proof.
  split.
  - apply (register_client_requires_name_key strict_engine Scenario.clock
             (JObj [("title", JStr "Acme")]) Scenario.installed).
    right. exists [("title", JStr "Acme")]. split; reflexivity.
  - destruct (register_client_requires_name_key strict_engine Scenario.clock
                (JObj [("name", JStr "Globex")]) Scenario.installed)
      as (_ & Hnamed & _).
    destruct (Hnamed [("name", JStr "Globex")] (JStr "Globex")
                     eq_refl eq_refl eq_refl)
      as [(row & Hreply & Hcl & _ & Hact & Hkey & _ & _ & Hname) | (Hbad & _)];
      [|discriminate Hbad].
    exists row. split; [exact Hreply|]. split; [exact Hcl|].
    split; [exact Hact|]. split; [exact Hkey|].
    inversion Hname. reflexivity.
Defined.

(** C8 as stated fails: a registration whose [name] is the empty string
    is answered 201 and a client row is written; and a registration with
    a name that draws a token already in use is answered 500 and creates
    no client. *)
Lemma register_client_accepts_empty_name :
  let data := JObj [("name", JStr "")] in
  let result := register_client strict_engine Scenario.clock data Scenario.installed in
  let again := register_client strict_engine Scenario.clock
                               (JObj [("name", JStr "Hooli")]) (snd result) in
  Py.getitem data "name" = Ret (JStr "")
  /\ fst result = Reply 201 (Registered "sk_q3vZ0aXkB1cYd2eF")
  /\ status_of (fst result) <> 400
  /\ List.length (clients (snd result)) = S (List.length (clients Scenario.installed))
  /\ map Client.name (clients (snd result)) = [Some "Acme"; Some ""]
  /\ fst again = Unhandled DatabaseError
  /\ clients (snd again) = clients (snd result).
Proof. repeat split. discriminate. Qed.

(* ================================================================== *)
(** ** [sent_at] *)




(* ================================================================== *)
(** ** The analytics on the deployment *)

(** C6.  Acme's store holds three error events; the handler accepts a
    fourth whose [error_info] is null, so that its message is missing.
    From then on [raw_data.get('error_info', {})] returns None for that
    event, [None.get] raises AttributeError, and error analytics is
    answered 500: there is no table in which the event is counted under
    "Unknown", and no listing.  Before that submission the report is
    built, with the event that has no [error_info] under "Unknown". *)
Theorem error_analytics_null_error_info_is_unhandled :
  let before := Scenario.busy in
  let submitted := track_event strict_engine Scenario.clock Scenario.acme
                               Scenario.null_error before in
  let after := snd submitted in
  fst submitted = Reply 201 (Receipt 6 "2024-01-02T03:04:05.000006")
  /\ map Event.id (errors_query Scenario.acme after) = [6; 5; 2; 1]
  /\ message_key (Scenario.stored 6 1 10 "error" [("error_info", JNull)])
     = Raise AttributeError
  /\ error_analytics Scenario.acme after = Unhandled AttributeError
  /\ status_of (error_analytics Scenario.acme after) = 500
  /\ exists recent,
       error_analytics Scenario.acme before
       = Reply 200 (Errors {| total_errors := 3;
                              recent_errors := recent;
                              error_frequency := [(JStr "boom", 2%nat);
                                                  (JStr "Unknown", 1%nat)] |}).
Proof.
  repeat split. eexists. vm_compute. reflexivity.
Qed.


(** Acme's feed on the deployment leaves the other tenant's event out. *)
Lemma recent_events_scoped_sorted_capped_witness :
  map Event.id (recent_query Scenario.acme Scenario.busy) = [5; 4; 2; 1]
  /\ Forall (fun e => Event.client_id e = 1 /\ In e (events Scenario.busy))
            (recent_query Scenario.acme Scenario.busy)
  /\ exists views,
       recent_events Scenario.acme Scenario.busy = Reply 200 (Recent views)
       /\ map view_id views = [5; 4; 2; 1].
Proof.
  split; [reflexivity|].
  pose proof (recent_events_scoped_sorted_capped Scenario.acme Scenario.busy) as H.
  cbv zeta in H. destruct H as (_ & _ & Hmine & _).
  split; [exact Hmine|].
  eexists. split; reflexivity.
Defined.

(** Acme's summary on the deployment. *)
Lemma summary_total_is_sum_of_types_witness :
  exists s,
    analytics_summary Scenario.acme Scenario.busy = Reply 200 (Summary s)
    /\ total_events s = 4%nat
    /\ by_type s = [("error", 3%nat); ("click", 1%nat)]
    /\ first_event s = Some "2024-01-01T12:00:00".
Proof.
  destruct (summary_total_is_sum_of_types Scenario.acme Scenario.busy)
    as (s & Hs & _).
  exists s. split; [exact Hs|].
  injection Hs as Hs. subst s. repeat split.
Defined.

(* ================================================================== *)
(** ** More about POST /api/events *)

(** The four ways [track_event] ends when the session starts empty. *)
Lemma track_event_outcome (eng : Engine) (ev : env) (client : Client.t)
      (data : json) (w : world) :
  session w = [] ->
  (exists o row,
      new_event client data = Ret o
      /\ insert_event eng ev w o = Ret row
      /\ track_event eng ev client data w
         = (Reply 201 (Receipt (Event.id row) (isoformat (utcnow ev))),
            {| clients := clients w; events := events w ++ [row];
               next_client_id := next_client_id w;
               next_event_id := next_event_id w + 1;
               session := [];
               metrics := metrics w
                          ++ [events_counter_inc (Event.o_event_type o)
                                                 (Client.name client)]
                          ++ [request_duration_observe "/api/events" (elapsed ev)] |}))
  \/ (exists field,
        first_missing required data = Ret (Some field)
        /\ track_event eng ev client data w
           = (Reply 400 (Error ("Missing " ++ field)),
              observe (error_counter_inc "validation") w))
  \/ (first_missing required data = Ret None
      /\ track_event eng ev client data w
         = (Reply 500 (Error "Failed to process event"),
            session_rollback (observe (error_counter_inc "processing") w)))
  \/ (exists e,
        first_missing required data = Raise e
        /\ track_event eng ev client data w = (Unhandled e, w)).
Proof.
  intros Hs. unfold track_event.
  destruct (first_missing required data) as [[field|]|e] eqn:Hvalid.
  - right. left. exists field. split; reflexivity.
  - destruct (new_event client data) as [o|x] eqn:Hnew.
    + unfold session_commit, session_add. simpl. rewrite Hs. simpl.
      assert (Hins : insert_event eng ev
                {| clients := clients w; events := events w;
                   next_client_id := next_client_id w;
                   next_event_id := next_event_id w;
                   session := [PendingEvent o]; metrics := metrics w |} o
              = insert_event eng ev w o) by reflexivity.
      rewrite Hins.
      destruct (insert_event eng ev w o) as [row|x] eqn:Hrow; simpl.
      * left. exists o, row. split; [reflexivity|]. split; [exact Hrow|].
        destruct (insert_event_row _ _ _ _ _ Hrow) as (Hid & _).
        unfold observe. simpl. rewrite Hid, <- app_assoc.
        replace (next_event_id w + 1 - 1) with (next_event_id w) by lia.
        reflexivity.
      * right. right. left. split; reflexivity.
    + right. right. left. split; reflexivity.
  - right. right. right. exists e. split; reflexivity.
Qed.

Lemma first_missing_present (kvs : list (string * json)) (fields : list string) :
  Forall (fun f => Py.lookup f kvs <> None) fields ->
  first_missing fields (JObj kvs) = Ret None.
Proof.
  induction 1 as [|f rest Hf Hrest IH]; simpl; [reflexivity|].
  destruct (Py.lookup f kvs); [exact IH | congruence].
Qed.

(** X1.  A well-formed event is stored: when the payload is a dict whose
    [event_type], [identifiers.visitor_id], [identifiers.session_id] and
    [page_info.url] are strings, whose [sent_at] is a string that parses
    after the replacement of Z, and the engine takes the row, the answer
    is 201 with the id of the new row and the clock as the handler reads
    it after the commit; the row holds these fields, the tenant's id, the
    payload, what the engine keeps of the parsed [sent_at], and as
    [received_at] the clock as read for the column default at the flush;
    the events counter is incremented for the event type and the tenant's
    name, and one duration is observed. *)
Theorem well_formed_event_is_stored (eng : Engine) (ev : env) (client : Client.t)
        (kvs ids page : list (string * json)) (vid sid url ty ts : string)
        (sdk : option string) (t : datetime) (w : world) :
  session w = [] ->
  Py.lookup "event_type" kvs = Some (JStr ty) ->
  Py.lookup "sent_at" kvs = Some (JStr ts) ->
  fromisoformat (Py.replace "Z" "+00:00" ts) = Ret t ->
  Py.lookup "identifiers" kvs = Some (JObj ids) ->
  Py.lookup "visitor_id" ids = Some (JStr vid) ->
  Py.lookup "session_id" ids = Some (JStr sid) ->
  Py.lookup "page_info" kvs = Some (JObj page) ->
  Py.lookup "url" page = Some (JStr url) ->
  optional_text eng (sdk_version_of kvs) = Ret sdk ->
  accepts_event eng (row_of eng ev w client kvs vid sid url ty sdk t) = true ->
  track_event eng ev client (JObj kvs) w
  = (Reply 201 (Receipt (next_event_id w) (isoformat (utcnow ev))),
     {| clients := clients w;
        events := events w ++ [row_of eng ev w client kvs vid sid url ty sdk t];
        next_client_id := next_client_id w;
        next_event_id := next_event_id w + 1;
        session := [];
        metrics := metrics w
                   ++ [events_counter_inc (JStr ty) (Client.name client)]
                   ++ [request_duration_observe "/api/events" (elapsed ev)] |}).
Proof.
  intros Hs Hty Hts Hparse Hids Hvid Hsid Hpage Hurl Hsdk Haccept.
  assert (Hnew : new_event client (JObj kvs)
                 = Ret (Event.new (Client.id client) (JStr vid) (JStr sid) (JStr url)
                                  (JStr ty) (sdk_version_of kvs) t (JObj kvs))).
  { unfold new_event, parse_sent_at, sdk_version_of. simpl.
    rewrite Hids. simpl. rewrite Hvid, Hsid. simpl.
    rewrite Hpage. simpl. rewrite Hurl. simpl. rewrite Hty. simpl.
    destruct (Py.lookup "sdk_version" kvs); simpl; rewrite Hts; simpl;
      rewrite Hparse; reflexivity. }
  assert (Hrow : insert_event eng ev w
                   (Event.new (Client.id client) (JStr vid) (JStr sid) (JStr url)
                              (JStr ty) (sdk_version_of kvs) t (JObj kvs))
                 = Ret (row_of eng ev w client kvs vid sid url ty sdk t)).
  { unfold insert_event. simpl. rewrite Hsdk. simpl.
    unfold row_of in Haccept. rewrite Haccept. reflexivity. }
  assert (Hvalid : first_missing required (JObj kvs) = Ret None).
  { apply first_missing_present. unfold required.
    repeat constructor; congruence. }
  destruct (track_event_outcome eng ev client (JObj kvs) w Hs)
    as [(o & row & Ho & Hr & Heq) | [(f & Hf & _) | [(_ & Heq) | (e & He & _)]]];
    try congruence.
  - rewrite Hnew in Ho. inversion Ho; subst o.
    rewrite Hrow in Hr. inversion Hr; subst row. exact Heq.
  - exfalso. revert Heq. unfold track_event. rewrite Hvalid, Hnew.
    unfold session_commit, session_add. simpl. rewrite Hs. simpl.
    change (insert_event eng ev _ ?o) with (insert_event eng ev w o).
    rewrite Hrow. simpl. discriminate.
Qed.

(** The submission of the scenario, on the deployment. *)
Lemma well_formed_event_is_stored_witness :
  exists w',
    track_event strict_engine Scenario.clock Scenario.acme (JObj More.keyed_click)
                Scenario.installed
    = (Reply 201 (Receipt 1 "2024-01-02T03:04:05.000006"), w')
    /\ map Event.visitor_id (events w') = ["v1"]
    /\ map (fun e => isoformat (Event.received_at e)) (events w')
       = ["2024-01-02T03:04:05.000002"]
    /\ events_total (metrics w') = 1%nat.
Proof.
  eexists. split.
  - apply (well_formed_event_is_stored strict_engine Scenario.clock Scenario.acme
             More.keyed_click
             [("visitor_id", JStr "v1"); ("session_id", JStr "s1")]
             [("url", JStr "https://x.test")]
             "v1" "s1" "https://x.test" "click" "2024-01-01T12:00:00Z" None
             (Datetime.mk 2024 1 1 12 0 0 0 (Some 0)) Scenario.installed);
      reflexivity.
  - repeat split.
Defined.

(** X2.  On a payload that is a dict, the 400 names the first required
    field, in the order [event_type], [sent_at], [identifiers],
    [page_info], that the dict lacks; the validation counter goes up by
    one and nothing else changes. *)
Theorem validation_names_first_missing_field (eng : Engine) (ev : env)
        (client : Client.t) (kvs : list (string * json)) (w : world)
        (present absent : list string) (field : string) :
  required = present ++ field :: absent ->
  Forall (fun f => Py.lookup f kvs <> None) present ->
  Py.lookup field kvs = None ->
  let w' := snd (track_event eng ev client (JObj kvs) w) in
  fst (track_event eng ev client (JObj kvs) w) = Reply 400 (Error ("Missing " ++ field))
  /\ events w' = events w /\ clients w' = clients w /\ session w' = session w
  /\ errors_total "validation" (metrics w') = S (errors_total "validation" (metrics w))
  /\ events_total (metrics w') = events_total (metrics w).
Proof.
  intros Hreq Hpresent Habsent w'.
  assert (Hvalid : first_missing required (JObj kvs) = Ret (Some field)).
  { rewrite Hreq. clear Hreq.
    induction Hpresent as [|f rest Hf Hrest IH]; simpl.
    - rewrite Habsent. reflexivity.
    - destruct (Py.lookup f kvs); [exact IH | congruence]. }
  subst w'. unfold track_event. rewrite Hvalid. simpl.
  repeat split.
  - change (metrics w ++ [error_counter_inc "validation"])
      with (metrics (observe (error_counter_inc "validation") w)).
    rewrite errors_total_observe. simpl. lia.
  - unfold events_total. rewrite filter_app, length_app. simpl. lia.
Qed.

(** A payload with [event_type] only: the answer names [sent_at]. *)
Lemma validation_names_first_missing_field_witness :
  fst (track_event strict_engine Scenario.clock Scenario.acme
                   (JObj [("event_type", JStr "click")]) Scenario.installed)
  = Reply 400 (Error "Missing sent_at").
Proof.
  apply (validation_names_first_missing_field strict_engine Scenario.clock Scenario.acme
           [("event_type", JStr "click")] Scenario.installed
           ["event_type"] ["identifiers"; "page_info"] "sent_at").
  - reflexivity.
  - repeat constructor. discriminate.
  - reflexivity.
Defined.

Lemma events_total_app (m1 m2 : list sample) :
  events_total (m1 ++ m2) = (events_total m1 + events_total m2)%nat.
Proof. unfold events_total. rewrite filter_app, length_app. reflexivity. Qed.

Lemma errors_total_app (type : string) (m1 m2 : list sample) :
  errors_total type (m1 ++ m2)
  = (errors_total type m1 + errors_total type m2)%nat.
Proof. unfold errors_total. rewrite filter_app, length_app. reflexivity. Qed.

(** X3.  The instruments follow the outcome of a submission: the events
    counter goes up by exactly the number of rows written (one with a 201,
    none otherwise), the validation counter by one exactly with a 400, the
    processing counter by one exactly with the handler's own 500, and none
    of the three when an exception leaves the handler. *)
Theorem instruments_follow_outcome (eng : Engine) (ev : env) (client : Client.t)
        (data : json) (w : world) :
  session w = [] ->
  let r := fst (track_event eng ev client data w) in
  let w' := snd (track_event eng ev client data w) in
  (List.length (events w') + events_total (metrics w)
   = List.length (events w) + events_total (metrics w'))%nat
  /\ events_total (metrics w')
     = (events_total (metrics w) + if Z.eqb (status_of r) 201 then 1 else 0)%nat
  /\ errors_total "validation" (metrics w')
     = (errors_total "validation" (metrics w) + if Z.eqb (status_of r) 400 then 1 else 0)%nat
  /\ errors_total "processing" (metrics w')
     = (errors_total "processing" (metrics w)
        + match r with Reply 500 _ => 1 | _ => 0 end)%nat.
Proof.
  intros Hs r w'. subst r w'.
  destruct (track_event_outcome eng ev client data w Hs)
    as [(o & row & _ & _ & ->) | [(f & _ & ->) | [(_ & ->) | (e & _ & ->)]]];
    cbn [fst snd status_of events metrics observe session_rollback];
    rewrite ?length_app, ?events_total_app, ?errors_total_app;
    repeat split; vm_compute Z.eqb; cbn [List.length];
    change (events_total [events_counter_inc ?a ?b]) with 1%nat;
    change (events_total [request_duration_observe ?a ?b]) with 0%nat;
    change (events_total [error_counter_inc ?a]) with 0%nat;
    change (errors_total ?t [events_counter_inc ?a ?b]) with 0%nat;
    change (errors_total ?t [request_duration_observe ?a ?b]) with 0%nat;
    change (errors_total "validation" [error_counter_inc "validation"]) with 1%nat;
    change (errors_total "processing" [error_counter_inc "processing"]) with 1%nat;
    change (errors_total "validation" [error_counter_inc "processing"]) with 0%nat;
    change (errors_total "processing" [error_counter_inc "validation"]) with 0%nat;
    lia.
Qed.

(** After the submission of the scenario: one row, counted once. *)
Lemma instruments_follow_outcome_witness :
  let w' := snd (track_event strict_engine Scenario.clock Scenario.acme Scenario.click
                             Scenario.installed) in
  List.length (events w') = 1%nat /\ events_total (metrics w') = 1%nat
  /\ errors_total "processing" (metrics w') = 0%nat.
Proof.
  intros w'.
  destruct (instruments_follow_outcome strict_engine Scenario.clock Scenario.acme
              Scenario.click Scenario.installed eq_refl) as (_ & Hev & _ & Hpr).
  split; [reflexivity|]. split; [exact Hev | exact Hpr].
Defined.

(** X4.  Only a dict is ever stored: a submission answered 201 has a JSON
    object for payload, and when every stored [raw_data] is an object
    before a submission, every stored [raw_data] is one after it. *)
Theorem stored_payloads_are_objects (eng : Engine) (ev : env) (client : Client.t)
        (data : json) (w : world) :
  session w = [] ->
  let is_object := fun e => exists kvs, Event.raw_data e = JObj kvs in
  (forall body w', track_event eng ev client data w = (Reply 201 body, w') ->
                   exists kvs, data = JObj kvs)
  /\ (Forall is_object (events w) ->
      Forall is_object (events (snd (track_event eng ev client data w)))).
Proof.
  intros Hs is_object.
  assert (Hobj : forall o, new_event client data = Ret o -> exists kvs, data = JObj kvs).
  { unfold new_event. intros o Ho.
    destruct data; simpl in Ho; try discriminate. eauto. }
  destruct (track_event_outcome eng ev client data w Hs)
    as [(o & row & Ho & Hrow & ->) | [(f & _ & ->) | [(_ & ->) | (e & _ & ->)]]];
    simpl; (split; [intros body w' H; try discriminate|]); try (intros H; exact H).
  - apply (Hobj o Ho).
  - intros Hall. apply Forall_app. split; [exact Hall|].
    constructor; [|constructor].
    destruct (insert_event_row _ _ _ _ _ Hrow) as (_ & _ & _ & _ & _ & Hraw).
    destruct (new_event_fields _ _ _ Ho) as (_ & Hdata & _).
    destruct (Hobj o Ho) as (kvs & Hk). exists kvs. congruence.
Qed.

(** An array that lists the four field names passes the validation loop
    and is then refused. *)
Lemma stored_payloads_are_objects_witness :
  let listing := JArr [JStr "event_type"; JStr "sent_at"; JStr "identifiers";
                       JStr "page_info"] in
  first_missing required listing = Ret None
  /\ events (snd (track_event strict_engine Scenario.clock Scenario.acme listing
                              Scenario.busy))
     = events Scenario.busy
  /\ Forall (fun e => exists kvs, Event.raw_data e = JObj kvs)
            (events (snd (track_event strict_engine Scenario.clock Scenario.acme
                                      Scenario.click Scenario.busy))).
Proof.
  intros listing. split; [reflexivity|]. split; [reflexivity|].
  apply (stored_payloads_are_objects strict_engine Scenario.clock Scenario.acme
           Scenario.click Scenario.busy eq_refl).
  repeat constructor; eexists; reflexivity.
Defined.

(* ================================================================== *)
(** ** More about the before_request hook *)

(** X5.  The hook lets a request through without a client exactly on the
    four allow-listed paths, compared as whole strings, whatever the body
    and the header; and on every path it leaves the tables and the
    session as they are. *)
Theorem allow_list_is_exact (eng : Engine) (req : request) (w : world) :
  (fst (authenticate eng req w) = Public
   <-> path req = "/health" \/ path req = "/api/register" \/ path req = "/"
       \/ path req = "/metrics")
  /\ (fst (authenticate eng req w) = Public -> snd (authenticate eng req w) = w)
  /\ clients (snd (authenticate eng req w)) = clients w
  /\ events (snd (authenticate eng req w)) = events w
  /\ session (snd (authenticate eng req w)) = session w.
Proof.
  assert (Hlist : existsb (String.eqb (path req)) public_paths = true
                  <-> path req = "/health" \/ path req = "/api/register"
                      \/ path req = "/" \/ path req = "/metrics").
  { unfold public_paths. simpl. rewrite !orb_true_iff, !String.eqb_eq.
    intuition discriminate. }
  unfold authenticate.
  destruct (existsb (String.eqb (path req)) public_paths) eqn:Hpub.
  - simpl. repeat split; auto. intros _. apply Hlist. reflexivity.
  - assert (Hno : ~ (path req = "/health" \/ path req = "/api/register"
                     \/ path req = "/" \/ path req = "/metrics")).
    { intros H. apply Hlist in H. discriminate. }
    destruct (Py.get _ "api_key" JNull) as [body_key|e]; simpl.
    + match goal with |- context [negb (Py.truthy ?k)] => destruct (Py.truthy k) end;
        simpl.
      * match goal with |- context [as_text eng ?k] => destruct (as_text eng k) end;
          simpl.
        -- match goal with |- context [find_client ?k ?c] =>
                             destruct (find_client k c) end;
             simpl; repeat split; try tauto; try discriminate.
        -- repeat split; try tauto; try discriminate.
      * repeat split; try tauto; try discriminate.
    + repeat split; try tauto; try discriminate.
Qed.

Lemma find_client_none (key : string) (cs : list Client.t) :
  (forall c, In c cs -> Client.api_key c = key -> Client.is_active c = false) ->
  find_client key cs = None.
Proof.
  intros H. unfold find_client.
  destruct (find _ cs) as [c|] eqn:Hfind; [|reflexivity].
  apply find_some in Hfind. destruct Hfind as [Hin Hc].
  apply andb_true_iff in Hc. destruct Hc as [Hk Ha].
  apply String.eqb_eq in Hk. rewrite (H c Hin Hk) in Ha. discriminate.
Qed.

(** What the hook reads as the [api_key] of a body it can read. *)
Lemma get_body_api_key (req : request) :
  readable_body req ->
  Py.get (Py.or_else (match json_body req with Some j => j | None => JNull end)
                     (JObj [])) "api_key" JNull
  = Ret (body_api_key req).
Proof.
  unfold readable_body, body_api_key, Py.or_else.
  destruct (json_body req) as [j|]; [|reflexivity].
  intros [Hfalsy|(kvs & ->)].
  - rewrite Hfalsy. destruct j; try reflexivity.
    destruct kvs; [reflexivity | discriminate Hfalsy].
  - destruct kvs as [|kv rest]; [reflexivity|].
    cbn [Py.truthy Py.get].
    destruct (Py.lookup "api_key" (kv :: rest)); reflexivity.
Qed.

(** The hook looks up the key a request presents. *)
Lemma authenticate_presented (eng : Engine) (req : request) (key : string)
      (w : world) :
  existsb (String.eqb (path req)) public_paths = false ->
  key <> "" -> presents req key ->
  authenticate eng req w
  = match find_client key (clients w) with
    | Some client => (Attached client, w)
    | None =>
        (Halted (Reply 401 (Error "Invalid API key")),
         observe (error_counter_inc "auth_invalid") w)
    end.
Proof.
  intros Hpath Hkey [Hbody Hpresents]. unfold authenticate.
  rewrite Hpath, (get_body_api_key req Hbody).
  assert (Htruthy : Py.truthy (JStr key) = true).
  { apply negb_true_iff, String.eqb_neq, Hkey. }
  destruct Hpresents as [Hin_body | [Hnone Hheader]].
  - rewrite Hin_body, Htruthy. cbv iota. rewrite Htruthy. reflexivity.
  - rewrite Hnone, Hheader. cbv iota. rewrite Htruthy. reflexivity.
Qed.

(** X6.  A key that no active client holds is rejected: when every client
    with that exact key is inactive (or there is none), a request outside
    the allow-list that presents the key, in the [api_key] field of its
    body or, when its body (absent, falsy or a dict) holds no truthy
    [api_key], in its X-API-Key header, gets 401 "Invalid API key", the
    [auth_invalid] counter goes up by one, and no client is attached. *)
Theorem inactive_or_unknown_key_is_rejected (eng : Engine) (req : request)
        (key : string) (w : world) :
  existsb (String.eqb (path req)) public_paths = false ->
  key <> "" ->
  presents req key ->
  (forall c, In c (clients w) -> Client.api_key c = key -> Client.is_active c = false) ->
  authenticate eng req w
  = (Halted (Reply 401 (Error "Invalid API key")),
     observe (error_counter_inc "auth_invalid") w).
Proof.
  intros Hpath Hkey Hpresents Hnone.
  rewrite (authenticate_presented eng req key w Hpath Hkey Hpresents).
  rewrite (find_client_none key (clients w) Hnone). reflexivity.
Qed.

(** The key of the deactivated tenant, in the header of a request with a
    JSON body, and in the body of a submission. *)
Lemma inactive_or_unknown_key_is_rejected_witness :
  existsb (fun c => String.eqb (Client.api_key c) "sk_retired") (clients More.with_retired)
  = true
  /\ fst (authenticate strict_engine (More.filtered_summary "sk_retired")
                       More.with_retired)
     = Halted (Reply 401 (Error "Invalid API key"))
  /\ fst (authenticate strict_engine
            {| path := "/api/events";
               json_body := Some (JObj [("api_key", JStr "sk_retired")]);
               x_api_key := Some "sk_acme" |}
            More.with_retired)
     = Halted (Reply 401 (Error "Invalid API key")).
Proof.
  assert (Hretired : forall c, In c (clients More.with_retired) ->
                               Client.api_key c = "sk_retired" ->
                               Client.is_active c = false).
  { intros c [<-|[<-|[]]]; simpl; [discriminate | reflexivity]. }
  split; [reflexivity|]. split.
  - rewrite (inactive_or_unknown_key_is_rejected strict_engine
               (More.filtered_summary "sk_retired") "sk_retired" More.with_retired).
    + reflexivity.
    + reflexivity.
    + discriminate.
    + split; [right; eexists; reflexivity|]. right. split; reflexivity.
    + exact Hretired.
  - rewrite (inactive_or_unknown_key_is_rejected strict_engine
               {| path := "/api/events";
                  json_body := Some (JObj [("api_key", JStr "sk_retired")]);
                  x_api_key := Some "sk_acme" |} "sk_retired" More.with_retired).
    + reflexivity.
    + reflexivity.
    + discriminate.
    + split; [right; eexists; reflexivity|]. left. reflexivity.
    + exact Hretired.
Defined.

(** X7.  A truthy [api_key] in the body decides alone: with such a body
    the hook ends the same way whatever the X-API-Key header holds, so a
    valid header does not rescue a wrong body key. *)
Theorem body_key_overrides_header (eng : Engine) (p : string)
        (kvs : list (string * json)) (key : json) (h1 h2 : option string) (w : world) :
  Py.lookup "api_key" kvs = Some key ->
  Py.truthy key = true ->
  authenticate eng {| path := p; json_body := Some (JObj kvs); x_api_key := h1 |} w
  = authenticate eng {| path := p; json_body := Some (JObj kvs); x_api_key := h2 |} w.
Proof.
  intros Hkey Htruthy. unfold authenticate. cbn [path json_body x_api_key].
  destruct (existsb (String.eqb p) public_paths); [reflexivity|].
  assert (Hbody : Py.truthy (JObj kvs) = true).
  { destruct kvs; [discriminate | reflexivity]. }
  unfold Py.or_else. rewrite Hbody. cbn [Py.get]. rewrite Hkey. rewrite Htruthy.
  reflexivity.
Qed.

(** A wrong key in the body, Acme's key in the header: rejected. *)
Lemma body_key_overrides_header_witness :
  fst (authenticate strict_engine
         {| path := "/api/events";
            json_body := Some (JObj [("api_key", JStr "sk_wrong")]);
            x_api_key := Some "sk_acme" |} Scenario.installed)
  = Halted (Reply 401 (Error "Invalid API key")).
Proof.
  rewrite (body_key_overrides_header strict_engine "/api/events"
             [("api_key", JStr "sk_wrong")] (JStr "sk_wrong")
             (Some "sk_acme") None Scenario.installed eq_refl eq_refl).
  reflexivity.
Defined.

(* ================================================================== *)
(** ** More about POST /api/register *)

(** What a 201 of [register_client] means for the tables. *)
Lemma register_client_created (eng : Engine) (ev : env) (data : json)
      (w w' : world) (key : string) :
  session w = [] ->
  register_client eng ev data w = (Reply 201 (Registered key), w') ->
  exists nm row,
    Py.getitem data "name" = Ret nm
    /\ insert_client eng ev w (Client.new (generate_api_key ev) nm) = Ret row
    /\ key = generate_api_key ev
    /\ clients w' = clients w ++ [row] /\ events w' = events w
    /\ session w' = [] /\ metrics w' = metrics w.
Proof.
  intros Hs. unfold register_client.
  destruct (negb (Py.truthy data)); [discriminate|].
  destruct (Py.contains "name" data) as [[|]|e]; try discriminate.
  destruct (Py.getitem data "name") as [nm|e]; [|discriminate].
  unfold session_commit, session_add. simpl. rewrite Hs. simpl.
  change (insert_client eng ev _ ?o) with (insert_client eng ev w o).
  destruct (insert_client eng ev w (Client.new (generate_api_key ev) nm))
    as [row|e] eqn:Hrow; simpl; [|discriminate].
  intros H. inversion H; subst. simpl. exists nm, row. repeat split. exact Hrow.
Qed.

Lemma insert_client_id (eng : Engine) (ev : env) (w : world) (o : Client.obj)
      (row : Client.t) :
  insert_client eng ev w o = Ret row -> Client.id row = next_client_id w.
Proof.
  unfold insert_client. intros H.
  destruct (optional_text eng (Client.o_name o)); simpl in H; [|discriminate].
  destruct (key_taken (Client.o_api_key o) (clients w)); [discriminate|].
  match type of H with (if ?c then _ else _) = _ => destruct c end; [|discriminate].
  inversion H; subst; reflexivity.
Qed.

(** X8.  The key a registration returns authenticates on the next
    request: after a 201 of [register_client], a request to a path outside
    the allow-list that presents the returned key, in the [api_key] field
    of its body or, when its body (absent, falsy or a dict) holds no truthy
    [api_key], in its X-API-Key header, is attached to an active client
    holding that key, the one the registration created. *)
Theorem registered_key_authenticates (eng : Engine) (ev : env) (data : json)
        (w w' : world) (key : string) (req : request) :
  session w = [] ->
  register_client eng ev data w = (Reply 201 (Registered key), w') ->
  existsb (String.eqb (path req)) public_paths = false ->
  presents req key ->
  exists client,
    authenticate eng req w' = (Attached client, w')
    /\ clients w' = clients w ++ [client]
    /\ Client.api_key client = key /\ Client.is_active client = true
    /\ Client.id client = next_client_id w.
Proof.
  intros Hs Hreg Hpath Hpresents.
  destruct (register_client_created eng ev data w w' key Hs Hreg)
    as (nm & row & _ & Hrow & -> & Hcl & _).
  destruct (insert_client_row _ _ _ _ _ Hrow) as (Hkey & Hact & Hfresh).
  simpl in Hkey.
  pose proof (insert_client_id _ _ _ _ _ Hrow) as Hid.
  exists row.
  assert (Hfind : find_client (generate_api_key ev) (clients w') = Some row).
  { rewrite Hcl. unfold find_client. rewrite Hkey in Hfresh.
    pose proof (key_taken_false _ _ Hfresh) as Hnotin.
    clear - Hnotin Hkey Hact.
    induction (clients w) as [|c cs IH]; simpl.
    - rewrite Hkey, String.eqb_refl, Hact. reflexivity.
    - simpl in Hnotin.
      destruct (String.eqb (Client.api_key c) (generate_api_key ev)) eqn:Hc.
      + apply String.eqb_eq in Hc. tauto.
      + simpl. apply IH. tauto. }
  split; [|auto].
  rewrite (authenticate_presented eng req (generate_api_key ev) w' Hpath);
    [rewrite Hfind; reflexivity | discriminate | exact Hpresents].
Qed.

(** "Globex" registers on the deployment and asks for its summary, with
    its key in the header and a JSON body that holds no key. *)
Lemma registered_key_authenticates_witness :
  exists w' client,
    register_client strict_engine Scenario.clock (JObj [("name", JStr "Globex")])
                    Scenario.installed
    = (Reply 201 (Registered "sk_q3vZ0aXkB1cYd2eF"), w')
    /\ authenticate strict_engine (More.filtered_summary "sk_q3vZ0aXkB1cYd2eF") w'
       = (Attached client, w')
    /\ Client.name client = Some "Globex".
Proof.
  eexists.
  destruct (registered_key_authenticates strict_engine Scenario.clock
              (JObj [("name", JStr "Globex")]) Scenario.installed _
              "sk_q3vZ0aXkB1cYd2eF" (More.filtered_summary "sk_q3vZ0aXkB1cYd2eF")
              eq_refl eq_refl eq_refl)
    as (client & Hauth & Hcl & _).
  { split; [right; eexists; reflexivity|]. right. split; reflexivity. }
  exists client. split; [reflexivity|]. split; [exact Hauth|].
  simpl in Hcl. inversion Hcl. reflexivity.
Defined.

Lemma flush_keeps_keys_distinct (eng : Engine) (ev : env)
      (ps : list pending) (w w' : world) :
  NoDup (map Client.api_key (clients w)) ->
  flush eng ev w ps = Ret w' ->
  NoDup (map Client.api_key (clients w')).
Proof.
  revert w. induction ps as [|p ps IH]; simpl; intros w Hnd H.
  - inversion H; subst. exact Hnd.
  - destruct (flush_one eng ev w p) as [w1|e] eqn:Hone; simpl in H; [|discriminate].
    apply (IH w1); [|exact H].
    destruct p as [o|o]; simpl in Hone.
    + destruct (insert_client eng ev w o) as [row|e] eqn:Hrow; simpl in Hone;
        [|discriminate].
      inversion Hone; subst; simpl.
      destruct (insert_client_row _ _ _ _ _ Hrow) as (_ & _ & Hfresh).
      rewrite map_app. simpl.
      apply NoDup_app; [exact Hnd | repeat constructor; tauto |].
      intros k Hin [<-|[]]. exact (key_taken_false _ _ Hfresh Hin).
    + destruct (insert_event eng ev w o); simpl in Hone; [|discriminate].
      inversion Hone; subst; simpl. exact Hnd.
Qed.

(** X9.  No two clients ever hold the same key: when the keys of the
    clients table are pairwise distinct, they still are after any
    registration and after any event submission, whatever the token drawn
    and whatever the session holds; a registration whose generated key is
    already held writes no row and is never answered 201, and when its
    body is a dict with [name], so that it reaches the commit, the commit
    raises and the answer is 500. *)
Theorem api_keys_stay_distinct (eng : Engine) (ev : env) (client : Client.t)
        (data : json) (w : world) :
  NoDup (map Client.api_key (clients w)) ->
  NoDup (map Client.api_key (clients (snd (register_client eng ev data w))))
  /\ NoDup (map Client.api_key (clients (snd (track_event eng ev client data w))))
  /\ (session w = [] ->
      key_taken (generate_api_key ev) (clients w) = true ->
      clients (snd (register_client eng ev data w)) = clients w
      /\ status_of (fst (register_client eng ev data w)) <> 201
      /\ forall kvs nm,
           data = JObj kvs -> Py.lookup "name" kvs = Some nm ->
           fst (register_client eng ev data w) = Unhandled DatabaseError
           /\ status_of (fst (register_client eng ev data w)) = 500).
Proof.
  intros Hnd.
  assert (Hcommit : forall p,
             match session_commit eng ev (session_add p w) with
             | Ret w2 => NoDup (map Client.api_key (clients w2))
             | Raise _ => True
             end).
  { intros p. unfold session_commit.
    destruct (flush eng ev (session_add p w) (session (session_add p w)))
      as [w2|e] eqn:Hflush; simpl; [|exact I].
    exact (flush_keeps_keys_distinct eng ev (session (session_add p w))
             (session_add p w) w2 Hnd Hflush). }
  split; [|split].
  - unfold register_client.
    destruct (negb (Py.truthy data)); [exact Hnd|].
    destruct (Py.contains "name" data) as [[|]|e]; try exact Hnd.
    destruct (Py.getitem data "name") as [nm|e]; [|exact Hnd].
    specialize (Hcommit (PendingClient (Client.new (generate_api_key ev) nm))).
    destruct (session_commit eng ev _) as [w2|e]; simpl; [exact Hcommit | exact Hnd].
  - unfold track_event.
    destruct (first_missing required data) as [[field|]|e]; try exact Hnd.
    destruct (new_event client data) as [o|e]; [|exact Hnd].
    specialize (Hcommit (PendingEvent o)).
    destruct (session_commit eng ev _) as [w2|e]; simpl; [exact Hcommit | exact Hnd].
  - intros Hs Htaken.
    assert (Hraise : forall nm,
               exists e, insert_client eng ev w (Client.new (generate_api_key ev) nm)
                         = Raise e /\ e = DatabaseError).
    { intros nm.
      pose proof (insert_client_outcome eng ev w (Client.new (generate_api_key ev) nm))
        as Hout.
      destruct (insert_client eng ev w (Client.new (generate_api_key ev) nm))
        as [row|e].
      - destruct Hout as (n & _ & _ & Hfresh & _).
        cbn [Client.o_api_key] in Hfresh. congruence.
      - exists e. split; [reflexivity | exact (proj1 Hout)]. }
    split; [|split].
    + unfold register_client.
      destruct (negb (Py.truthy data)); [reflexivity|].
      destruct (Py.contains "name" data) as [[|]|e]; try reflexivity.
      destruct (Py.getitem data "name") as [nm|e]; [|reflexivity].
      unfold session_commit, session_add. simpl. rewrite Hs. simpl.
      change (insert_client eng ev _ ?o) with (insert_client eng ev w o).
      destruct (Hraise nm) as (e & -> & _). reflexivity.
    + unfold register_client.
      destruct (negb (Py.truthy data)); [discriminate|].
      destruct (Py.contains "name" data) as [[|]|e]; try discriminate.
      destruct (Py.getitem data "name") as [nm|e]; [|discriminate].
      unfold session_commit, session_add. simpl. rewrite Hs. simpl.
      change (insert_client eng ev _ ?o) with (insert_client eng ev w o).
      destruct (Hraise nm) as (e & -> & _). discriminate.
    + intros kvs nm -> Hname.
      rewrite (register_client_named eng ev kvs nm w Hname Hs).
      destruct (Hraise nm) as (e & -> & ->). split; reflexivity.
Qed.

(** A second registration that draws the token of the first is refused. *)
Lemma api_keys_stay_distinct_witness :
  let first := snd (register_client strict_engine Scenario.clock
                                    (JObj [("name", JStr "Globex")]) Scenario.installed) in
  let second := register_client strict_engine Scenario.clock
                                (JObj [("name", JStr "Hooli")]) first in
  map Client.api_key (clients first) = ["sk_acme"; "sk_q3vZ0aXkB1cYd2eF"]
  /\ fst second = Unhandled DatabaseError
  /\ clients (snd second) = clients first.
Proof.
  intros first second.
  assert (Hnd : NoDup (map Client.api_key (clients first))).
  { apply (api_keys_stay_distinct strict_engine Scenario.clock Scenario.acme
             (JObj [("name", JStr "Globex")]) Scenario.installed).
    repeat constructor; simpl; tauto. }
  destruct (api_keys_stay_distinct strict_engine Scenario.clock Scenario.acme
              (JObj [("name", JStr "Hooli")]) first Hnd) as (_ & _ & Hclash).
  destruct (Hclash eq_refl eq_refl) as (Hsame & _ & Hraises).
  destruct (Hraises [("name", JStr "Hooli")] (JStr "Hooli") eq_refl eq_refl)
    as (Hreply & _).
  split; [reflexivity|]. split; [exact Hreply | exact Hsame].
Defined.

(* ================================================================== *)
(** ** How the handlers compose *)

(** X10.  A key sent in the body is written to the events table: when a
    submission is authenticated through the [api_key] field of its body
    and stored, the row's [raw_data], which is the whole body, holds the
    tenant's key under [api_key]. *)
Theorem body_key_is_stored_in_raw_data (eng : Engine) (ev : env) (p : string)
        (kvs : list (string * json)) (key : string) (header : option string)
        (client : Client.t) (w w' : world) (body : content) :
  session w = [] ->
  Py.lookup "api_key" kvs = Some (JStr key) -> key <> "" ->
  authenticate eng {| path := p; json_body := Some (JObj kvs); x_api_key := header |} w
  = (Attached client, w) ->
  track_event eng ev client (JObj kvs) w = (Reply 201 body, w') ->
  exists row,
    events w' = events w ++ [row]
    /\ Event.client_id row = Client.id client
    /\ Py.get (Event.raw_data row) "api_key" JNull = Ret (JStr (Client.api_key client)).
Proof.
  intros Hs Hkey Hne Hauth Htrack.
  assert (Hclient : Client.api_key client = key).
  { revert Hauth. unfold authenticate. cbn [path json_body x_api_key].
    destruct (existsb (String.eqb p) public_paths); [discriminate|].
    assert (Hbody : Py.truthy (JObj kvs) = true).
    { destruct kvs; [discriminate | reflexivity]. }
    unfold Py.or_else. rewrite Hbody. cbn [Py.get]. rewrite Hkey.
    assert (Htruthy : Py.truthy (JStr key) = true).
    { apply negb_true_iff, String.eqb_neq, Hne. }
    rewrite Htruthy. cbv iota. rewrite Htruthy. cbn [negb as_text].
    destruct (find_client key (clients w)) as [c|] eqn:Hfind; [|discriminate].
    intros H. inversion H; subst c.
    unfold find_client in Hfind. apply find_some in Hfind.
    destruct Hfind as [_ Hc]. apply andb_true_iff in Hc.
    destruct Hc as [Hk _]. apply String.eqb_eq in Hk. exact Hk. }
  destruct (track_event_outcome eng ev client (JObj kvs) w Hs)
    as [(o & row & Ho & Hrow & Heq) | [(f & _ & Heq) | [(_ & Heq) | (e & _ & Heq)]]];
    rewrite Heq in Htrack; try discriminate.
  inversion Htrack; subst. simpl.
  destruct (insert_event_row _ _ _ _ _ Hrow) as (_ & Hcid & _ & _ & _ & Hraw).
  destruct (new_event_fields _ _ _ Ho) as (Hocid & Hdata & _).
  exists row. split; [reflexivity|]. split; [congruence|].
  rewrite Hraw, Hdata. simpl. rewrite Hkey. reflexivity.
Qed.

(** The keyed submission of the scenario: Acme's key is in the row. *)
Lemma body_key_is_stored_in_raw_data_witness :
  exists row,
    events (snd (track_event strict_engine Scenario.clock Scenario.acme
                             (JObj More.keyed_click) Scenario.installed)) = [row]
    /\ Py.get (Event.raw_data row) "api_key" JNull = Ret (JStr "sk_acme").
Proof.
  set (result := track_event strict_engine Scenario.clock Scenario.acme
                             (JObj More.keyed_click) Scenario.installed).
  assert (Hresult : result
                    = (Reply 201 (Receipt 1 "2024-01-02T03:04:05.000006"), snd result))
    by (vm_compute; reflexivity).
  destruct (body_key_is_stored_in_raw_data strict_engine Scenario.clock "/api/events"
              More.keyed_click "sk_acme" None Scenario.acme Scenario.installed
              (snd result) (Receipt 1 "2024-01-02T03:04:05.000006")
              eq_refl eq_refl) as (row & Hev & _ & Hraw).
  - discriminate.
  - reflexivity.
  - exact Hresult.
  - exists row. split; [exact Hev | exact Hraw].
Defined.

(** The rows a submission adds belong to the submitting tenant. *)
Lemma track_event_rows (eng : Engine) (ev : env) (client : Client.t)
      (data : json) (w : world) :
  session w = [] ->
  events (snd (track_event eng ev client data w)) = events w
  \/ exists row,
       events (snd (track_event eng ev client data w)) = events w ++ [row]
       /\ Event.client_id row = Client.id client
       /\ status_of (fst (track_event eng ev client data w)) = 201.
Proof.
  intros Hs.
  destruct (track_event_outcome eng ev client data w Hs)
    as [(o & row & Ho & Hrow & ->) | [(f & _ & ->) | [(_ & ->) | (e & _ & ->)]]];
    simpl; auto.
  right. exists row. split; [reflexivity|]. split; [|reflexivity].
  destruct (insert_event_row _ _ _ _ _ Hrow) as (_ & Hcid & _).
  destruct (new_event_fields _ _ _ Ho) as (Hocid & _). congruence.
Qed.

(** X11.  A submission of one tenant is invisible to every other: after
    [track_event] for a client, the summary, the recent feed and the error
    report of a client with another id are answered exactly as before. *)
Theorem ingestion_is_invisible_to_other_tenants (eng : Engine) (ev : env)
        (client other : Client.t) (data : json) (w : world) :
  session w = [] ->
  Client.id other <> Client.id client ->
  let w' := snd (track_event eng ev client data w) in
  analytics_summary other w' = analytics_summary other w
  /\ recent_events other w' = recent_events other w
  /\ error_analytics other w' = error_analytics other w.
Proof.
  intros Hs Hid w'.
  assert (Howned : filter (owned_by other) (events w')
                   = filter (owned_by other) (events w)).
  { subst w'. destruct (track_event_rows eng ev client data w Hs)
      as [->|(row & -> & Hrow & _)]; [reflexivity|].
    rewrite filter_app. simpl.
    assert (Hno : owned_by other row = false).
    { unfold owned_by. apply Z.eqb_neq. congruence. }
    rewrite Hno. apply app_nil_r. }
  assert (Herrors : filter (is_error_of other) (events w')
                    = filter (is_error_of other) (events w)).
  { subst w'. destruct (track_event_rows eng ev client data w Hs)
      as [->|(row & -> & Hrow & _)]; [reflexivity|].
    rewrite filter_app. simpl.
    assert (Hno : is_error_of other row = false).
    { unfold is_error_of, owned_by. apply andb_false_iff. left.
      apply Z.eqb_neq. congruence. }
    rewrite Hno. apply app_nil_r. }
  unfold analytics_summary, recent_events, recent_query, error_analytics, errors_query.
  rewrite Howned, Herrors. repeat split.
Qed.

(** Acme sends an event; the other tenant's report is as it was. *)
Lemma ingestion_is_invisible_to_other_tenants_witness :
  let w' := snd (track_event strict_engine Scenario.clock Scenario.acme Scenario.click
                             Scenario.busy) in
  List.length (events w') = 6%nat
  /\ error_analytics More.globex w' = error_analytics More.globex Scenario.busy
  /\ analytics_summary More.globex w' = analytics_summary More.globex Scenario.busy.
Proof.
  intros w'.
  destruct (ingestion_is_invisible_to_other_tenants strict_engine Scenario.clock
              Scenario.acme More.globex Scenario.click Scenario.busy eq_refl)
    as (Hsummary & _ & Herrors).
  - discriminate.
  - split; [reflexivity|]. split; [exact Herrors | exact Hsummary].
Defined.

(* ================================================================== *)
(** ** More about the analytics *)

(** The summary is always returned, and counts the tenant's rows. *)
Lemma analytics_summary_counts (client : Client.t) (w : world) :
  let mine := filter (owned_by client) (events w) in
  exists s,
    analytics_summary client w = Reply 200 (Summary s)
    /\ summary_client s = Client.name client
    /\ total_events s = List.length mine
    /\ (forall ty, count_of ty (by_type s) = occurrences ty (map Event.event_type mine))
    /\ unique_visitors s = List.length (nodup string_dec (map Event.visitor_id mine)).
Proof.
  intros mine. unfold analytics_summary. fold mine.
  destruct (group_count_spec (map Event.event_type mine)) as (_ & _ & Hcount).
  destruct mine as [|e0 rest] eqn:Hmine.
  - eexists. split; [reflexivity|]. simpl.
    split; [reflexivity|]. split; [reflexivity|]. split; [exact Hcount | reflexivity].
  - change (Nat.ltb 0 (List.length (e0 :: rest))) with true. cbv iota.
    destruct (order_by oldest_first (e0 :: rest)) as [|first tail] eqn:Hsort.
    + pose proof (order_by_perm oldest_first (e0 :: rest)) as Hp.
      rewrite Hsort in Hp. apply Permutation_nil in Hp. discriminate.
    + eexists. split; [reflexivity|]. simpl.
      split; [reflexivity|]. split; [reflexivity|].
      split; [exact Hcount | reflexivity].
Qed.

(** One more value in a column adds one distinct value or none. *)
Lemma nodup_snoc_length (xs : list string) (x : string) :
  List.length (nodup string_dec (xs ++ [x]))
  = (List.length (nodup string_dec xs)
     + if existsb (fun y => String.eqb y x) xs then 0 else 1)%nat.
Proof.
  induction xs as [|y xs IH]; simpl; [reflexivity|].
  destruct (in_dec string_dec y xs) as [Hin|Hnin];
    destruct (in_dec string_dec y (xs ++ [x])) as [Hin'|Hnin'].
  - rewrite IH. destruct (String.eqb y x) eqn:Hyx; simpl; [|reflexivity].
    apply String.eqb_eq in Hyx. subst y.
    assert (Hex : existsb (fun y => String.eqb y x) xs = true).
    { apply existsb_exists. exists x. split; [exact Hin | apply String.eqb_refl]. }
    rewrite Hex. reflexivity.
  - exfalso. apply Hnin'. apply in_or_app. left. exact Hin.
  - apply in_app_or in Hin'. destruct Hin' as [Hin'|[Hx|[]]]; [tauto|].
    subst x. rewrite String.eqb_refl. simpl. rewrite IH.
    assert (Hno : existsb (fun z => String.eqb z y) xs = false).
    { apply not_true_is_false. intros Hex. apply existsb_exists in Hex.
      destruct Hex as (z & Hz & Hzy). apply String.eqb_eq in Hzy. subst z. tauto. }
    rewrite Hno. lia.
  - simpl. rewrite IH.
    assert (Hyx : String.eqb y x = false).
    { apply String.eqb_neq. intros ->. apply Hnin'. apply in_or_app.
      right. left. reflexivity. }
    rewrite Hyx. simpl. lia.
Qed.

(** X12.  A stored event shows in the tenant's next summary: after a 201
    of [track_event], [total_events] is one more than before, the count of
    the stored event's type is one more, the counts of the other types are
    as before, and [unique_visitors] is one more when the visitor is new
    to the tenant and unchanged otherwise. *)
Theorem stored_event_shows_in_summary (eng : Engine) (ev : env) (client : Client.t)
        (data : json) (w w' : world) (body : content) :
  session w = [] ->
  track_event eng ev client data w = (Reply 201 body, w') ->
  exists row s s',
    events w' = events w ++ [row]
    /\ analytics_summary client w = Reply 200 (Summary s)
    /\ analytics_summary client w' = Reply 200 (Summary s')
    /\ total_events s' = S (total_events s)
    /\ (forall ty, count_of ty (by_type s')
                   = (count_of ty (by_type s)
                      + if String.eqb ty (Event.event_type row) then 1 else 0)%nat)
    /\ unique_visitors s'
       = (unique_visitors s
          + if existsb (fun e => String.eqb (Event.visitor_id e) (Event.visitor_id row))
                       (filter (owned_by client) (events w))
            then 0 else 1)%nat.
Proof.
  intros Hs Htrack.
  destruct (track_event_rows eng ev client data w Hs) as [Hsame|(row & Hev & Hcid & _)].
  - exfalso.
    destruct (track_event_outcome eng ev client data w Hs)
      as [(o & row & _ & _ & Heq) | [(f & _ & Heq) | [(_ & Heq) | (e & _ & Heq)]]];
      rewrite Heq in Htrack; try discriminate.
    rewrite Heq in Hsame. simpl in Hsame.
    apply (f_equal (@List.length _)) in Hsame. rewrite length_app in Hsame.
    simpl in Hsame. lia.
  - rewrite Htrack in Hev. simpl in Hev.
    destruct (analytics_summary_counts client w) as (s & Hsum & _ & Htot & Hty & Huv).
    destruct (analytics_summary_counts client w') as (s' & Hsum' & _ & Htot' & Hty' & Huv').
    assert (Hmine : filter (owned_by client) (events w')
                    = filter (owned_by client) (events w) ++ [row]).
    { rewrite Hev, filter_app. simpl.
      assert (Hown : owned_by client row = true).
      { unfold owned_by. apply Z.eqb_eq. exact Hcid. }
      rewrite Hown. reflexivity. }
    cbv zeta in Htot', Hty', Huv'. rewrite Hmine in Htot', Hty', Huv'.
    exists row, s, s'. split; [exact Hev|]. split; [exact Hsum|].
    split; [exact Hsum'|]. split.
    { rewrite Htot', Htot, length_app. simpl. lia. }
    split.
    { intros ty. rewrite Hty', Hty. unfold occurrences.
      rewrite map_app, filter_app, length_app. simpl.
      destruct (String.eqb ty (Event.event_type row)); reflexivity. }
    rewrite Huv', Huv. cbv zeta.
    generalize (filter (owned_by client) (events w)). intros l.
    rewrite map_app. simpl.
    rewrite nodup_snoc_length. f_equal.
    assert (Hex : existsb (fun y => String.eqb y (Event.visitor_id row))
                          (map Event.visitor_id l)
                  = existsb (fun e => String.eqb (Event.visitor_id e)
                                                 (Event.visitor_id row)) l).
    { induction l as [|e l IHl]; simpl; [reflexivity|]. rewrite IHl. reflexivity. }
    rewrite Hex. reflexivity.
Qed.

(** The keyed submission after the events of the deployment. *)
Lemma stored_event_shows_in_summary_witness :
  exists s',
    analytics_summary Scenario.acme
      (snd (track_event strict_engine Scenario.clock Scenario.acme Scenario.click
                        Scenario.busy))
    = Reply 200 (Summary s')
    /\ total_events s' = 5%nat
    /\ count_of "click" (by_type s') = 2%nat
    /\ unique_visitors s' = 1%nat.
Proof.
  set (result := track_event strict_engine Scenario.clock Scenario.acme Scenario.click
                             Scenario.busy).
  assert (Hresult : result
                    = (Reply 201 (Receipt 6 "2024-01-02T03:04:05.000006"), snd result))
    by (vm_compute; reflexivity).
  destruct (stored_event_shows_in_summary strict_engine Scenario.clock Scenario.acme
              Scenario.click Scenario.busy (snd result)
              (Receipt 6 "2024-01-02T03:04:05.000006") eq_refl Hresult)
    as (row & s & s' & Hev & Hs & Hs' & Htot & Hty & Huv).
  exists s'. split; [exact Hs'|].
  assert (Hrow : Event.event_type row = "click" /\ Event.visitor_id row = "v1").
  { assert (H : last (events (snd result)) row = row)
      by (rewrite Hev; apply last_last).
    rewrite <- H. split; reflexivity. }
  destruct Hrow as [Hrty Hrv].
  injection Hs as Hs. subst s.
  split; [rewrite Htot; reflexivity|]. split.
  - rewrite Hty, Hrty. reflexivity.
  - rewrite Huv, Hrv. reflexivity.
Defined.

(** X13.  In every summary [unique_visitors] counts each visitor id of the
    tenant's events once: it is at most [total_events], it is zero exactly
    when the tenant has no events, and it is the length of a duplicate-free
    list of exactly those ids. *)
Theorem unique_visitors_counts_distinct_ids (client : Client.t) (w : world) :
  exists s,
    analytics_summary client w = Reply 200 (Summary s)
    /\ (unique_visitors s <= total_events s)%nat
    /\ (unique_visitors s = 0%nat <-> total_events s = 0%nat)
    /\ exists ids,
         NoDup ids /\ List.length ids = unique_visitors s
         /\ forall v, In v ids
                      <-> exists e, In e (events w)
                                    /\ Event.client_id e = Client.id client
                                    /\ Event.visitor_id e = v.
Proof.
  destruct (analytics_summary_counts client w) as (s & Hs & _ & Htot & _ & Huv).
  cbv zeta in Htot, Huv.
  set (mine := filter (owned_by client) (events w)) in *.
  set (ids := nodup string_dec (map Event.visitor_id mine)) in *.
  assert (Hnd : NoDup ids) by apply NoDup_nodup.
  assert (Hle : (List.length ids <= List.length mine)%nat).
  { rewrite <- (length_map Event.visitor_id mine).
    apply NoDup_incl_length; [exact Hnd|].
    intros v Hv. apply nodup_In in Hv. exact Hv. }
  exists s. split; [exact Hs|]. split; [lia|]. split.
  - rewrite Huv, Htot. split.
    + intros Hz. destruct mine as [|e rest] eqn:Hmine; [reflexivity|].
      exfalso. assert (Hin : In (Event.visitor_id e) ids).
      { unfold ids. apply nodup_In. left. reflexivity. }
      destruct ids; [destruct Hin | discriminate].
    + intros Hz. lia.
  - exists ids. split; [exact Hnd|]. split; [symmetry; exact Huv|].
    intros v. unfold ids. rewrite nodup_In, in_map_iff. split.
    + intros (e & Hv & Hin). unfold mine in Hin. apply filter_In in Hin.
      destruct Hin as [Hin Hown]. unfold owned_by in Hown.
      exists e. split; [exact Hin|]. split; [lia | exact Hv].
    + intros (e & Hin & Hc & Hv). exists e. split; [exact Hv|].
      unfold mine. apply filter_In. split; [exact Hin|].
      unfold owned_by. lia.
Qed.

(* ------------------------------------------------------------------ *)

(** X14.  The details of a recent event follow its type: a detail whose
    type is not the event's is null, so an event of any other type than
    [error], [click] and [page_view] always has a view, with three null
    details; and for the event's own type, on a payload dict whose outer
    key is absent, or a dict without the inner key, the detail is null and
    nothing is raised. *)
Theorem details_follow_event_type (e : Event.t) :
  (forall v, view_event e = Ret v ->
     (Event.event_type e <> "error" -> details_error v = JNull)
     /\ (Event.event_type e <> "click" -> details_click v = JNull)
     /\ (Event.event_type e <> "page_view" -> details_load_time v = JNull))
  /\ (Event.event_type e <> "error" -> Event.event_type e <> "click" ->
      Event.event_type e <> "page_view" ->
      exists v, view_event e = Ret v
                /\ details_error v = JNull /\ details_click v = JNull
                /\ details_load_time v = JNull)
  /\ (forall ty outer inner kvs,
        Event.raw_data e = JObj kvs ->
        (Py.lookup outer kvs = None
         \/ exists o, Py.lookup outer kvs = Some (JObj o)) ->
        detail e ty outer inner
        = Ret (if String.eqb (Event.event_type e) ty then nested kvs outer inner
               else JNull)).
Proof.
  split; [|split].
  - intros v. unfold view_event, detail.
    destruct (String.eqb (Event.event_type e) "error") eqn:He;
      destruct (String.eqb (Event.event_type e) "click") eqn:Hc;
      destruct (String.eqb (Event.event_type e) "page_view") eqn:Hp;
      try apply String.eqb_eq in He; try apply String.eqb_eq in Hc;
      try apply String.eqb_eq in Hp; try congruence;
      cbv iota; cbn [bind]; intros H;
      repeat match type of H with
             | bind ?m _ = _ => destruct m; simpl in H; [|discriminate]
             end;
      inversion H; subst; simpl; repeat split; intros Hne;
      try reflexivity; exfalso; apply Hne; assumption.
  - intros He Hc Hp. unfold view_event, detail.
    apply String.eqb_neq in He, Hc, Hp. rewrite He, Hc, Hp. simpl.
    eexists. split; [reflexivity|]. simpl. repeat split.
  - intros ty outer inner kvs Hraw Houter. unfold detail, nested.
    destruct (String.eqb (Event.event_type e) ty); [|reflexivity].
    rewrite Hraw. simpl.
    destruct Houter as [->|(o & ->)]; simpl; [reflexivity|].
    destruct (Py.lookup inner o); reflexivity.
Qed.

(** The click of the deployment: a click detail, no error detail. *)
Lemma details_follow_event_type_witness :
  exists v,
    view_event (Scenario.stored 4 1 8 "click"
                  [("click_info", JObj [("element", JStr "#buy")])]) = Ret v
    /\ details_click v = JStr "#buy"
    /\ details_error v = JNull /\ details_load_time v = JNull.
Proof.
  eexists. split; [reflexivity|]. split; [reflexivity|].
  destruct (proj1 (details_follow_event_type
                     (Scenario.stored 4 1 8 "click"
                        [("click_info", JObj [("element", JStr "#buy")])]))
                  _ eq_refl) as (Herr & _ & Hload).
  split; [apply Herr | apply Hload]; discriminate.
Defined.

(* ------------------------------------------------------------------ *)

(** X15.  The caps cut only what exceeds them: a tenant with at most 50
    events gets every one of them in the query of the recent feed, a
    tenant with more gets exactly 50; and the [total_errors] of a report
    is the number of the tenant's error events only up to 100, and 100
    beyond, with a listing of at most 10. *)
Theorem caps_cut_only_the_excess (client : Client.t) (w : world) :
  let mine := filter (owned_by client) (events w) in
  let errors := filter (is_error_of client) (events w) in
  ((List.length mine <= 50)%nat -> Permutation (recent_query client w) mine)
  /\ ((50 < List.length mine)%nat -> List.length (recent_query client w) = 50%nat)
  /\ match error_analytics client w with
     | Reply _ (Errors r) =>
         total_errors r = Nat.min 100 (List.length errors)
         /\ List.length (recent_errors r) = Nat.min 10 (List.length errors)
     | _ => True
     end.
Proof.
  intros mine errors.
  pose proof (order_by_limit newest_first newest_first_total newest_first_trans 50 mine)
    as H.
  cbv zeta in H. destruct H as (_ & Hperm & _ & Hlen).
  change (firstn 50 (order_by newest_first mine)) with (recent_query client w)
    in Hperm, Hlen.
  split; [|split].
  - intros Hsmall.
    assert (Hcut : skipn 50 (order_by newest_first mine) = []).
    { apply skipn_all2. rewrite (Permutation_length (order_by_perm newest_first mine)).
      exact Hsmall. }
    rewrite Hcut, app_nil_r in Hperm. exact Hperm.
  - intros Hbig. rewrite Hlen. lia.
  - destruct (errors_query_selection client w) as (Hsel & _).
    fold errors in Hsel.
    destruct (error_analytics_cases client w)
      as [(counts & views & _ & Hviews & _ & ->) | (x & -> & _)]; [|exact I].
    cbn [total_errors recent_errors]. split; [exact Hsel|].
    apply comprehension_ret in Hviews.
    rewrite <- (Forall2_length Hviews), length_firstn, Hsel.
    destruct (Nat.le_ge_cases 100 (List.length errors)) as [Hge|Hle].
    + rewrite (Nat.min_l _ _ Hge), Nat.min_l by lia.
      symmetry. apply Nat.min_l. lia.
    + rewrite (Nat.min_r _ _ Hle). reflexivity.
Qed.

(** Acme has four events on the deployment, three of them errors. *)
Lemma caps_cut_only_the_excess_witness :
  Permutation (recent_query Scenario.acme Scenario.busy)
              (filter (owned_by Scenario.acme) (events Scenario.busy))
  /\ List.length (recent_query Scenario.acme Scenario.busy) = 4%nat.
Proof.
  split; [|reflexivity].
  destruct (caps_cut_only_the_excess Scenario.acme Scenario.busy) as (Hall & _).
  apply Hall. apply Nat.leb_le. reflexivity.
Defined.

(* ------------------------------------------------------------------ *)

(** X16.  The table's key "Unknown" stands for an absent message only: an
    error event is counted under "Unknown" exactly when its [error_info],
    absent or a dict, has no [message] key or has the string "Unknown" for
    message; a message that is present and null is counted under the key
    None, while the listing shows null for both. *)
Theorem unknown_stands_for_absent_message (e : Event.t) (info : list (string * json)) :
  Py.get (Event.raw_data e) "error_info" (JObj []) = Ret (JObj info) ->
  (message_key e = Ret (JStr "Unknown")
   <-> Py.lookup "message" info = None
       \/ Py.lookup "message" info = Some (JStr "Unknown"))
  /\ (Py.lookup "message" info = Some JNull -> message_key e = Ret JNull)
  /\ exists v,
       view_error e = Ret v
       /\ (Py.lookup "message" info = None \/ Py.lookup "message" info = Some JNull ->
           err_message v = JNull).
Proof.
  intros Hinfo. unfold message_key, view_error, error_info. rewrite Hinfo. simpl.
  split; [|split].
  - destruct (Py.lookup "message" info) as [m|]; split; intros H.
    + inversion H. right. reflexivity.
    + destruct H as [H|H]; [discriminate | inversion H; reflexivity].
    + left. reflexivity.
    + reflexivity.
  - intros ->. reflexivity.
  - destruct (Py.lookup "message" info) as [m|] eqn:Hm;
      destruct (Py.lookup "file" info), (Py.lookup "line" info); simpl;
      eexists; (split; [reflexivity|]); simpl;
      intros [H|H]; try discriminate; inversion H; reflexivity.
Qed.

(** The error without [error_info] on the deployment. *)
Lemma unknown_stands_for_absent_message_witness :
  message_key (Scenario.stored 2 1 5 "error" []) = Ret (JStr "Unknown")
  /\ message_key (Scenario.stored 7 1 5 "error"
                    [("error_info", JObj [("message", JNull)])]) = Ret JNull.
Proof.
  split.
  - destruct (unknown_stands_for_absent_message (Scenario.stored 2 1 5 "error" []) []
                eq_refl) as (Hiff & _).
    apply Hiff. left. reflexivity.
  - destruct (unknown_stands_for_absent_message
                (Scenario.stored 7 1 5 "error"
                   [("error_info", JObj [("message", JNull)])])
                [("message", JNull)] eq_refl) as (_ & Hnull & _).
    apply Hnull. reflexivity.
Defined.

(* ================================================================== *)
(** ** What a stored row and an attached client come from *)

Lemma required_text_bound (eng : Engine) (v : json) (s : string) :
  required_text eng v = Ret s -> v <> JNull /\ as_text eng v = Some s.
Proof.
  unfold required_text. intros H. split.
  - intros ->. discriminate H.
  - destruct v; try discriminate H;
      match type of H with
      | match ?a with _ => _ end = _ => destruct a as [t|]; [|discriminate H]
      end;
      inversion H; reflexivity.
Qed.

(** X17.  What is stored is what was sent: after a 201 the payload is a
    dict with [identifiers] and [page_info], and the new row holds, as the
    engine binds them to text, the payload's [identifiers.visitor_id],
    [identifiers.session_id], [page_info.url] and [event_type], none of
    them null; its [sent_at] is what the engine keeps of the parsed
    [sent_at]; its id is the one in the receipt; its [received_at] is the
    clock as read for the column default when the row was flushed, and
    the receipt shows the clock as the handler read it after the commit. *)
Theorem stored_row_reflects_payload (eng : Engine) (ev : env) (client : Client.t)
        (data : json) (w w' : world) (body : content) :
  session w = [] ->
  track_event eng ev client data w = (Reply 201 body, w') ->
  exists row ids page vid sid url ty t,
    events w' = events w ++ [row]
    /\ body = Receipt (Event.id row) (isoformat (utcnow ev))
    /\ Event.id row = next_event_id w
    /\ Event.received_at row = default_utcnow ev
    /\ Py.getitem data "identifiers" = Ret ids
    /\ Py.getitem ids "visitor_id" = Ret vid
    /\ vid <> JNull /\ as_text eng vid = Some (Event.visitor_id row)
    /\ Py.getitem ids "session_id" = Ret sid
    /\ sid <> JNull /\ as_text eng sid = Some (Event.session_id row)
    /\ Py.getitem data "page_info" = Ret page
    /\ Py.getitem page "url" = Ret url
    /\ url <> JNull /\ as_text eng url = Some (Event.page_url row)
    /\ Py.getitem data "event_type" = Ret ty
    /\ ty <> JNull /\ as_text eng ty = Some (Event.event_type row)
    /\ parse_sent_at data = Ret t /\ Event.sent_at row = bind_datetime eng t.
Proof.
  intros Hs Htrack.
  destruct (track_event_outcome eng ev client data w Hs)
    as [(o & row & Ho & Hrow & Heq) | [(f & _ & Heq) | [(_ & Heq) | (e & _ & Heq)]]];
    rewrite Heq in Htrack; try discriminate.
  inversion Htrack; subst. clear Htrack Heq.
  revert Ho. unfold new_event.
  destruct (Py.getitem data "identifiers") as [ids|]; simpl; [|discriminate].
  destruct (Py.getitem ids "visitor_id") as [vid|] eqn:Hgvid; simpl; [|discriminate].
  destruct (Py.getitem ids "session_id") as [sid|] eqn:Hgsid; simpl; [|discriminate].
  destruct (Py.getitem data "page_info") as [page|]; simpl; [|discriminate].
  destruct (Py.getitem page "url") as [url|] eqn:Hgurl; simpl; [|discriminate].
  destruct (Py.getitem data "event_type") as [ty|]; simpl; [|discriminate].
  destruct (Py.get data "sdk_version" JNull) as [sdk|]; simpl; [|discriminate].
  destruct (parse_sent_at data) as [t|]; simpl; [|discriminate].
  intros Ho. inversion Ho; subst o. clear Ho.
  revert Hrow. unfold insert_event. simpl.
  destruct (required_text eng vid) as [cvid|] eqn:Hvid; simpl; [|discriminate].
  destruct (required_text eng sid) as [csid|] eqn:Hsid; simpl; [|discriminate].
  destruct (required_text eng url) as [curl|] eqn:Hurl; simpl; [|discriminate].
  destruct (required_text eng ty) as [cty|] eqn:Hty; simpl; [|discriminate].
  destruct (optional_text eng sdk) as [csdk|]; simpl; [|discriminate].
  match goal with |- (if ?c then _ else _) = _ -> _ => destruct c end; [|discriminate].
  intros Hrow. inversion Hrow; subst row. clear Hrow. simpl.
  apply required_text_bound in Hvid, Hsid, Hurl, Hty.
  exists (Event.mk (next_event_id w) (Client.id client) cvid csid curl None None cty
                   csdk (bind_datetime eng t) (default_utcnow ev) data),
         ids, page, vid, sid, url, ty, t.
  simpl. intuition.
Qed.

(** The submission of the scenario: its row holds its fields. *)
Lemma stored_row_reflects_payload_witness :
  exists row,
    events (snd (track_event strict_engine Scenario.clock Scenario.acme Scenario.click
                             Scenario.installed)) = [row]
    /\ Event.visitor_id row = "v1" /\ Event.page_url row = "https://x.test"
    /\ Event.id row = 1.
Proof.
  set (result := track_event strict_engine Scenario.clock Scenario.acme Scenario.click
                             Scenario.installed).
  assert (Hresult : result
                    = (Reply 201 (Receipt 1 "2024-01-02T03:04:05.000006"), snd result))
    by (vm_compute; reflexivity).
  destruct (stored_row_reflects_payload strict_engine Scenario.clock Scenario.acme
              Scenario.click Scenario.installed (snd result)
              (Receipt 1 "2024-01-02T03:04:05.000006") eq_refl Hresult)
    as (row & ids & page & vid & sid & url & ty & t & Hev & _ & Hid & _ & Hids & Hvid
        & _ & Hcvid & _ & _ & _ & Hpage & Hurl & _ & Hcurl & _).
  exists row. split; [exact Hev|].
  inversion Hids; subst ids. inversion Hvid; subst vid.
  inversion Hpage; subst page. inversion Hurl; subst url.
  inversion Hcvid. inversion Hcurl. repeat split. exact Hid.
Defined.

(** X18.  The hook attaches only a client whose key was presented: when a
    client is attached, the path is outside the allow-list, nothing was
    changed, the client is an active row of the clients table, and its key
    is the truthy [api_key] of a body that is a dict, or else the
    X-API-Key header. *)
Theorem attached_client_presented_its_key (eng : Engine) (req : request)
        (w w' : world) (client : Client.t) :
  authenticate eng req w = (Attached client, w') ->
  w' = w
  /\ existsb (String.eqb (path req)) public_paths = false
  /\ In client (clients w) /\ Client.is_active client = true
  /\ ((exists kvs v, json_body req = Some (JObj kvs)
                     /\ Py.lookup "api_key" kvs = Some v /\ Py.truthy v = true
                     /\ as_text eng v = Some (Client.api_key client))
      \/ x_api_key req = Some (Client.api_key client)).
Proof.
  unfold authenticate.
  destruct (existsb (String.eqb (path req)) public_paths); [discriminate|].
  set (raw := match json_body req with Some j => j | None => JNull end).
  assert (Hdata : forall body_key,
             Py.get (Py.or_else raw (JObj [])) "api_key" JNull = Ret body_key ->
             Py.truthy body_key = true ->
             exists kvs, json_body req = Some (JObj kvs)
                         /\ Py.lookup "api_key" kvs = Some body_key).
  { intros body_key Hget Htruthy. unfold Py.or_else in Hget.
    destruct (Py.truthy raw) eqn:Hraw.
    - unfold raw in *. destruct (json_body req) as [j|]; [|discriminate Hraw].
      destruct j; simpl in Hget; try discriminate.
      destruct (Py.lookup "api_key" kvs) as [v|] eqn:Hv.
      + inversion Hget; subst. exists kvs. split; reflexivity || exact Hv.
      + inversion Hget; subst. discriminate.
    - simpl in Hget. inversion Hget; subst. discriminate. }
  destruct (Py.get (Py.or_else raw (JObj [])) "api_key" JNull) as [body_key|e];
    [|discriminate].
  specialize (Hdata body_key eq_refl).
  destruct (Py.truthy body_key) eqn:Hbk.
  - cbv iota. rewrite Hbk. cbn [negb].
    destruct (as_text eng body_key) as [key|] eqn:Hkey; [|discriminate].
    destruct (find_client key (clients w)) as [c|] eqn:Hfind; [|discriminate].
    intros H. inversion H; subst.
    unfold find_client in Hfind. apply find_some in Hfind.
    destruct Hfind as [Hin Hc]. apply andb_true_iff in Hc. destruct Hc as [Hk Ha].
    apply String.eqb_eq in Hk.
    destruct (Hdata eq_refl) as (kvs & Hbody & Hv).
    repeat split; try assumption. left. exists kvs, body_key.
    repeat split; try assumption. congruence.
  - destruct (x_api_key req) as [h|]; [|discriminate].
    destruct (negb (Py.truthy (JStr h))); [discriminate|].
    cbn [as_text].
    destruct (find_client h (clients w)) as [c|] eqn:Hfind; [|discriminate].
    intros H. inversion H; subst.
    unfold find_client in Hfind. apply find_some in Hfind.
    destruct Hfind as [Hin Hc]. apply andb_true_iff in Hc. destruct Hc as [Hk Ha].
    apply String.eqb_eq in Hk.
    repeat split; try assumption. right. congruence.
Qed.

(** Acme's key in the header attaches Acme. *)
Lemma attached_client_presented_its_key_witness :
  authenticate strict_engine (with_header "/api/analytics/recent" "sk_acme")
               Scenario.busy
  = (Attached Scenario.acme, Scenario.busy)
  /\ In Scenario.acme (clients Scenario.busy).
Proof.
  split; [reflexivity|].
  apply (attached_client_presented_its_key strict_engine
           (with_header "/api/analytics/recent" "sk_acme")
           Scenario.busy Scenario.busy Scenario.acme eq_refl).
Defined.

(* ================================================================== *)
(** ** The feed after a submission *)

Lemma order_by_newest_last {A} (leb : A -> A -> bool) (l : list A) (x : A) :
  (forall e, In e l -> leb e x = false) ->
  order_by leb (l ++ [x]) = x :: order_by leb l.
Proof.
  unfold order_by. rewrite fold_right_app. simpl.
  induction l as [|e l IH]; simpl; intros Hall; [reflexivity|].
  rewrite IH by (intros e' He'; apply Hall; right; exact He').
  simpl. rewrite (Hall e (or_introl eq_refl)). reflexivity.
Qed.

(** X19.  A stored event that is more recent by [sent_at] than every
    event the tenant had comes first in the tenant's feed, followed by the
    first 49 events of the feed as it was. *)
Theorem newest_event_tops_the_feed (eng : Engine) (ev : env) (client : Client.t)
        (data : json) (w w' : world) (body : content) :
  session w = [] ->
  track_event eng ev client data w = (Reply 201 body, w') ->
  exists row,
    events w' = events w ++ [row]
    /\ ((forall e, In e (events w) -> Event.client_id e = Client.id client ->
                   wall_us (Event.sent_at e) < wall_us (Event.sent_at row)) ->
        recent_query client w' = row :: firstn 49 (recent_query client w)).
Proof.
  intros Hs Htrack.
  destruct (track_event_rows eng ev client data w Hs) as [Hsame|(row & Hev & Hcid & _)];
    rewrite Htrack in *; cbn [fst snd] in *.
  - exfalso.
    destruct (track_event_outcome eng ev client data w Hs)
      as [(o & row & _ & _ & Heq) | [(f & _ & Heq) | [(_ & Heq) | (e & _ & Heq)]]];
      rewrite Heq in Htrack; try discriminate.
    inversion Htrack; subst. simpl in Hsame.
    apply (f_equal (@List.length _)) in Hsame. rewrite length_app in Hsame.
    simpl in Hsame. lia.
  - exists row. split; [exact Hev|]. intros Hnewer.
    unfold recent_query. rewrite Hev, filter_app. cbn [filter].
    assert (Hown : owned_by client row = true).
    { unfold owned_by. apply Z.eqb_eq. exact Hcid. }
    rewrite Hown, order_by_newest_last.
    + match goal with
      | |- firstn 50 (row :: ?l) = _ => change (firstn 50 (row :: l))
                                        with (row :: firstn 49 l)
      end.
      f_equal. rewrite firstn_firstn. reflexivity.
    + intros e He. apply filter_In in He. destruct He as [Hin Hmine].
      unfold owned_by in Hmine. apply Z.eqb_eq in Hmine.
      unfold newest_first. apply Z.leb_gt. apply Hnewer; assumption.
Qed.

(** Acme's null-error report is sent at 12:10, after all it had. *)
Lemma newest_event_tops_the_feed_witness :
  map Event.id
      (recent_query Scenario.acme
         (snd (track_event strict_engine Scenario.clock Scenario.acme
                           Scenario.null_error Scenario.busy)))
  = [6; 5; 4; 2; 1].
Proof.
  set (result := track_event strict_engine Scenario.clock Scenario.acme
                             Scenario.null_error Scenario.busy).
  assert (Hresult : result
                    = (Reply 201 (Receipt 6 "2024-01-02T03:04:05.000006"), snd result))
    by (vm_compute; reflexivity).
  destruct (newest_event_tops_the_feed strict_engine Scenario.clock Scenario.acme
              Scenario.null_error Scenario.busy (snd result)
              (Receipt 6 "2024-01-02T03:04:05.000006") eq_refl Hresult)
    as (row & Hev & Htop).
  assert (Hrow : last (events (snd result)) row = row)
    by (rewrite Hev; apply last_last).
  rewrite Htop.
  - rewrite <- Hrow. reflexivity.
  - rewrite <- Hrow. intros e Hin _.
    repeat (destruct Hin as [<-|Hin]; [vm_compute; reflexivity|]). destruct Hin.
Defined.

(* ================================================================== *)
(** ** From the feed back to a submission *)

Lemma fromisoformat_isoformat (d : datetime) :
  valid_datetime d = true -> utcoffset d = None ->
  fromisoformat (isoformat d) = Ret d
  /\ find_char "Z" (isoformat d) = None.
Proof.
  intros Hvalid Hnaive.
  pose proof Hvalid as Hv. unfold valid_datetime in Hv.
  destruct (valid_reading_bounds _ _ _ _ _ _ _ Hv)
    as (Hy & Hmo & Hd & Hh & Hmi & Hs & Hus).
  assert (Hshape : exists p,
             exact_at p (microsecond d)
             /\ isoformat d
                = (format_date d
                   ++ String "T" (time_of_day d ++ fraction p (microsecond d)))%string).
  { unfold isoformat, format_time, time_of_day. rewrite Hnaive.
    cbn [format_offset]. rewrite append_empty_r.
    destruct (microsecond d =? 0) eqn:Hz.
    - exists Seconds. apply Z.eqb_eq in Hz. split; [exact Hz|].
      cbn [fraction]. rewrite !append_assoc. reflexivity.
    - exists Microseconds. split; [exact I|].
      cbn [fraction]. rewrite !append_assoc. reflexivity. }
  destruct Hshape as (p & Hexact & ->).
  split.
  - rewrite fromisoformat_parts.
    + unfold format_date.
      rewrite parse_date_parts by apply length_render_digits.
      rewrite int_field_render4, !int_field_render2 by assumption.
      rewrite (parse_isoformat_time_naive _ (hour d) (minute d) (second d)
                                          (microsecond d)).
      * unfold construct. rewrite Hv. cbn [valid_offset andb].
        clear - Hnaive. destruct d as [y mo dd h mi s us o].
        cbn [year month day hour minute second microsecond utcoffset] in *.
        subst o. reflexivity.
      * rewrite find_char_append, find_char_time_of_day, find_char_fraction;
          try reflexivity; discriminate.
      * rewrite find_char_append, find_char_time_of_day, find_char_fraction;
          try reflexivity; discriminate.
      * rewrite length_append, length_time_of_day. lia.
      * unfold time_of_day. rewrite !append_assoc.
        apply parse_hh_mm_ss_ff_render; assumption.
    + apply length_format_date.
    + intros Hempty. apply (f_equal String.length) in Hempty.
      rewrite length_append, length_time_of_day in Hempty. discriminate.
  - change (format_date d ++ String "T" (time_of_day d ++ fraction p (microsecond d)))%string
      with (format_date d ++ ("T" ++ (time_of_day d ++ fraction p (microsecond d))))%string.
    rewrite !find_char_append.
    rewrite find_char_format_date, find_char_time_of_day, find_char_fraction;
      try reflexivity; discriminate.
Qed.

(** X20.  The time a response shows can be sent back: for an event whose
    [sent_at] is a valid reading without offset, as the rows of the events
    table are, the [time] of its view in the recent feed and of its entry
    in the error listing, given as [sent_at] of a submission, parses to
    that very reading. *)
Theorem shown_time_parses_back (e : Event.t) (kvs : list (string * json)) :
  valid_datetime (Event.sent_at e) = true ->
  utcoffset (Event.sent_at e) = None ->
  (forall v, view_event e = Ret v ->
             Py.lookup "sent_at" kvs = Some (JStr (view_time v)) ->
             parse_sent_at (JObj kvs) = Ret (Event.sent_at e))
  /\ (forall v, view_error e = Ret v ->
                Py.lookup "sent_at" kvs = Some (JStr (err_time v)) ->
                parse_sent_at (JObj kvs) = Ret (Event.sent_at e))
  /\ find_char "Z" (isoformat (Event.sent_at e)) = None.
Proof.
  intros Hvalid Hnaive.
  destruct (fromisoformat_isoformat _ Hvalid Hnaive) as [Hparse HnoZ].
  assert (Hback : forall t, t = isoformat (Event.sent_at e) ->
                            Py.lookup "sent_at" kvs = Some (JStr t) ->
                            parse_sent_at (JObj kvs) = Ret (Event.sent_at e)).
  { intros t -> Hsent. unfold parse_sent_at. cbn [Py.getitem]. rewrite Hsent.
    cbn [bind]. rewrite (replace_absent _ _ _ HnoZ). exact Hparse. }
  split; [|split; [|exact HnoZ]].
  - intros v Hv. apply Hback.
    destruct (view_event_fields e v Hv) as (_ & _ & _ & _ & Htime). exact Htime.
  - intros v Hv. apply Hback.
    revert Hv. unfold view_error. intros Hv.
    repeat match type of Hv with
           | bind ?m _ = _ => destruct m; cbn [bind] in Hv; [|discriminate]
           end.
    inversion Hv. reflexivity.
Qed.

(** The newest error of the deployment, shown at 12:09. *)
Lemma shown_time_parses_back_witness :
  parse_sent_at (JObj [("sent_at", JStr "2024-01-01T12:09:00")])
  = Ret (Datetime.mk 2024 1 1 12 9 0 0 None).
Proof.
  destruct (shown_time_parses_back (Scenario.stored 5 1 9 "error" Scenario.boom)
              [("sent_at", JStr "2024-01-01T12:09:00")] eq_refl eq_refl)
    as (Hview & _).
  eapply Hview; reflexivity.
Defined.
